(** * Book-Store: the cart, order, catalog and login views over a relational store

    A shallow embedding of the Django views of the repository
    ([cart/views.py], [book/views.py], [user/views.py]) together with the
    rows they read and write ([book/models.py], [cart/models.py]) and the
    serializers that validate their bodies ([book/seializers.py],
    [user/serializers.py]).

    The relational store is a record of tables; every table is the list of
    its rows in primary-key order.  A view is a computation in a small
    state-and-exception monad: it threads the store, may leave early with an
    HTTP response (Python's [return Response(...)]) and may raise (caught by
    the view's own [except] clauses).  The views open no transaction and
    answer their failures with an ordinary response (an exception is caught
    inside the view), so nothing is ever rolled back: every [save()] and
    [delete()] stays when the view fails later on. *)

From Stdlib Require Import ZArith List String Ascii Bool Lia DecimalString.
Import ListNotations.
Open Scope string_scope.
Open Scope list_scope.
Open Scope Z_scope.

Set Implicit Arguments.

(** ** JSON values and HTTP responses *)

#[warnings="-register-all"]
Inductive json : Type :=
| JNull
| JBool (b : bool)
| JInt (z : Z)
| JStr (s : string)
| JArr (l : list json)
| JObj (fields : list (string * json)).

Record Response := mkResponse { status_code : Z; data : json }.

Definition HTTP_200_OK := 200.
Definition HTTP_201_CREATED := 201.
Definition HTTP_204_NO_CONTENT := 204.
Definition HTTP_400_BAD_REQUEST := 400.
Definition HTTP_401_UNAUTHORIZED := 401.
Definition HTTP_403_FORBIDDEN := 403.
Definition HTTP_404_NOT_FOUND := 404.
Definition HTTP_500_INTERNAL_SERVER_ERROR := 500.

(** Python's [str(n)] on an integer, used by the f-strings. *)
Definition str_int (z : Z) : string := NilZero.string_of_int (Z.to_int z).

(** ** Python strings

    A string of the model is the UTF-8 encoding of the text, as the JSON body
    of the request carries it; a character is the run of bytes that encodes
    one code point. *)

Definition code (a : ascii) : Z := Z.of_N (N_of_ascii a).

Definition of_codes (bytes : list Z) : string :=
  fold_right (fun b s => String (ascii_of_N (Z.to_N b)) s) "" bytes.

(** The number of bytes of the character that starts with a byte. *)
Definition width (lead : ascii) : nat :=
  if code lead <? 192 then 1
  else if code lead <? 224 then 2
  else if code lead <? 240 then 3
  else 4.

Fixpoint split_at (n : nat) (s : string) : string * string :=
  match n, s with
  | S n', String a rest => let (c, tail) := split_at n' rest in (String a c, tail)
  | _, _ => ("", s)
  end.

Fixpoint characters_of (fuel : nat) (s : string) : list string :=
  match fuel, s with
  | S fuel', String a _ =>
      let (c, rest) := split_at (width a) s in c :: characters_of fuel' rest
  | _, _ => []
  end.

(** The characters of a string: every character takes a byte at least, so
    the length in bytes is fuel enough. *)
Definition characters (s : string) : list string := characters_of (String.length s) s.

(** Python's [len(s)]. *)
Definition len (s : string) : Z := Z.of_nat (List.length (characters s)).

(** The characters for which [str.isspace] holds: U+0009 to U+000D, U+001C
    to U+0020, U+0085, U+00A0, U+1680, U+2000 to U+200A, U+2028, U+2029,
    U+202F, U+205F and U+3000. *)
Definition whitespace : list string :=
  map of_codes
    [[9]; [10]; [11]; [12]; [13]; [28]; [29]; [30]; [31]; [32];
     [194; 133]; [194; 160]; [225; 154; 128];
     [226; 128; 128]; [226; 128; 129]; [226; 128; 130]; [226; 128; 131];
     [226; 128; 132]; [226; 128; 133]; [226; 128; 134]; [226; 128; 135];
     [226; 128; 136]; [226; 128; 137]; [226; 128; 138];
     [226; 128; 168]; [226; 128; 169]; [226; 128; 175];
     [226; 129; 159]; [227; 128; 128]].

Definition isspace (c : string) : bool := existsb (String.eqb c) whitespace.

Fixpoint lstrip (cs : list string) : list string :=
  match cs with
  | c :: rest => if isspace c then lstrip rest else cs
  | [] => []
  end.

(** Python's [s.strip()]. *)
Definition strip (s : string) : string :=
  String.concat "" (rev (lstrip (rev (lstrip (characters s))))).

(** ** Rows ([models.py]) *)

(** Modelled from the spec: [user/models.py] (class [CustomUser]) is not among
    the sources; the fields are those of the spec's data model (identity,
    unique email, username, hashed password, verification flag, admin flag),
    plus [is_active], which Django's base user carries and its model backend
    consults. *)
Record CustomUser := mkUser {
  user_id : Z;
  email : string;
  username : string;
  password : string;
  is_verified : bool;
  is_superuser : bool;
  is_active : bool
}.

Record Book := mkBook {
  book_id : Z;
  name : string;
  author : string;
  description : option string;
  book_user : Z;
  price : Z;
  stock : Z
}.

Record CartModel := mkCart {
  cart_id : Z;
  cart_user : Z;
  total_price : Z;
  total_quantity : Z;
  is_ordered : bool
}.

Record CartItems := mkItem {
  item_id : Z;
  item_cart : Z;
  item_book : Z;
  quantity : Z;
  item_price : Z
}.

(** The database the project runs on (its settings are not among the
    sources) shows through the views in two places: the greatest value that
    a [PositiveIntegerField] column holds, which the model serializer also
    puts on such a field as its [max_value] (2147483647 on PostgreSQL,
    9223372036854775807 on SQLite), and the text of the error with which it
    refuses a line that a column constraint forbids. *)
Record Backend := mkBackend {
  positive_integer_max : Z;
  refusal : CartItems -> string
}.

(** The store: one list of rows per table, in primary-key order, the next
    value of each auto-increment key, and the backend that holds them. *)
Record DB := mkDB {
  users : list CustomUser;
  books : list Book;
  carts : list CartModel;
  items : list CartItems;
  next_book_id : Z;
  next_cart_id : Z;
  next_item_id : Z;
  backend : Backend
}.

(** Attribute assignment on a model instance held by the view. *)
Definition with_stock (v : Z) (b : Book) : Book :=
  mkBook (book_id b) (name b) (author b) (description b) (book_user b) (price b) v.
Definition with_quantity (v : Z) (l : CartItems) : CartItems :=
  mkItem (item_id l) (item_cart l) (item_book l) v (item_price l).
Definition with_price (v : Z) (l : CartItems) : CartItems :=
  mkItem (item_id l) (item_cart l) (item_book l) (quantity l) v.
Definition with_total_quantity (v : Z) (c : CartModel) : CartModel :=
  mkCart (cart_id c) (cart_user c) (total_price c) v (is_ordered c).
Definition with_total_price (v : Z) (c : CartModel) : CartModel :=
  mkCart (cart_id c) (cart_user c) v (total_quantity c) (is_ordered c).
Definition with_is_ordered (v : bool) (c : CartModel) : CartModel :=
  mkCart (cart_id c) (cart_user c) (total_price c) (total_quantity c) v.

Definition set_books (bs : list Book) (db : DB) : DB :=
  mkDB (users db) bs (carts db) (items db)
       (next_book_id db) (next_cart_id db) (next_item_id db) (backend db).
Definition set_carts (cs : list CartModel) (db : DB) : DB :=
  mkDB (users db) (books db) cs (items db)
       (next_book_id db) (next_cart_id db) (next_item_id db) (backend db).
Definition set_items (ls : list CartItems) (db : DB) : DB :=
  mkDB (users db) (books db) (carts db) ls
       (next_book_id db) (next_cart_id db) (next_item_id db) (backend db).

(** An INSERT: the new row takes the next key, which then moves on. *)
Definition insert_book (b : Book) (db : DB) : DB :=
  mkDB (users db) (books db ++ [b]) (carts db) (items db)
       (book_id b + 1) (next_cart_id db) (next_item_id db) (backend db).
Definition insert_cart (c : CartModel) (db : DB) : DB :=
  mkDB (users db) (books db) (carts db ++ [c]) (items db)
       (next_book_id db) (cart_id c + 1) (next_item_id db) (backend db).
Definition insert_item (l : CartItems) (db : DB) : DB :=
  mkDB (users db) (books db) (carts db) (items db ++ [l])
       (next_book_id db) (next_cart_id db) (item_id l + 1) (backend db).

(** ** The view monad *)

(** The exceptions the views meet.  [DoesNotExist] and
    [MultipleObjectsReturned] are those of a model, by its name; the second
    carries the number of rows that [get()] found.  [DatabaseError] stands
    for what the ORM raises when the database refuses a row
    ([IntegrityError], [DataError] or the driver's [OverflowError], all of
    them caught by [except Exception] only), with the backend's text. *)
Inductive Exception : Type :=
| DoesNotExist (model : string)
| MultipleObjectsReturned (model : string) (count : Z)
| ValueError (msg : string)
| DatabaseError (text : string)
| Http404
| NotFound
| ValidationError (detail : string).

(** [get()] fetches at most 21 rows ([MAX_GET_RESULTS]) and reports their
    number when it is below that. *)
Definition str (e : Exception) : string :=
  match e with
  | DoesNotExist model => model ++ " matching query does not exist."
  | MultipleObjectsReturned model count =>
      "get() returned more than one " ++ model ++ " -- it returned " ++
      (if count <? 21 then str_int count else "more than 20") ++ "!"
  | ValueError msg => msg
  | DatabaseError text => text
  | Http404 => "No Book matches the given query."
  | NotFound => "Not found."
  | ValidationError detail => detail
  end.

Inductive outcome (A : Type) : Type :=
| Val (a : A)
| Ret (r : Response)
| Exc (e : Exception).
Arguments Val {A} a.
Arguments Ret {A} r.
Arguments Exc {A} e.

Definition View (A : Type) : Type := DB -> outcome A * DB.

Definition ret {A} (a : A) : View A := fun db => (Val a, db).
Definition bind {A B} (m : View A) (k : A -> View B) : View B :=
  fun db =>
    match m db with
    | (Val a, db') => k a db'
    | (Ret r, db') => (Ret r, db')
    | (Exc e, db') => (Exc e, db')
    end.
Definition return_ {A} (r : Response) : View A := fun db => (Ret r, db).
Definition raise {A} (e : Exception) : View A := fun db => (Exc e, db).
Definition query {A} (f : DB -> A) : View A := fun db => (Val (f db), db).
Definition modify (f : DB -> DB) : View unit := fun db => (Val tt, f db).

(** [try: body except ...: handler]: the handler sees the store as the body
    left it. *)
Definition try_except {A} (body : View A) (handler : Exception -> View A) : View A :=
  fun db =>
    match body db with
    | (Exc e, db') => handler e db'
    | r => r
    end.

Declare Scope view_scope.
Delimit Scope view_scope with view.
Notation "x <- m ;; k" := (bind m (fun x => k))
  (at level 61, m at next level, right associativity) : view_scope.
Notation "m ;; k" := (bind m (fun _ => k))
  (at level 61, right associativity) : view_scope.
Notation "' pat <- m ;; k" := (bind m (fun x => match x with pat => k end))
  (at level 61, pat pattern, m at next level, right associativity) : view_scope.
Open Scope view_scope.

(** [for x in xs: body x] *)
Fixpoint for_each {A} (xs : list A) (body : A -> View unit) : View unit :=
  match xs with
  | [] => ret tt
  | x :: rest => body x ;; for_each rest body
  end.

(** A view method run to its response.  Every view of the repository ends in
    [except Exception], so the last case is the framework's own answer to an
    exception that no clause caught. *)
Definition run (v : View Response) (db : DB) : Response * DB :=
  match v db with
  | (Val r, db') => (r, db')
  | (Ret r, db') => (r, db')
  | (Exc e, db') =>
      (mkResponse HTTP_500_INTERNAL_SERVER_ERROR (JObj [("detail", JStr (str e))]), db')
  end.

(** ** The ORM calls the views make

    A [QuerySet] is lazy: it is the WHERE clause, evaluated against the table
    when the view consumes it.  The repository never slices a queryset. *)

Definition QuerySet (A : Type) : Type := A -> bool.

(** [Model.objects.get(...)] on the rows a clause selects. *)
Definition get_one {A} (model : string) (matches : list A) : View A :=
  match matches with
  | [] => raise (DoesNotExist model)
  | [x] => ret x
  | _ :: _ :: _ => raise (MultipleObjectsReturned model (Z.of_nat (List.length matches)))
  end.

(** [row.save()] on an instance loaded in the same request is an UPDATE by
    primary key: the row of that key is replaced. *)
Definition put_row {A} (key : A -> Z) (y : A) (l : list A) : list A :=
  map (fun x => if key x =? key y then y else x) l.

Module BookObjects.
Definition filter (qs : QuerySet Book) : View (list Book) :=
  query (fun db => List.filter qs (books db)).
(** [Book.objects.get(id=pk)] *)
Definition get (pk : Z) : View Book :=
  matches <- filter (fun b => book_id b =? pk) ;; get_one "Book" matches.
(** [book.save()].  The one view that reaches it saves a stored stock less
    a stored quantity that it covers. *)
Definition save (b : Book) : View unit :=
  modify (fun db => set_books (put_row book_id b (books db)) db).
(** [book.delete()]: the row goes, and with it (on_delete CASCADE) the cart
    lines that reference it. *)
Definition delete (b : Book) : View unit :=
  modify (fun db =>
    mkDB (users db)
         (List.filter (fun x => negb (book_id x =? book_id b)) (books db))
         (carts db)
         (List.filter (fun l => negb (item_book l =? book_id b)) (items db))
         (next_book_id db) (next_cart_id db) (next_item_id db) (backend db)).
End BookObjects.

(** The clause [user=request.user, is_ordered=...] on the carts. *)
Definition owned_by (user : CustomUser) (ordered : bool) : QuerySet CartModel :=
  fun c => (cart_user c =? user_id user) && Bool.eqb (is_ordered c) ordered.

Module CartObjects.
Definition filter (qs : QuerySet CartModel) : View (list CartModel) :=
  query (fun db => List.filter qs (carts db)).
(** [.first()]: the selected row of least key, or [None]. *)
Definition first (qs : QuerySet CartModel) : View (option CartModel) :=
  matches <- filter qs ;; ret (head matches).
Definition get (qs : QuerySet CartModel) : View CartModel :=
  matches <- filter qs ;; get_one "CartModel" matches.
(** [CartModel.objects.create(user=u)], the other columns at their defaults. *)
Definition create (user : CustomUser) : View CartModel :=
  pk <- query next_cart_id ;;
  let c := mkCart pk (user_id user) 0 0 false in
  modify (insert_cart c) ;;
  ret c.
(** [CartModel.objects.get_or_create(user=u, is_ordered=False)] *)
Definition get_or_create (user : CustomUser) : View (CartModel * bool) :=
  try_except
    (c <- get (owned_by user false) ;; ret (c, false))
    (fun e => match e with
              | DoesNotExist _ => c <- create user ;; ret (c, true)
              | _ => raise e
              end).
(** [active_cart.save()].  The totals that the views save are sums over
    the stored lines of the cart. *)
Definition save (c : CartModel) : View unit :=
  modify (fun db => set_carts (put_row cart_id c (carts db)) db).
(** [queryset.delete()]: the selected carts go, and with them (on_delete
    CASCADE) the lines that reference one of them. *)
Definition delete (qs : QuerySet CartModel) : View unit :=
  modify (fun db =>
    let gone := map cart_id (List.filter qs (carts db)) in
    mkDB (users db) (books db)
         (List.filter (fun c => negb (qs c)) (carts db))
         (List.filter (fun l => negb (existsb (Z.eqb (item_cart l)) gone)) (items db))
         (next_book_id db) (next_cart_id db) (next_item_id db) (backend db)).
End CartObjects.

(** A value that a [PositiveIntegerField] column of the backend holds. *)
Definition storable (engine : Backend) (v : Z) : bool :=
  (0 <=? v) && (v <=? positive_integer_max engine).

(** What stands on the right of [cart=...] in a filter on the lines: a model
    instance, or a whole queryset. *)
Inductive cart_rhs : Type :=
| Instance (c : CartModel)
| Unsliced (qs : QuerySet CartModel).

Module ItemObjects.
Definition filter (qs : QuerySet CartItems) : View (list CartItems) :=
  query (fun db => List.filter qs (items db)).
Definition first (qs : QuerySet CartItems) : View (option CartItems) :=
  matches <- filter qs ;; ret (head matches).
Definition exists_ (qs : QuerySet CartItems) : View bool :=
  matches <- filter qs ;; ret (match matches with [] => false | _ :: _ => true end).
(** [CartItems.objects.filter(cart=rhs)].  With a model instance the clause
    compares the foreign key with the instance's key.  With a queryset that
    is not sliced to one row, Django refuses the exact lookup: the [exact]
    lookup ([django/db/models/lookups.py], class [Exact]) raises
    [ValueError] unless the right-hand query [has_limit_one()] (when the
    filter is built or, in older releases, when the queryset is first
    evaluated: either way before the body of a loop over it runs).  This is
    so from Django 2.0 on; the models of the repository use
    [PositiveBigIntegerField], which Django has from 3.1. *)
Definition filter_cart (rhs : cart_rhs) : View (QuerySet CartItems) :=
  match rhs with
  | Instance c => ret (fun l => item_cart l =? cart_id c)
  | Unsliced _ =>
      raise (ValueError
        "The QuerySet value for an exact lookup must be limited to one result using slicing.")
  end.
Definition create (cart book : Z) : View CartItems :=
  pk <- query next_item_id ;;
  let l := mkItem pk cart book 0 0 in
  modify (insert_item l) ;;
  ret l.
(** [CartItems.objects.get_or_create(cart=c, book=b)] *)
Definition get_or_create (c : CartModel) (b : Book) : View (CartItems * bool) :=
  try_except
    (matches <- filter (fun l => (item_cart l =? cart_id c) && (item_book l =? book_id b)) ;;
     l <- get_one "CartItems" matches ;; ret (l, false))
    (fun e => match e with
              | DoesNotExist _ => l <- create (cart_id c) (book_id b) ;; ret (l, true)
              | _ => raise e
              end).
(** [cart_item.save()]: an UPDATE by primary key.  [quantity] and [price]
    are [PositiveIntegerField]s, and here the values come from the request:
    the database refuses the row when one of them is negative or beyond the
    range of the column, and the ORM raises. *)
Definition save (l : CartItems) : View unit :=
  engine <- query backend ;;
  if storable engine (quantity l) && storable engine (item_price l) then
    modify (fun db => set_items (put_row item_id l (items db)) db)
  else raise (DatabaseError (refusal engine l)).
(** [cart_item.delete()] *)
Definition delete (l : CartItems) : View unit :=
  modify (fun db =>
    set_items (List.filter (fun x => negb (item_id x =? item_id l)) (items db)) db).
(** [item.book]: the foreign key is followed when the attribute is first
    read, against the store as it then is. *)
Definition book (l : CartItems) : View Book := BookObjects.get (item_book l).
End ItemObjects.

(** [models.Sum]: NULL (Python's [None]) over no rows. *)
Definition Sum (xs : list Z) : option Z :=
  match xs with
  | [] => None
  | _ :: _ => Some (fold_right Z.add 0 xs)
  end.

(** Python's [v or 0] on an aggregate. *)
Definition or_0 (v : option Z) : Z :=
  match v with
  | Some z => if z =? 0 then 0 else z
  | None => 0
  end.

(** [CartItems.objects.filter(cart=c).aggregate(total_quantity=Sum('quantity'),
    total_price=Sum('price'))] *)
Definition aggregate_totals (qs : QuerySet CartItems) : View (option Z * option Z) :=
  ls <- ItemObjects.filter qs ;;
  ret (Sum (map quantity ls), Sum (map item_price ls)).

(** ** Serializers ([cart/serializers.py]) *)

(** [CartSerializer(cart).data].  The nested [items] field is read-only and
    [CartModel] has no attribute of that name (the foreign key of the lines
    declares no [related_name]), so the field is skipped on output. *)
Definition CartSerializer (c : CartModel) : json :=
  JObj [("id", JInt (cart_id c)); ("user", JInt (cart_user c));
        ("total_price", JInt (total_price c));
        ("total_quantity", JInt (total_quantity c));
        ("is_ordered", JBool (is_ordered c))].

(** ** Requests *)

(** The JSON body of a cart POST.  The request schema declares both fields as
    integers; [None] is a key that is absent (or null), which is what
    [request.data.get] then returns. *)
Record CartPost := mkCartPost {
  post_book_id : option Z;
  post_quantity : option Z
}.

(** Python truthiness of what [request.data.get] returned. *)
Definition truthy (v : option Z) : bool :=
  match v with
  | Some z => negb (z =? 0)
  | None => false
  end.

Definition int_of (v : option Z) : Z :=
  match v with Some z => z | None => 0 end.

(** ** [cart/views.py] *)

Module CartsViews.

(** [CartsViews.get] *)
Definition get (user : CustomUser) : View Response :=
  try_except
    (active_cart <- CartObjects.get (owned_by user false) ;;
     return_ (mkResponse HTTP_200_OK
       (JObj [("message", JStr "The active cart of the user is Fetched");
              ("status", JStr "success");
              ("cart", CartSerializer active_cart)])))
    (fun e =>
       match e with
       | DoesNotExist _ =>
           return_ (mkResponse HTTP_404_NOT_FOUND
             (JObj [("message", JStr "No active cart found for the user");
                    ("status", JStr "error")]))
       | _ =>
           return_ (mkResponse HTTP_500_INTERNAL_SERVER_ERROR
             (JObj [("message", JStr "An unexpected error occurred");
                    ("status", JStr "error");
                    ("error", JStr (str e))]))
       end).

Definition insufficient_stock (book : Book) : Response :=
  mkResponse HTTP_400_BAD_REQUEST
    (JObj [("message",
            JStr ("Insufficient stock. Only " ++ str_int (stock book) ++ " available.")%string)]).

(** [CartsViews.post] *)
Definition post (user : CustomUser) (data : CartPost) : View Response :=
  try_except
    (let book_id := post_book_id data in
     let qty := post_quantity data in
     if negb (truthy book_id) || negb (truthy qty) then
       return_ (mkResponse HTTP_400_BAD_REQUEST
         (JObj [("message", JStr "book_id and quantity are required.")]))
     else
       let qty := int_of qty in
       book <- try_except (BookObjects.get (int_of book_id))
                 (fun e =>
                    match e with
                    | DoesNotExist _ =>
                        return_ (mkResponse HTTP_404_NOT_FOUND
                          (JObj [("message", JStr "Book does not exist in the database.")]))
                    | _ => raise e
                    end) ;;
       if stock book <? qty then return_ (insufficient_stock book)
       else
         ' (active_cart, _) <- CartObjects.get_or_create user ;;
         ' (cart_item, created) <- ItemObjects.get_or_create active_cart book ;;
         cart_item <-
           (if created : bool then ret (with_quantity qty cart_item)
            else
              let new_quantity := quantity cart_item + qty in
              if stock book <? new_quantity then return_ (insufficient_stock book)
              else ret (with_quantity new_quantity cart_item)) ;;
         let cart_item := with_price (price book * quantity cart_item) cart_item in
         ItemObjects.save cart_item ;;
         qs <- ItemObjects.filter_cart (Instance active_cart) ;;
         ' (sum_quantity, sum_price) <- aggregate_totals qs ;;
         let active_cart := with_total_quantity (or_0 sum_quantity) active_cart in
         let active_cart := with_total_price (or_0 sum_price) active_cart in
         CartObjects.save active_cart ;;
         let message :=
           if negb created then "Cart updated successfully"
           else "New cart created successfully" in
         return_ (mkResponse (if negb created then HTTP_200_OK else HTTP_201_CREATED)
           (JObj [("message", JStr message);
                  ("status", JStr "success");
                  ("cart", CartSerializer active_cart)])))
    (fun e =>
       return_ (mkResponse HTTP_500_INTERNAL_SERVER_ERROR
         (JObj [("message", JStr "An error occurred while processing the request.");
                ("status", JStr "error");
                ("error", JStr (str e))]))).

End CartsViews.

Module CartsViewsByID.

(** [CartsViewsByID.delete]; [pk] is the integer of the URL. *)
Definition delete (user : CustomUser) (pk : Z) : View Response :=
  try_except
    (if negb (pk =? 0) then
       active_cart <- CartObjects.first (owned_by user false) ;;
       match active_cart with
       | None =>
           return_ (mkResponse HTTP_404_NOT_FOUND
             (JObj [("message", JStr "No active cart found.")]))
       | Some active_cart =>
           cart_item <- ItemObjects.first
             (fun l => (item_book l =? pk) && (item_cart l =? cart_id active_cart)) ;;
           match cart_item with
           | None =>
               return_ (mkResponse HTTP_404_NOT_FOUND
                 (JObj [("message", JStr "No such item found in the active cart.")]))
           | Some cart_item =>
               ItemObjects.delete cart_item ;;
               qs <- ItemObjects.filter_cart (Instance active_cart) ;;
               ' (sum_quantity, sum_price) <- aggregate_totals qs ;;
               let active_cart := with_total_quantity (or_0 sum_quantity) active_cart in
               let active_cart := with_total_price (or_0 sum_price) active_cart in
               CartObjects.save active_cart ;;
               return_ (mkResponse HTTP_204_NO_CONTENT
                 (JObj [("message", JStr "Item deleted successfully")]))
           end
       end
     else
       return_ (mkResponse HTTP_400_BAD_REQUEST
         (JObj [("message", JStr "Item ID is required.")])))
    (fun e =>
       return_ (mkResponse HTTP_500_INTERNAL_SERVER_ERROR
         (JObj [("message", JStr "An unexpected error occurred.");
                ("error", JStr (str e))]))).

End CartsViewsByID.

Module OrderViews.

(** [OrderViews.get] *)
Definition get (user : CustomUser) : View Response :=
  try_except
    (let ordered_cart := owned_by user true in
     found <- CartObjects.filter ordered_cart ;;
     match found with
     | [] =>
         return_ (mkResponse HTTP_404_NOT_FOUND
           (JObj [("message", JStr "No order Found"); ("status", JStr "Error")]))
     | _ :: _ =>
         return_ (mkResponse HTTP_200_OK
           (JObj [("message", JStr "Order details fetched successfully.");
                  ("data", JArr (map CartSerializer found))]))
     end)
    (fun e =>
       return_ (mkResponse HTTP_500_INTERNAL_SERVER_ERROR
         (JObj [("message", JStr "An error occurred while retrieving the orders.");
                ("error", JStr (str e))]))).

(** The body of the loop of [OrderViews.post]: the stock check of one line
    and, when it passes, the decrement and [book.save()] of that same line. *)
Definition order_line (item : CartItems) : View unit :=
  book <- ItemObjects.book item ;;
  if quantity item >? stock book then
    return_ (mkResponse HTTP_400_BAD_REQUEST
      (JObj [("message",
              JStr ("Insufficient stock for the book " ++ name book ++ ".")%string)]))
  else
    let book := with_stock (stock book - quantity item) book in
    BookObjects.save book.

(** [OrderViews.post] *)
Definition post (user : CustomUser) : View Response :=
  try_except
    (active_cart <- CartObjects.first (owned_by user false) ;;
     match active_cart with
     | Some active_cart =>
         cart_items <- ItemObjects.filter_cart (Instance active_cart) ;;
         non_empty <- ItemObjects.exists_ cart_items ;;
         if negb non_empty then
           return_ (mkResponse HTTP_400_BAD_REQUEST
             (JObj [("message", JStr "The cart is empty.")]))
         else
           lines <- ItemObjects.filter cart_items ;;
           for_each lines order_line ;;
           let active_cart := with_is_ordered true active_cart in
           CartObjects.save active_cart ;;
           return_ (mkResponse HTTP_200_OK
             (JObj [("message", JStr "The order placed"); ("status", JStr "Success")]))
     | None =>
         return_ (mkResponse HTTP_400_BAD_REQUEST
           (JObj [("message", JStr "No active cart to order.")]))
     end)
    (fun e =>
       return_ (mkResponse HTTP_500_INTERNAL_SERVER_ERROR
         (JObj [("message", JStr "An error occurred during the ordering process.");
                ("error", JStr (str e))]))).

End OrderViews.

Module OrderViewsByID.

(** The body of the loop of [OrderViewsByID.delete]. *)
Definition restore_line (item : CartItems) : View unit :=
  book <- ItemObjects.book item ;;
  let book := with_stock (stock book + quantity item) book in
  BookObjects.save book.

(** [OrderViewsByID.delete].  [ordered_cart] is the queryset itself (the
    source calls neither [first()] nor [get()] on it), and it is this
    queryset that the filter on the lines receives. *)
Definition delete (user : CustomUser) (pk : Z) : View Response :=
  try_except
    (let ordered_cart : QuerySet CartModel :=
       fun c => owned_by user true c && (cart_id c =? pk) in
     found <- CartObjects.filter ordered_cart ;;
     match found with
     | [] =>
         return_ (mkResponse HTTP_404_NOT_FOUND
           (JObj [("message", JStr "No order found to cancel.")]))
     | _ :: _ =>
         cart_items <- ItemObjects.filter_cart (Unsliced ordered_cart) ;;
         lines <- ItemObjects.filter cart_items ;;
         for_each lines restore_line ;;
         CartObjects.delete ordered_cart ;;
         return_ (mkResponse HTTP_200_OK
           (JObj [("message", JStr "Order cancelled successfully.")]))
     end)
    (fun e =>
       return_ (mkResponse HTTP_500_INTERNAL_SERVER_ERROR
         (JObj [("message", JStr "An error occurred while cancelling the order.");
                ("error", JStr (str e))]))).

End OrderViewsByID.

(** ** [book/seializers.py] and [book/views.py] *)

(** The body of a catalog create or update.  [None] is an absent key; the
    description may also be sent as null. *)
Record BookPayload := mkBookPayload {
  p_name : option string;
  p_author : option string;
  p_description : option (option string);
  p_price : option Z;
  p_stock : option Z
}.

Definition BookSerializer (b : Book) : json :=
  JObj [("id", JInt (book_id b)); ("name", JStr (name b)); ("author", JStr (author b));
        ("description", match description b with Some d => JStr d | None => JNull end);
        ("user", JInt (book_user b)); ("price", JInt (price b)); ("stock", JInt (stock b))].

(** *** The fields of a serializer (Django REST framework)

    An error of a field is an [ErrorDetail]: a message and its code. *)
Record ErrorDetail := mkErrorDetail { error_string : string; error_code : string }.

Definition required : ErrorDetail :=
  mkErrorDetail "This field is required." "required".
Definition blank : ErrorDetail :=
  mkErrorDetail "This field may not be blank." "blank".
Definition max_length (n : Z) : ErrorDetail :=
  mkErrorDetail ("Ensure this field has no more than " ++ str_int n ++ " characters.")
    "max_length".
Definition null_characters : ErrorDetail :=
  mkErrorDetail "Null characters are not allowed." "null_characters_not_allowed".
Definition max_value (n : Z) : ErrorDetail :=
  mkErrorDetail ("Ensure this value is less than or equal to " ++ str_int n ++ ".")
    "max_value".
Definition min_value (n : Z) : ErrorDetail :=
  mkErrorDetail ("Ensure this value is greater than or equal to " ++ str_int n ++ ".")
    "min_value".
Definition unique : ErrorDetail :=
  mkErrorDetail "book with this name already exists." "unique".
Definition invalid_email : ErrorDetail :=
  mkErrorDetail "Enter a valid email address." "invalid".

(** The validators that a [CharField] adds to its own, in their order: the
    length in characters, when the column has a [max_length], and the
    absence of the null character.  (Its last validator forbids surrogate
    code points, which no UTF-8 text holds.) *)
Definition CharField_validators (limit : option Z) (v : string) : list ErrorDetail :=
  match limit with
  | Some n => if len v >? n then [max_length n] else []
  | None => []
  end ++
  (if existsb (String.eqb (of_codes [0])) (characters v) then [null_characters] else []).

(** What a field makes of its input: the validated value or the errors. *)
Definition validated {A} (v : A) (errors : list ErrorDetail) : list ErrorDetail + A :=
  match errors with
  | [] => inr v
  | _ :: _ => inl errors
  end.

(** A required [CharField]: the input is trimmed ([trim_whitespace]), a
    blank one refused, and the validators see the trimmed value: those that
    the field was given ([before]), then its own, then those that a subclass
    appends ([after]). *)
Definition CharField (limit : option Z) (before after : string -> list ErrorDetail)
    (input : option string) : list ErrorDetail + string :=
  match input with
  | None => inl [required]
  | Some raw =>
      if String.eqb (strip raw) "" then inl [blank]
      else validated (strip raw)
             (before (strip raw) ++ CharField_validators limit (strip raw) ++
              after (strip raw))
  end.

Definition no_validator (v : string) : list ErrorDetail := [].

(** A [CharField] that is not required and may be null or blank (a
    [TextField] with [null=True, blank=True]): an absent key is skipped,
    null stays null, a blank input is the empty string, unvalidated. *)
Definition optional_CharField (input : option (option string))
  : list ErrorDetail + option (option string) :=
  match input with
  | None => inr None
  | Some None => inr (Some None)
  | Some (Some raw) =>
      if String.eqb (strip raw) "" then inr (Some (Some ""))
      else validated (Some (Some (strip raw))) (CharField_validators None (strip raw))
  end.

(** A required [IntegerField] with [min_value=0] and the [max_value] of the
    backend, which is what the model serializer makes of a
    [PositiveIntegerField]. *)
Definition IntegerField (limit : Z) (input : option Z) : list ErrorDetail + Z :=
  match input with
  | None => inl [required]
  | Some v =>
      validated v ((if v >? limit then [max_value limit] else []) ++
                   (if v <? 0 then [min_value 0] else []))
  end.

(** [serializer.errors], the fields that have errors in their order, and
    the text that an f-string makes of it (the [repr] of a dict of lists of
    [ErrorDetail]). *)
Definition errors_of {A} (field : string) (r : list ErrorDetail + A)
  : list (string * list ErrorDetail) :=
  match r with
  | inl errors => [(field, errors)]
  | inr _ => []
  end.

Definition repr_ErrorDetail (e : ErrorDetail) : string :=
  "ErrorDetail(string='" ++ error_string e ++ "', code='" ++ error_code e ++ "')".

Definition repr_errors (errors : list (string * list ErrorDetail)) : string :=
  "{" ++
  String.concat ", "
    (map (fun f => ("'" ++ fst f ++ "': [" ++
                    String.concat ", " (map repr_ErrorDetail (snd f)) ++ "]")%string)
         errors) ++
  "}".

(** The [UniqueValidator] of the name: no row other than the one under
    update has the value. *)
Definition UniqueValidator (rows : list Book) (instance : option Book) (v : string)
  : list ErrorDetail :=
  match List.filter (fun b =>
          String.eqb (name b) v &&
          match instance with Some i => negb (book_id b =? book_id i) | None => true end)
          rows with
  | [] => []
  | _ :: _ => [unique]
  end.

(** [serializer.is_valid(raise_exception=True)] for [BookSerializer]:
    [instance] is the row under update, if any.  Every field is validated
    and the errors of all of them are raised together; on success the
    validated fields, of which the description is absent when the body has
    none. *)
Definition BookSerializer_is_valid (instance : option Book) (data : BookPayload)
  : View (string * string * option (option string) * Z * Z) :=
  rows <- query books ;;
  engine <- query backend ;;
  let name_ :=
    CharField (Some 255) (UniqueValidator rows instance) no_validator (p_name data) in
  let author_ := CharField (Some 255) no_validator no_validator (p_author data) in
  let description_ := optional_CharField (p_description data) in
  let price_ := IntegerField (positive_integer_max engine) (p_price data) in
  let stock_ := IntegerField (positive_integer_max engine) (p_stock data) in
  match name_, author_, description_, price_, stock_ with
  | inr n, inr a, inr d, inr p, inr s => ret (n, a, d, p, s)
  | _, _, _, _, _ =>
      raise (ValidationError
        (repr_errors (errors_of "name" name_ ++ errors_of "author" author_ ++
                      errors_of "description" description_ ++
                      errors_of "price" price_ ++ errors_of "stock" stock_)))
  end.

Module BookViewset.

Definition permission_denied : Response :=
  mkResponse HTTP_403_FORBIDDEN
    (JObj [("error", JStr "You do not have permission to perform this action.")]).

(** [self.get_object()]: the generic view answers a missing row with Django's
    [Http404]. *)
Definition get_object (pk : Z) : View Book :=
  try_except (BookObjects.get pk) (fun _ => raise Http404).

(** [BookViewset.list] *)
Definition list (user : CustomUser) : View Response :=
  try_except
    (all <- BookObjects.filter (fun _ => true) ;;
     return_ (mkResponse HTTP_200_OK (JArr (map BookSerializer all))))
    (fun e =>
       return_ (mkResponse HTTP_500_INTERNAL_SERVER_ERROR
         (JObj [("error", JStr ("Error retrieving books: " ++ str e)%string)]))).

(** [BookViewset.create] *)
Definition create (user : CustomUser) (data : BookPayload) : View Response :=
  if negb (is_superuser user) then return_ permission_denied
  else
    try_except
      (' (n, a, d, p, s) <- BookSerializer_is_valid None data ;;
       pk <- query next_book_id ;;
       let book :=
         mkBook pk n a (match d with Some d => d | None => None end) (user_id user) p s in
       modify (insert_book book) ;;
       return_ (mkResponse HTTP_201_CREATED
         (JObj [("message", JStr "Book created successfully");
                ("status", JStr "Success");
                ("data", BookSerializer book)])))
      (fun e =>
         match e with
         | ValidationError detail =>
             return_ (mkResponse HTTP_400_BAD_REQUEST
               (JObj [("error", JStr ("Invalid data: " ++ detail)%string)]))
         | _ =>
             return_ (mkResponse HTTP_500_INTERNAL_SERVER_ERROR
               (JObj [("error", JStr ("Error creating book: " ++ str e)%string)]))
         end).

(** [BookViewset.update] *)
Definition update (user : CustomUser) (pk : Z) (data : BookPayload) : View Response :=
  if negb (is_superuser user) then return_ permission_denied
  else
    try_except
      (book <- get_object pk ;;
       ' (n, a, d, p, s) <- BookSerializer_is_valid (Some book) data ;;
       let book :=
         mkBook (book_id book) n a
                (match d with Some d => d | None => description book end)
                (book_user book) p s in
       BookObjects.save book ;;
       return_ (mkResponse HTTP_200_OK
         (JObj [("message", JStr "Book updated successfully");
                ("status", JStr "Success");
                ("data", BookSerializer book)])))
      (fun e =>
         match e with
         | NotFound =>
             return_ (mkResponse HTTP_404_NOT_FOUND (JObj [("error", JStr "Book not found.")]))
         | ValidationError detail =>
             return_ (mkResponse HTTP_400_BAD_REQUEST
               (JObj [("error", JStr ("Invalid data: " ++ detail)%string)]))
         | _ =>
             return_ (mkResponse HTTP_500_INTERNAL_SERVER_ERROR
               (JObj [("error", JStr ("Error updating book: " ++ str e)%string)]))
         end).

(** [BookViewset.destroy]: the row goes, and with it (on_delete CASCADE) the
    cart lines of that book. *)
Definition destroy (user : CustomUser) (pk : Z) : View Response :=
  if negb (is_superuser user) then return_ permission_denied
  else
    try_except
      (book <- get_object pk ;;
       BookObjects.delete book ;;
       return_ (mkResponse HTTP_204_NO_CONTENT JNull))
      (fun e =>
         match e with
         | NotFound =>
             return_ (mkResponse HTTP_404_NOT_FOUND (JObj [("error", JStr "Book not found.")]))
         | _ =>
             return_ (mkResponse HTTP_500_INTERNAL_SERVER_ERROR
               (JObj [("error", JStr ("Error deleting book: " ++ str e)%string)]))
         end).

End BookViewset.

(** ** Authentication of a request

    The cart, order and catalog views declare [IsAuthenticated]: the
    framework answers 401 itself when the bearer token names no user, and
    calls the view method otherwise. *)
Definition authenticated (request_user : option CustomUser)
    (method : CustomUser -> View Response) (db : DB) : Response * DB :=
  match request_user with
  | Some user => run (method user) db
  | None =>
      (mkResponse HTTP_401_UNAUTHORIZED
         (JObj [("detail", JStr "Authentication credentials were not provided.")]), db)
  end.

(** ** [user/serializers.py] and [user/views.py]: login *)

Record LoginData := mkLoginData {
  login_email : option string;
  login_password : option string
}.

Section Login.

(** The password hasher, the e-mail format validator and the token issuer are
    library code; the view is modelled over any of them. *)
Variable check_password : string -> string -> bool.
Variable valid_email : string -> bool.
Variable refresh_for_user : CustomUser -> string.
Variable access_token : CustomUser -> string.

(** The two fields of [UserLoginSerializer]: an [EmailField], which is a
    [CharField] whose last validator is the e-mail format, and a
    [CharField]; both are required, trimmed and refused when blank. *)
Definition email_field (data : LoginData) : list ErrorDetail + string :=
  CharField None no_validator (fun v => if valid_email v then [] else [invalid_email])
    (login_email data).

Definition password_field (data : LoginData) : list ErrorDetail + string :=
  CharField None no_validator no_validator (login_password data).

(** [UserLoginSerializer(data=...).is_valid()]: on success the validated
    (trimmed) e-mail and password.  The [validate] method then asks again
    that both are there, which they are. *)
Definition UserLoginSerializer_is_valid (data : LoginData) : option (string * string) :=
  match email_field data, password_field data with
  | inr e, inr p => Some (e, p)
  | _, _ => None
  end.

(** [serializer.errors], as the response renders it. *)
Definition UserLoginSerializer_errors (data : LoginData) : json :=
  JObj (map (fun f => (fst f, JArr (map (fun e => JStr (error_string e)) (snd f))))
          (errors_of "email" (email_field data) ++
           errors_of "password" (password_field data))).

(** Modelled from the spec: [django.contrib.auth.authenticate(email=...,
    password=...)] over the user directory, whose model and manager
    ([user/models.py]) are not among the sources: the user is looked up by
    e-mail, and is returned when the password matches its hash and the
    account is active; any mismatch gives [None]. *)
Definition authenticate (e p : string) : View (option CustomUser) :=
  try_except
    (matches <- query (fun db => List.filter (fun u => String.eqb (email u) e) (users db)) ;;
     user <- get_one "CustomUser" matches ;;
     if check_password p (password user) && is_active user then ret (Some user)
     else ret None)
    (fun ex => match ex with DoesNotExist _ => ret None | _ => raise ex end).

(** [LoginUser.post] *)
Definition LoginUser_post (data : LoginData) : View Response :=
  try_except
    (match UserLoginSerializer_is_valid data with
     | Some (e, p) =>
         user <- authenticate e p ;;
         match user with
         | Some user =>
             return_ (mkResponse HTTP_200_OK
               (JObj [("message", JStr "Login successful!");
                      ("status", JStr "success");
                      ("data", JObj [("email", JStr e)]);
                      ("refresh", JStr (refresh_for_user user));
                      ("access", JStr (access_token user))]))
         | None =>
             return_ (mkResponse HTTP_400_BAD_REQUEST
               (JObj [("message", JStr "Login failed");
                      ("error", JStr "Invalid email or password")]))
         end
     | None =>
         return_ (mkResponse HTTP_400_BAD_REQUEST
           (JObj [("message", JStr "Unexpected error occurred");
                  ("status", JStr "error");
                  ("error", UserLoginSerializer_errors data)]))
     end)
    (fun e =>
       return_ (mkResponse HTTP_500_INTERNAL_SERVER_ERROR
         (JObj [("message", JStr "An internal error occurred");
                ("status", JStr "error");
                ("error", JStr (str e))]))).

End Login.

(** ** The operations of the API, as the client calls them *)

Definition get_active (user : CustomUser) := run (CartsViews.get user).
Definition add_or_update (user : CustomUser) (data : CartPost) := run (CartsViews.post user data).
Definition remove_item (user : CustomUser) (pk : Z) := run (CartsViewsByID.delete user pk).
Definition list_orders (user : CustomUser) := run (OrderViews.get user).
Definition place_order (user : CustomUser) := run (OrderViews.post user).
Definition cancel_order (user : CustomUser) (pk : Z) := run (OrderViewsByID.delete user pk).

(** The operations above and the catalog's, as one type of requests from an
    authenticated caller. *)
Inductive Operation : Type :=
| GetActive
| AddOrUpdate (data : CartPost)
| RemoveItem (pk : Z)
| ListOrders
| PlaceOrder
| CancelOrder (pk : Z)
| CatalogList
| CatalogCreate (data : BookPayload)
| CatalogUpdate (pk : Z) (data : BookPayload)
| CatalogDestroy (pk : Z).

Definition exec (user : CustomUser) (op : Operation) : DB -> Response * DB :=
  match op with
  | GetActive => get_active user
  | AddOrUpdate data => add_or_update user data
  | RemoveItem pk => remove_item user pk
  | ListOrders => list_orders user
  | PlaceOrder => place_order user
  | CancelOrder pk => cancel_order user pk
  | CatalogList => run (BookViewset.list user)
  | CatalogCreate data => run (BookViewset.create user data)
  | CatalogUpdate pk data => run (BookViewset.update user pk data)
  | CatalogDestroy pk => run (BookViewset.destroy user pk)
  end.

(** ** Vocabulary of the statements *)

Definition sum_Z (xs : list Z) : Z := fold_right Z.add 0 xs.

(** The lines of a cart, and the row of a book, in a store. *)
Definition lines_of (cart : Z) (db : DB) : list CartItems :=
  List.filter (fun l => item_cart l =? cart) (items db).
Definition book_of (pk : Z) (db : DB) : option Book :=
  List.find (fun b => book_id b =? pk) (books db).
Definition cart_of (pk : Z) (db : DB) : option CartModel :=
  List.find (fun c => cart_id c =? pk) (carts db).

(** A cart row with its two totals recomputed from its lines in a store. *)
Definition recompute_totals (active_cart : CartModel) (db : DB) : CartModel :=
  with_total_price (or_0 (Sum (map item_price (lines_of (cart_id active_cart) db))))
    (with_total_quantity (or_0 (Sum (map quantity (lines_of (cart_id active_cart) db))))
       active_cart).

(** An active cart of a user. *)
Definition active_cart_of (user : CustomUser) (c : CartModel) : Prop :=
  cart_user c = user_id user /\ is_ordered c = false.

(** [cart] is the one active cart a user has in a store. *)
Definition the_active_cart (user : CustomUser) (cart : CartModel) (db : DB) : Prop :=
  In cart (carts db) /\ active_cart_of user cart /\
  forall cart', In cart' (carts db) -> active_cart_of user cart' -> cart' = cart.

(** The active cart the views pick with [.first()]. *)
Definition first_active_cart (user : CustomUser) (db : DB) : option CartModel :=
  head (List.filter (owned_by user false) (carts db)).

(** [line] is the one line a cart has for a book in a store. *)
Definition the_line (cart : CartModel) (book : Book) (line : CartItems) (db : DB) : Prop :=
  In line (items db) /\ item_cart line = cart_id cart /\ item_book line = book_id book /\
  forall line', In line' (items db) ->
    item_cart line' = cart_id cart -> item_book line' = book_id book -> line' = line.

(** The two totals of a cart row are the sums over the cart's lines. *)
Definition totals_consistent (cart : CartModel) (db : DB) : Prop :=
  total_price cart = sum_Z (map item_price (lines_of (cart_id cart) db)) /\
  total_quantity cart = sum_Z (map quantity (lines_of (cart_id cart) db)).

Definition stock_non_negative (db : DB) : Prop :=
  Forall (fun b => 0 <= stock b) (books db).

(** What the schema and the get-or-create discipline of the views maintain:
    keys are positive, below the next key (itself positive) and not repeated;
    a line references a cart and a book that exist; a cart has one line per
    book; a user has at most one active cart. *)
Record wf_store (db : DB) : Prop := mk_wf_store {
  wf_next_keys : 0 < next_book_id db /\ 0 < next_cart_id db /\ 0 < next_item_id db;
  wf_book_keys : NoDup (map book_id (books db));
  wf_book_range : Forall (fun b => 0 < book_id b < next_book_id db) (books db);
  wf_cart_keys : NoDup (map cart_id (carts db));
  wf_cart_range : Forall (fun c => 0 < cart_id c < next_cart_id db) (carts db);
  wf_item_keys : NoDup (map item_id (items db));
  wf_item_range : Forall (fun l => 0 < item_id l < next_item_id db) (items db);
  wf_item_book : Forall (fun l => In (item_book l) (map book_id (books db))) (items db);
  wf_item_cart : Forall (fun l => In (item_cart l) (map cart_id (carts db))) (items db);
  wf_one_line_per_book :
    NoDup (map (fun l => (item_cart l, item_book l)) (items db));
  wf_one_active_cart :
    NoDup (map cart_user (List.filter (fun c => negb (is_ordered c)) (carts db)))
}.

(** The answer of the login view to credentials that match no account. *)
Definition login_failed : Response :=
  mkResponse 400 (JObj [("message", JStr "Login failed");
                        ("error", JStr "Invalid email or password")]).

(** ** A Hoare logic for views

    [hoare P m Q I]: from a store that satisfies [P], the computation [m]
    either yields a value [a] and a store that satisfy [Q a], or leaves early
    (with a response or an exception) in a store that satisfies [I]. *)
Definition hoare {A} (P : DB -> Prop) (m : View A) (Q : A -> DB -> Prop) (I : DB -> Prop)
  : Prop :=
  forall db, P db ->
    match m db with
    | (Val a, db') => Q a db'
    | (Ret _, db') => I db'
    | (Exc _, db') => I db'
    end.

(** [keeps I m]: every exit of [m] restores the invariant [I]. *)
Abbreviation keeps I m := (hoare I%function m (fun _ => I%function) I%function).

(** ** Sample stores (after the fixtures of [cart/tests/test_cart.py]) *)

Module Sample.

Definition user := mkUser 1 "testuser@example.com" "UserOne" "testpassword" false false true.
Definition other := mkUser 2 "user@example.com" "user" "userpassword" false false true.
Definition book := mkBook 1 "Test Book" "Author Name" None 1 100 10.
Definition scarce := mkBook 2 "Second Book" "Author Name" None 1 50 1.

Definition admin := mkUser 3 "admin@example.com" "Admin" "Superpassword@123" false true true.

(** A value of 64 bits, sign included. *)
Definition fits_64_bits (v : Z) : bool :=
  (Z.shiftr v 63 =? 0) || (Z.shiftr v 63 =? -1).

(** SQLite, the database of the tests: a value beyond its 64 bits does not
    reach it, a negative one fails the check of its column. *)
Definition sqlite : Backend :=
  mkBackend 9223372036854775807
    (fun l =>
       if negb (fits_64_bits (quantity l) && fits_64_bits (item_price l))
       then "Python int too large to convert to SQLite INTEGER"
       else if quantity l <? 0 then "CHECK constraint failed: quantity"
       else "CHECK constraint failed: price").

(** The fixtures of the tests: a user and a book. *)
Definition fixture : DB := mkDB [user] [book] [] [] 2 1 1 sqlite.

(** The catalog, nothing else. *)
Definition catalog : DB := mkDB [user; other] [book; scarce] [] [] 3 1 1 sqlite.

(** An active cart with one line: three copies of [book]. *)
Definition one_line : DB :=
  mkDB [user; other] [book; scarce]
       [mkCart 1 1 300 3 false] [mkItem 1 1 1 3 300] 3 2 2 sqlite.

(** Two customers after the same last copy.  The first has two copies of
    [book] and one of [scarce] in the cart; the second has meanwhile ordered
    the one copy of [scarce] there was. *)
Definition contended : DB :=
  mkDB [user; other]
       [book; mkBook 2 "Second Book" "Author Name" None 1 50 0]
       [mkCart 1 1 250 3 false; mkCart 2 2 50 1 true]
       [mkItem 1 1 1 2 200; mkItem 2 1 2 1 50; mkItem 3 2 2 1 50] 3 3 4 sqlite.

(** An active cart with two lines that the stock covers. *)
Definition two_lines : DB :=
  mkDB [user; other] [book; scarce]
       [mkCart 1 1 250 3 false] [mkItem 1 1 1 2 200; mkItem 2 1 2 1 50] 3 2 3 sqlite.

(** An order placed: two copies of [book], of the ten of the fixture. *)
Definition ordered : DB :=
  mkDB [user] [mkBook 1 "Test Book" "Author Name" None 1 100 8]
       [mkCart 1 1 200 2 true] [mkItem 1 1 1 2 200] 2 2 2 sqlite.

End Sample.

(** ** Closed forms of the cart POST and of order placement

    The two longest views, written as one expression over the store; the
    properties below prove them equal to the views and then read the
    views' behaviour off them. *)

(** The last steps of a cart POST: the line is saved, then the cart with its
    totals recomputed from the lines as they then are. *)
Definition write_line (active_cart : CartModel) (cart_item : CartItems) (db : DB) : DB :=
  let db3 := set_items (put_row item_id cart_item (items db)) db in
  set_carts (put_row cart_id (recompute_totals active_cart db3) (carts db3)) db3.

(** The success response of a cart POST. *)
Definition cart_response (created : bool) (active_cart : CartModel) : Response :=
  mkResponse (if negb created then HTTP_200_OK else HTTP_201_CREATED)
    (JObj [("message", JStr (if negb created then "Cart updated successfully"
                             else "New cart created successfully"));
           ("status", JStr "success");
           ("cart", CartSerializer active_cart)]).

Definition server_error (message : string) (status : option string) (e : Exception)
  : Response :=
  mkResponse HTTP_500_INTERNAL_SERVER_ERROR
    (JObj (("message", JStr message) ::
           match status with Some s => [("status", JStr s)] | None => [] end ++
           [("error", JStr (str e))])).

(** The end of a cart POST: the line is saved and the cart retotalled, or
    the database refuses the line and the last clause answers. *)
Definition save_line (created : bool) (active_cart : CartModel) (cart_item : CartItems)
    (db : DB) : Response * DB :=
  if storable (backend db) (quantity cart_item) &&
     storable (backend db) (item_price cart_item)
  then
    (cart_response created (recompute_totals active_cart
        (set_items (put_row item_id cart_item (items db)) db)),
     write_line active_cart cart_item db)
  else
    (server_error "An error occurred while processing the request." (Some "error")
       (DatabaseError (refusal (backend db) cart_item)), db).

(** A cart POST from the point where the book and the active cart are known. *)
Definition post_line (active_cart : CartModel) (book : Book) (qty : Z) (db : DB)
  : Response * DB :=
  match List.filter (fun l => (item_cart l =? cart_id active_cart) &&
                              (item_book l =? book_id book)) (items db) with
  | [] =>
      let created := mkItem (next_item_id db) (cart_id active_cart) (book_id book) 0 0 in
      save_line true active_cart (with_price (price book * qty) (with_quantity qty created))
        (insert_item created db)
  | [found] =>
      let new_quantity := quantity found + qty in
      if stock book <? new_quantity then (CartsViews.insufficient_stock book, db)
      else
        save_line false active_cart
          (with_price (price book * new_quantity) (with_quantity new_quantity found)) db
  | found :: more =>
      (server_error "An error occurred while processing the request." (Some "error")
         (MultipleObjectsReturned "CartItems" (Z.of_nat (List.length (found :: more)))), db)
  end.

Definition add_or_update_closed (user : CustomUser) (data : CartPost) (db : DB)
  : Response * DB :=
  if negb (truthy (post_book_id data)) || negb (truthy (post_quantity data)) then
    (mkResponse 400 (JObj [("message", JStr "book_id and quantity are required.")]), db)
  else
    let qty := int_of (post_quantity data) in
    match List.filter (fun b => book_id b =? int_of (post_book_id data)) (books db) with
    | [] =>
        (mkResponse 404 (JObj [("message", JStr "Book does not exist in the database.")]), db)
    | [book] =>
        if stock book <? qty then (CartsViews.insufficient_stock book, db)
        else
          match List.filter (owned_by user false) (carts db) with
          | [] =>
              let created := mkCart (next_cart_id db) (user_id user) 0 0 false in
              post_line created book qty (insert_cart created db)
          | [active_cart] => post_line active_cart book qty db
          | found :: more =>
              (server_error "An error occurred while processing the request."
                 (Some "error")
                 (MultipleObjectsReturned "CartModel"
                    (Z.of_nat (List.length (found :: more)))), db)
          end
    | found :: more =>
        (server_error "An error occurred while processing the request." (Some "error")
           (MultipleObjectsReturned "Book" (Z.of_nat (List.length (found :: more)))), db)
    end.

Definition place_order_closed (user : CustomUser) (db : DB) : Response * DB :=
  match first_active_cart user db with
  | None => (mkResponse 400 (JObj [("message", JStr "No active cart to order.")]), db)
  | Some active_cart =>
      match lines_of (cart_id active_cart) db with
      | [] => (mkResponse 400 (JObj [("message", JStr "The cart is empty.")]), db)
      | lines =>
          match for_each lines OrderViews.order_line db with
          | (Val _, db1) =>
              (mkResponse 200 (JObj [("message", JStr "The order placed");
                                     ("status", JStr "Success")]),
               set_carts (put_row cart_id (with_is_ordered true active_cart) (carts db1)) db1)
          | (Ret r, db1) => (r, db1)
          | (Exc e, db1) =>
              (server_error "An error occurred during the ordering process." None e, db1)
          end
      end
  end.

(** ** [user/views.py]: the verification link *)

Definition with_is_verified (v : bool) (u : CustomUser) : CustomUser :=
  mkUser (user_id u) (email u) (username u) (password u) v (is_superuser u) (is_active u).

Definition set_users (us : list CustomUser) (db : DB) : DB :=
  mkDB us (books db) (carts db) (items db)
       (next_book_id db) (next_cart_id db) (next_item_id db) (backend db).

Module UserObjects.
(** [CustomUser.objects.get(id=pk)] *)
Definition get (pk : Z) : View CustomUser :=
  matches <- query (fun db => List.filter (fun u => user_id u =? pk) (users db)) ;;
  get_one "CustomUser" matches.
(** [user.save()] *)
Definition save (u : CustomUser) : View unit :=
  modify (fun db => set_users (put_row user_id u (users db)) db).
End UserObjects.

Section Verify.

(** [AccessToken(token)['user_id']] is library code: it gives the key the
    token was issued for, or raises.  What it raises is no
    [CustomUser.DoesNotExist], the one exception the view tells from the
    others, and is carried here as a [ValueError] with its text. *)
Variable AccessToken_user_id : string -> string + Z.

(** [verify_registered_user] *)
Definition verify_registered_user (token : string) : View Response :=
  try_except
    (pk <- match AccessToken_user_id token with
           | inr pk => ret pk
           | inl msg => raise (ValueError msg)
           end ;;
     user <- UserObjects.get pk ;;
     (if negb (is_verified user)
      then UserObjects.save (with_is_verified true user)
      else ret tt) ;;
     return_ (mkResponse HTTP_200_OK
       (JObj [("message", JStr "User verification successful");
              ("status", JStr "success")])))
    (fun e =>
       match e with
       | DoesNotExist _ =>
           return_ (mkResponse HTTP_404_NOT_FOUND
             (JObj [("message", JStr "User not found"); ("status", JStr "error")]))
       | _ =>
           return_ (mkResponse HTTP_400_BAD_REQUEST
             (JObj [("message", JStr "Invalid or expired token");
                    ("status", JStr "error");
                    ("error", JStr (str e))]))
       end).

End Verify.

(** ** Vocabulary of the further statements *)

(** The carts of everybody but a user, and the lines of those carts. *)
Definition carts_of_others (user : CustomUser) (db : DB) : list CartModel :=
  List.filter (fun c => negb (cart_user c =? user_id user)) (carts db).

(** The carts of the other users, and the lines of each, are in [db'] what
    they are in [db]. *)
Definition others_untouched (user : CustomUser) (db db' : DB) : Prop :=
  carts_of_others user db' = carts_of_others user db /\
  forall c, In c (carts db) -> cart_user c <> user_id user ->
    lines_of (cart_id c) db' = lines_of (cart_id c) db.


(** A store that differs from another in its book rows at most. *)
Definition same_but_books (db db' : DB) : Prop :=
  users db' = users db /\ carts db' = carts db /\ items db' = items db /\
  next_book_id db' = next_book_id db /\ next_cart_id db' = next_cart_id db /\
  next_item_id db' = next_item_id db /\ backend db' = backend db.

(** The operations whose view can reach its last [except] clause on a
    well-formed store: the cart POST, whose save of the line the database
    refuses when the quantity or the price is out of the column's range, the
    cancellation of an order, whose filter on the lines raises, and the
    catalog update and delete, whose lookup raises an exception that their
    [except NotFound] does not name. *)
Definition reaches_last_clause (op : Operation) : bool :=
  match op with
  | AddOrUpdate _ | CancelOrder _ | CatalogUpdate _ _ | CatalogDestroy _ => true
  | _ => false
  end.

(** A sequence of calls of the API, each by its caller, applied in order. *)
Definition replay (calls : list (CustomUser * Operation)) (db : DB) : DB :=
  fold_left (fun d call => snd (exec (fst call) (snd call) d)) calls db.

(** The name column of the books is declared unique. *)
Definition unique_names (db : DB) : Prop := NoDup (map name (books db)).

(** A value within the range of a [PositiveIntegerField] column of the
    store's backend. *)
Definition in_column_range (db : DB) (v : Z) : Prop :=
  0 <= v <= positive_integer_max (backend db).

(** The greatest value of a [PositiveBigIntegerField] column, which is also
    the greatest sum that a database computes: 64 bits on every backend. *)
Definition big_integer_max : Z := 9223372036854775807.

(** The totals of the carts of a store are values of their columns.  The
    sums of the model are sums of unbounded integers, where the database
    raises on the overflow of its 64 bits: the statements on the answers of
    the cart views ask this of the store that the model computes, which
    keeps the model and the database on the same path. *)
Definition totals_fit (db : DB) : Prop :=
  Forall (fun c => 0 <= total_quantity c <= big_integer_max /\
                   0 <= total_price c <= big_integer_max) (carts db).

(** What a cart POST leaves of a store when the database refuses the line:
    the books, and the carts and lines there were, followed by at most a
    cart of the caller, active and empty, and a line of quantity 0 and
    price 0, both just inserted. *)
Definition left_by_refusal (user : CustomUser) (db db' : DB) : Prop :=
  books db' = books db /\
  exists new_carts new_lines,
    carts db' = carts db ++ new_carts /\ items db' = items db ++ new_lines /\
    Forall (fun c => cart_user c = user_id user /\ is_ordered c = false /\
                     total_price c = 0 /\ total_quantity c = 0) new_carts /\
    Forall (fun l => quantity l = 0 /\ item_price l = 0) new_lines.

(** A text without the null character. *)
Definition null_free (v : string) : Prop :=
  existsb (String.eqb (of_codes [0])) (characters v) = false.

(** A text that a required [CharField] of at most 255 characters accepts:
    once trimmed it is not blank, has at most 255 characters and none of
    them is the null character. *)
Definition accepted_text (raw : string) : Prop :=
  strip raw <> "" /\ len (strip raw) <= 255 /\ null_free (strip raw).

(** What [BookSerializer] asks of the required fields of the body of a
    create or update, apart from the uniqueness of the name. *)
Definition accepted_fields (db : DB) (n a : string) (p s : Z) : Prop :=
  accepted_text n /\ accepted_text a /\ in_column_range db p /\ in_column_range db s.

(** The description that a body stores: trimmed, null when the body says
    null. *)
Definition trimmed (d : option string) : option string := option_map strip d.

Module Scenario.

(** A user with an active cart that has no line (the fixture [active_cart] of
    the tests), and a second user without any cart. *)
Definition empty_cart : DB :=
  mkDB [Sample.user; Sample.other] [Sample.book; Sample.scarce]
       [mkCart 1 1 0 0 false] [] 3 2 1 Sample.sqlite.


(** The store of [Sample.one_line] with the administrator's account. *)
Definition shop : DB :=
  mkDB [Sample.user; Sample.other; Sample.admin] [Sample.book; Sample.scarce]
       [mkCart 1 1 300 3 false] [mkItem 1 1 1 3 300] 3 2 2 Sample.sqlite.

(** A decoder of verification tokens that knows the tokens of two keys. *)
Definition key_of_token (token : string) : string + Z :=
  if String.eqb token "token-of-1" then inr 1
  else if String.eqb token "token-of-9" then inr 9
  else inl "Token is invalid or expired".

Definition new_book : BookPayload :=
  mkBookPayload (Some "New Book") (Some "New Author") None (Some 150) (Some 5).

(** The same body as a client may well send it, with blanks around the
    texts. *)
Definition padded_book : BookPayload :=
  mkBookPayload (Some "  New Book ") (Some "New Author") (Some (Some " a gift "))
    (Some 150) (Some 5).

End Scenario.

(** * Properties *)

(** ** Stepping through a view *)

Ltac view_step :=
  cbv beta iota delta
    [bind ret return_ raise query modify try_except run
     get_one authenticated
     get_active add_or_update remove_item list_orders place_order cancel_order].

Ltac view_step_in H :=
  cbv beta iota delta
    [bind ret return_ raise query modify try_except run
     get_one authenticated
     get_active add_or_update remove_item list_orders place_order cancel_order] in H.

Lemma bind_Val {A B} (m : View A) (k : A -> View B) db a db' :
  m db = (Val a, db') -> bind m k db = k a db'.
Proof. intros H; unfold bind; now rewrite H. Qed.

Lemma bind_Ret {A B} (m : View A) (k : A -> View B) db r db' :
  m db = (Ret r, db') -> bind m k db = (Ret r, db').
Proof. intros H; unfold bind; now rewrite H. Qed.

Lemma bind_Exc {A B} (m : View A) (k : A -> View B) db e db' :
  m db = (Exc e, db') -> bind m k db = (Exc e, db').
Proof. intros H; unfold bind; now rewrite H. Qed.

(** ** Catalog: the superuser gate *)

(** C8. For every authenticated caller that is not a superuser, the catalog
    create, update and delete operations answer 403 and leave the store (every
    book row included) as it was. *)
Theorem catalog_mutation_forbidden_for_non_superuser :
  forall (user : CustomUser) (pk : Z) (payload : BookPayload) (db : DB),
    is_superuser user = false ->
    let created := authenticated (Some user) (fun u => BookViewset.create u payload) db in
    let updated := authenticated (Some user) (fun u => BookViewset.update u pk payload) db in
    let destroyed := authenticated (Some user) (fun u => BookViewset.destroy u pk) db in
    (status_code (fst created) = 403 /\ snd created = db) /\
    (status_code (fst updated) = 403 /\ snd updated = db) /\
    (status_code (fst destroyed) = 403 /\ snd destroyed = db).
Proof.
  intros user pk payload db Hsu.
  unfold BookViewset.create, BookViewset.update, BookViewset.destroy.
  view_step. rewrite Hsu. cbn. repeat split.
Qed.

Lemma catalog_mutation_forbidden_for_non_superuser_witness :
  let user := mkUser 2 "user@example.com" "user" "pw" true false true in
  let book := mkBook 1 "Test Book" "Author Name" None 1 100 10 in
  let db := mkDB [user] [book] [] [] 2 1 1 Sample.sqlite in
  let payload := mkBookPayload (Some "New Book") (Some "New Author") None (Some 150) (Some 5) in
  (status_code (fst (authenticated (Some user) (fun u => BookViewset.create u payload) db)) = 403 /\
   snd (authenticated (Some user) (fun u => BookViewset.create u payload) db) = db) /\
  (status_code (fst (authenticated (Some user) (fun u => BookViewset.update u 1 payload) db)) = 403 /\
   snd (authenticated (Some user) (fun u => BookViewset.update u 1 payload) db) = db) /\
  (status_code (fst (authenticated (Some user) (fun u => BookViewset.destroy u 1) db)) = 403 /\
   snd (authenticated (Some user) (fun u => BookViewset.destroy u 1) db) = db).
Proof.
  intros user book db payload.
  apply (catalog_mutation_forbidden_for_non_superuser user 1 payload db).
  reflexivity.
Defined.

(** ** Cart POST: validation of the body *)

(** C3, as the code has it. The cart POST answers 400 for every request in
    which [book_id] or [quantity] is absent or zero, and the store is then
    as it was. *)
Theorem add_or_update_requires_book_id_and_quantity :
  forall (user : CustomUser) (data : CartPost) (db : DB),
    post_book_id data = None \/ post_book_id data = Some 0 \/
    post_quantity data = None \/ post_quantity data = Some 0 ->
    add_or_update user data db =
      (mkResponse 400 (JObj [("message", JStr "book_id and quantity are required.")]), db).
Proof.
  intros user [b q] db H; cbn in H.
  unfold add_or_update, CartsViews.post.
  assert (E : negb (truthy b) || negb (truthy q) = true).
  { destruct H as [-> | [-> | [-> | ->]]]; cbn;
      try reflexivity; now rewrite orb_true_r. }
  view_step. cbn [post_book_id post_quantity]. now rewrite E.
Qed.

Lemma add_or_update_requires_book_id_and_quantity_witness :
  add_or_update Sample.user (mkCartPost (Some 1) (Some 0)) Sample.one_line =
    (mkResponse 400 (JObj [("message", JStr "book_id and quantity are required.")]),
     Sample.one_line).
Proof.
  apply add_or_update_requires_book_id_and_quantity.
  right; right; right; reflexivity.
Defined.

(** C3, as the claim has it, fails: a request with a negative quantity is not
    refused. Against a line of three copies, quantity -1 is answered 200 and
    the line is rewritten to two copies. *)
Lemma add_or_update_accepts_negative_quantity :
  let data := mkCartPost (Some 1) (Some (-1)) in
  let result := add_or_update Sample.user data Sample.one_line in
  (exists q, post_quantity data = Some q /\ q <= 0) /\
  status_code (fst result) = 200 /\
  items (snd result) = [mkItem 1 1 1 2 200] /\
  items Sample.one_line = [mkItem 1 1 1 3 300].
Proof.
  cbv zeta. split; [exists (-1); split; [reflexivity | lia] |].
  vm_compute. repeat split.
Qed.

(** ** Placing an order *)

(** The sample stores are states of the API: each is reached from the
    catalog by the calls of its description. *)
Example sample_stores_reached :
  let add u b q := fun db => snd (add_or_update u (mkCartPost (Some b) (Some q)) db) in
  let order u := fun db => snd (place_order u db) in
  add Sample.user 1 3 Sample.catalog = Sample.one_line /\
  add Sample.user 2 1 (add Sample.user 1 2 Sample.catalog) = Sample.two_lines /\
  order Sample.other (add Sample.other 2 1 Sample.two_lines) = Sample.contended /\
  order Sample.user (add Sample.user 1 2 Sample.fixture) = Sample.ordered.
Proof. repeat split; reflexivity. Qed.

(** C1 fails on the code: the stock check and the decrement share one loop.
    With two lines of which the second exceeds its book's stock, the answer
    is 400 and the first line's book has already lost its two copies
    (10 before, 8 after); the cart is still active. *)
Theorem place_order_partial_decrement :
  let result := place_order Sample.user Sample.contended in
  fst result =
    mkResponse 400 (JObj [("message", JStr "Insufficient stock for the book Second Book.")]) /\
  option_map stock (book_of 1 Sample.contended) = Some 10 /\
  option_map stock (book_of 1 (snd result)) = Some 8 /\
  carts (snd result) = carts Sample.contended.
Proof. vm_compute. repeat split. Qed.

(** ** Cancelling an order *)

(** C5 fails on the code: the filter on the lines is given the queryset of
    carts, which the ORM refuses; the view's [except Exception] answers 500,
    no stock is restored and the order stays. *)
Theorem cancel_order_existing_order_fails :
  let result := cancel_order Sample.user 1 Sample.ordered in
  status_code (fst result) = 500 /\ snd result = Sample.ordered.
Proof. vm_compute. split; reflexivity. Qed.

(** The other half of C5 holds: with no ordered cart of that key owned by
    the caller, the answer is 404 and the store is as it was. *)
Lemma cancel_order_not_found (user : CustomUser) (pk : Z) (db : DB) :
  (forall c, In c (carts db) ->
     ~ (cart_user c = user_id user /\ is_ordered c = true /\ cart_id c = pk)) ->
  cancel_order user pk db =
    (mkResponse 404 (JObj [("message", JStr "No order found to cancel.")]), db).
Proof.
  intros Hnone. unfold cancel_order, OrderViewsByID.delete, CartObjects.filter.
  view_step.
  destruct (filter _ (carts db)) as [|c cs] eqn:F; [reflexivity|].
  exfalso. assert (Hin : In c (c :: cs)) by now left.
  rewrite <- F in Hin. apply filter_In in Hin as [Hin Hp].
  apply andb_prop in Hp as [Hp Hid]. apply andb_prop in Hp as [Hu Ho].
  apply (Hnone c Hin). repeat split.
  - now apply Z.eqb_eq.
  - now destruct (is_ordered c).
  - now apply Z.eqb_eq.
Qed.

(** ** The repository's tests, replayed on the model *)

(** [test_post_add_to_cart] *)
Example test_post_add_to_cart :
  fst (authenticated (Some Sample.user)
         (fun u => CartsViews.post u (mkCartPost (Some 1) (Some 2))) Sample.fixture) =
  mkResponse 201
    (JObj [("message", JStr "New cart created successfully");
           ("status", JStr "success");
           ("cart", JObj [("id", JInt 1); ("user", JInt 1); ("total_price", JInt 200);
                          ("total_quantity", JInt 2); ("is_ordered", JBool false)])]).
Proof. reflexivity. Qed.

(** [test_post_add_to_cart_insufficient_stock] *)
Example test_post_add_to_cart_insufficient_stock :
  fst (authenticated (Some Sample.user)
         (fun u => CartsViews.post u (mkCartPost (Some 1) (Some 20))) Sample.fixture) =
  mkResponse 400 (JObj [("message", JStr "Insufficient stock. Only 10 available.")]).
Proof. reflexivity. Qed.

(** [test_get_no_active_cart] and [test_get_cart_unauth] *)
Example test_get_no_active_cart :
  fst (authenticated (Some Sample.user) CartsViews.get Sample.fixture) =
    mkResponse 404 (JObj [("message", JStr "No active cart found for the user");
                          ("status", JStr "error")]) /\
  status_code (fst (authenticated None CartsViews.get Sample.fixture)) = 401.
Proof. split; reflexivity. Qed.

(** [test_get_orders] *)
Example test_get_orders :
  fst (authenticated (Some Sample.user) OrderViews.get Sample.fixture) =
    mkResponse 404 (JObj [("message", JStr "No order Found"); ("status", JStr "Error")]).
Proof. reflexivity. Qed.

(** [test_post_place_order]: two copies ordered of a stock of ten. *)
Example test_post_place_order :
  let db := mkDB [Sample.user] [Sample.book] [mkCart 1 1 0 0 false] [mkItem 1 1 1 2 200]
                 2 2 2 Sample.sqlite in
  let result := authenticated (Some Sample.user) OrderViews.post db in
  fst result =
    mkResponse 200 (JObj [("message", JStr "The order placed"); ("status", JStr "Success")]) /\
  option_map stock (book_of 1 (snd result)) = Some 8.
Proof. split; reflexivity. Qed.

(** [test_post_place_order_no_cart] *)
Example test_post_place_order_no_cart :
  status_code (fst (authenticated (Some Sample.user) OrderViews.post Sample.fixture)) = 400.
Proof. reflexivity. Qed.

(** [test_create_book_as_superuser] and [test_create_book_as_regular_user] *)
Example test_create_book :
  let payload :=
    mkBookPayload (Some "New Book") (Some "New Author") None (Some 150) (Some 5) in
  status_code (fst (authenticated (Some Sample.admin)
                      (fun u => BookViewset.create u payload) Sample.fixture)) = 201 /\
  fst (authenticated (Some Sample.user)
         (fun u => BookViewset.create u payload) Sample.fixture) =
    mkResponse 403 (JObj [("error", JStr "You do not have permission to perform this action.")]).
Proof. split; reflexivity. Qed.

(** [test_update_book_as_superuser], [test_delete_book_as_superuser] and
    [test_delete_book_as_regular_user] *)
Example test_update_and_delete_book :
  let payload :=
    mkBookPayload (Some "Updated Book") (Some "Updated Author") None (Some 200) (Some 20) in
  status_code (fst (authenticated (Some Sample.admin)
                      (fun u => BookViewset.update u 1 payload) Sample.fixture)) = 200 /\
  status_code (fst (authenticated (Some Sample.admin)
                      (fun u => BookViewset.destroy u 1) Sample.fixture)) = 204 /\
  status_code (fst (authenticated (Some Sample.user)
                      (fun u => BookViewset.destroy u 1) Sample.fixture)) = 403.
Proof. repeat split; reflexivity. Qed.

(** ** Tables as keyed lists *)

Section Keyed.

Context {A : Type} (key : A -> Z).

Lemma filter_key_none (l : list A) (k : Z) :
  ~ In k (map key l) -> filter (fun y => key y =? k) l = [].
Proof.
  induction l as [|a l IH]; cbn; intros H; [reflexivity|].
  destruct (Z.eqb_spec (key a) k) as [E|E].
  - exfalso; apply H; now left.
  - apply IH; intros Hin; apply H; now right.
Qed.

Lemma filter_key_unique (l : list A) (x : A) :
  NoDup (map key l) -> In x l -> filter (fun y => key y =? key x) l = [x].
Proof.
  induction l as [|a l IH]; cbn; intros Hnd Hin; [contradiction|].
  inversion Hnd as [|? ? Hnotin Hnd']; subst.
  destruct Hin as [-> | Hin].
  - rewrite Z.eqb_refl. f_equal. now apply filter_key_none.
  - destruct (Z.eqb_spec (key a) (key x)) as [E|E].
    + exfalso; apply Hnotin; rewrite E; now apply in_map.
    + now apply IH.
Qed.

Lemma find_key_unique (l : list A) (x : A) :
  NoDup (map key l) -> In x l -> find (fun y => key y =? key x) l = Some x.
Proof.
  induction l as [|a l IH]; cbn; intros Hnd Hin; [contradiction|].
  inversion Hnd as [|? ? Hnotin Hnd']; subst.
  destruct Hin as [-> | Hin].
  - now rewrite Z.eqb_refl.
  - destruct (Z.eqb_spec (key a) (key x)) as [E|E].
    + exfalso; apply Hnotin; rewrite E; now apply in_map.
    + now apply IH.
Qed.

Lemma find_key_In (l : list A) (k : Z) (x : A) :
  find (fun y => key y =? k) l = Some x -> In x l /\ key x = k.
Proof.
  intros H; apply find_some in H; destruct H as [H1 H2].
  split; [assumption | now apply Z.eqb_eq].
Qed.

Lemma map_key_put_row (y : A) (l : list A) :
  map key (put_row key y l) = map key l.
Proof.
  unfold put_row; induction l as [|a l IH]; cbn; [reflexivity|].
  rewrite IH; f_equal.
  destruct (Z.eqb_spec (key a) (key y)); congruence.
Qed.

Lemma find_put_row (y : A) (l : list A) (k : Z) :
  find (fun x => key x =? k) (put_row key y l) =
  if k =? key y
  then match find (fun x => key x =? k) l with Some _ => Some y | None => None end
  else find (fun x => key x =? k) l.
Proof.
  unfold put_row; induction l as [|a l IH]; cbn.
  - now destruct (k =? key y).
  - destruct (Z.eqb_spec (key a) (key y)) as [E|E].
    + destruct (Z.eqb_spec k (key y)) as [E'|E'].
      * subst k. rewrite !Z.eqb_refl, E, Z.eqb_refl. reflexivity.
      * destruct (Z.eqb_spec (key y) k) as [E2|E2]; [congruence|].
        destruct (Z.eqb_spec (key a) k) as [E3|E3]; [congruence|].
        rewrite IH. destruct (Z.eqb_spec k (key y)); [congruence | reflexivity].
    + destruct (Z.eqb_spec (key a) k) as [E3|E3].
      * subst k. destruct (Z.eqb_spec (key a) (key y)); [congruence | reflexivity].
      * exact IH.
Qed.

Lemma In_put_row (y x : A) (l : list A) :
  In x l -> key x = key y -> In y (put_row key y l).
Proof.
  intros Hin E. unfold put_row. apply in_map_iff.
  exists x; split; [|assumption]. rewrite E, Z.eqb_refl. reflexivity.
Qed.

End Keyed.

(** ** What the ORM calls return *)

Lemma BookObjects_get_found (db : DB) (b : Book) :
  NoDup (map book_id (books db)) -> In b (books db) ->
  BookObjects.get (book_id b) db = (Val b, db).
Proof.
  intros Hnd Hin. unfold BookObjects.get, BookObjects.filter. view_step.
  now rewrite (filter_key_unique book_id _ _ Hnd Hin).
Qed.

Lemma book_of_In (db : DB) (pk : Z) (b : Book) :
  book_of pk db = Some b -> In b (books db) /\ book_id b = pk.
Proof. apply find_key_In. Qed.

Lemma In_book_of (db : DB) (b : Book) :
  NoDup (map book_id (books db)) -> In b (books db) ->
  book_of (book_id b) db = Some b.
Proof. apply find_key_unique. Qed.

Lemma book_of_save (db : DB) (b : Book) (pk : Z) :
  book_of pk (set_books (put_row book_id b (books db)) db) =
  if pk =? book_id b
  then match book_of pk db with Some _ => Some b | None => None end
  else book_of pk db.
Proof. unfold book_of; cbn. apply find_put_row. Qed.

(** ** Placing an order: the loop over the lines *)

(** One line whose quantity its book's stock covers: the book is saved with
    the stock reduced by the quantity, and nothing else is written. *)
Lemma order_line_ok (db : DB) (l : CartItems) (b : Book) :
  NoDup (map book_id (books db)) ->
  book_of (item_book l) db = Some b ->
  quantity l <= stock b ->
  OrderViews.order_line l db =
    (Val tt, set_books (put_row book_id (with_stock (stock b - quantity l) b) (books db)) db).
Proof.
  intros Hnd Hb Hq. apply book_of_In in Hb as [Hin Hid].
  unfold OrderViews.order_line, ItemObjects.book.
  rewrite <- Hid. erewrite bind_Val by (now apply BookObjects_get_found).
  destruct (Z.gtb_spec (quantity l) (stock b)) as [Hgt|_]; [lia|].
  reflexivity.
Qed.

(** The whole loop, when the lines name pairwise distinct books and every
    quantity is covered: it runs to its end, every line's book has lost that
    line's quantity, and every other row is as it was. *)
Lemma order_lines_ok (ls : list CartItems) :
  forall db : DB,
    NoDup (map book_id (books db)) ->
    NoDup (map item_book ls) ->
    (forall l, In l ls ->
       exists b, book_of (item_book l) db = Some b /\ quantity l <= stock b) ->
    exists db',
      for_each ls OrderViews.order_line db = (Val tt, db') /\
      users db' = users db /\ carts db' = carts db /\ items db' = items db /\
      next_book_id db' = next_book_id db /\ next_cart_id db' = next_cart_id db /\
      next_item_id db' = next_item_id db /\
      map book_id (books db') = map book_id (books db) /\
      (forall l b, In l ls -> book_of (item_book l) db = Some b ->
         book_of (item_book l) db' = Some (with_stock (stock b - quantity l) b)) /\
      (forall pk, ~ In pk (map item_book ls) -> book_of pk db' = book_of pk db).
Proof.
  induction ls as [|l ls IH]; intros db Hnd Hls Hcov.
  - exists db. cbn. repeat split; trivial. intros l b [].
  - destruct (Hcov l (or_introl eq_refl)) as (b & Hb & Hq).
    inversion Hls as [|? ? Hnotin Hls']; subst.
    set (db1 := set_books (put_row book_id (with_stock (stock b - quantity l) b) (books db)) db).
    assert (Hkeys : map book_id (books db1) = map book_id (books db))
      by apply map_key_put_row.
    assert (Hother : forall pk, pk <> item_book l -> book_of pk db1 = book_of pk db).
    { intros pk Hne. unfold db1. rewrite book_of_save. cbn.
      apply book_of_In in Hb as [_ Hid].
      destruct (Z.eqb_spec pk (book_id b)); [congruence | reflexivity]. }
    destruct (IH db1) as (db' & Hrun & Hu & Hc & Hi & Hnb & Hnc & Hni & Hk & Hdec & Hrest).
    + now rewrite Hkeys.
    + assumption.
    + intros l' Hin'. destruct (Hcov l' (or_intror Hin')) as (b' & Hb' & Hq').
      exists b'. split; [|assumption]. rewrite Hother; [assumption|].
      intros E. apply Hnotin. rewrite <- E. now apply in_map.
    + exists db'. cbn [for_each].
      erewrite bind_Val by (apply order_line_ok; eassumption).
      fold db1. rewrite Hrun.
      repeat split; try assumption; try congruence.
      * intros l' b' [<- | Hin'] Hb'.
        -- rewrite Hrest by assumption. unfold db1. rewrite book_of_save. cbn.
           assert (b' = b) as -> by congruence.
           destruct (book_of_In _ _ Hb) as [_ Hid].
           rewrite Hid, Z.eqb_refl, Hb. reflexivity.
        -- apply Hdec; [assumption|]. rewrite Hother; [assumption|].
           intros E. apply Hnotin. rewrite <- E. now apply in_map.
      * intros pk Hpk. rewrite Hrest.
        -- apply Hother. intros E. apply Hpk. left. now symmetry.
        -- intros Hin'. apply Hpk. now right.
Qed.

(** ** Consequences of a well-formed store *)

Lemma filter_owned_by (user : CustomUser) (cs : list CartModel) :
  filter (owned_by user false) cs =
  filter (fun c => cart_user c =? user_id user) (filter (fun c => negb (is_ordered c)) cs).
Proof.
  induction cs as [|c cs IH]; cbn; [reflexivity|].
  unfold owned_by at 1.
  destruct (is_ordered c); cbn.
  - now rewrite andb_false_r.
  - rewrite andb_true_r. destruct (cart_user c =? user_id user); now rewrite IH.
Qed.

(** A user's active cart is the one row the views' filter selects. *)
Lemma active_cart_unique (user : CustomUser) (db : DB) (cart : CartModel) :
  wf_store db -> In cart (carts db) -> active_cart_of user cart ->
  filter (owned_by user false) (carts db) = [cart].
Proof.
  intros Hwf Hin [Hu Ho]. rewrite filter_owned_by, <- Hu.
  apply (filter_key_unique cart_user).
  - apply (wf_one_active_cart Hwf).
  - apply filter_In. split; [assumption | now rewrite Ho].
Qed.

(** The lines of one cart name pairwise distinct books. *)
Lemma lines_distinct_books (ls : list CartItems) (c : Z) :
  NoDup (map (fun l => (item_cart l, item_book l)) ls) ->
  NoDup (map item_book (filter (fun l => item_cart l =? c) ls)).
Proof.
  induction ls as [|a ls IH]; cbn; intros Hnd; [constructor|].
  inversion Hnd as [|? ? Hnotin Hnd']; subst.
  destruct (Z.eqb_spec (item_cart a) c) as [E|E]; [|now apply IH].
  cbn. constructor; [|now apply IH].
  intros Hin. apply in_map_iff in Hin as (x & Hx & Hxin).
  apply filter_In in Hxin as [Hxin Hxc]. apply Z.eqb_eq in Hxc.
  apply Hnotin. apply in_map_iff. exists x. split; [|assumption].
  now rewrite Hx, Hxc, E.
Qed.

Lemma cart_of_save (db : DB) (c : CartModel) :
  In c (carts db) -> forall c', cart_id c' = cart_id c ->
  cart_of (cart_id c) (set_carts (put_row cart_id c' (carts db)) db) = Some c'.
Proof.
  intros Hin c' E. unfold cart_of; cbn. rewrite find_put_row, E, Z.eqb_refl.
  destruct (find (fun x => cart_id x =? cart_id c) (carts db)) eqn:F; [reflexivity|].
  exfalso. apply (find_none _ _ F) in Hin. now rewrite Z.eqb_refl in Hin.
Qed.

(** ** Placing an order: the valid case *)

(** C2. For every user whose active cart has at least one line, every line's
    quantity being at most its book's stock, [place_order] answers 200; every
    line's book has then lost exactly that line's quantity, the books of no
    line and all lines are as they were, and the cart is marked ordered. *)
Theorem place_order_decrements_stock_and_marks_ordered :
  forall (user : CustomUser) (db : DB) (cart : CartModel),
    wf_store db ->
    In cart (carts db) -> active_cart_of user cart ->
    lines_of (cart_id cart) db <> [] ->
    (forall l, In l (lines_of (cart_id cart) db) ->
       exists b, book_of (item_book l) db = Some b /\ quantity l <= stock b) ->
    exists db',
      place_order user db =
        (mkResponse 200 (JObj [("message", JStr "The order placed");
                               ("status", JStr "Success")]), db') /\
      (forall l b, In l (lines_of (cart_id cart) db) ->
         book_of (item_book l) db = Some b ->
         book_of (item_book l) db' = Some (with_stock (stock b - quantity l) b)) /\
      (forall pk, ~ In pk (map item_book (lines_of (cart_id cart) db)) ->
         book_of pk db' = book_of pk db) /\
      items db' = items db /\
      cart_of (cart_id cart) db' = Some (with_is_ordered true cart).
Proof.
  intros user db cart Hwf Hin Hact Hne Hcov.
  destruct (order_lines_ok (lines_of (cart_id cart) db) db)
    as (db1 & Hrun & Hu & Hc & Hi & Hnb & Hnc & Hni & Hk & Hdec & Hrest).
  - apply (wf_book_keys Hwf).
  - apply lines_distinct_books, (wf_one_line_per_book Hwf).
  - assumption.
  - exists (set_carts (put_row cart_id (with_is_ordered true cart) (carts db1)) db1).
    split; [|repeat split].
    + unfold place_order, OrderViews.post, CartObjects.first, CartObjects.filter,
        ItemObjects.filter_cart, ItemObjects.exists_, ItemObjects.filter, CartObjects.save.
      view_step. rewrite (active_cart_unique Hwf Hin Hact). cbn [head].
      unfold lines_of in Hrun, Hne.
      destruct (filter (fun l => item_cart l =? cart_id cart) (items db)) as [|l ls] eqn:El;
        [congruence|].
      cbn [negb]. rewrite El, Hrun. reflexivity.
    + intros l b Hl Hb. unfold book_of; cbn [books set_carts]. now apply Hdec.
    + intros pk Hpk. unfold book_of; cbn [books set_carts]. now apply Hrest.
    + cbn. assumption.
    + apply cart_of_save; [now rewrite Hc | reflexivity].
Qed.

Lemma place_order_decrements_stock_and_marks_ordered_witness :
  exists db',
    place_order Sample.user Sample.two_lines =
      (mkResponse 200 (JObj [("message", JStr "The order placed");
                             ("status", JStr "Success")]), db') /\
    (forall l b, In l (lines_of 1 Sample.two_lines) ->
       book_of (item_book l) Sample.two_lines = Some b ->
       book_of (item_book l) db' = Some (with_stock (stock b - quantity l) b)) /\
    (forall pk, ~ In pk (map item_book (lines_of 1 Sample.two_lines)) ->
       book_of pk db' = book_of pk Sample.two_lines) /\
    items db' = items Sample.two_lines /\
    cart_of 1 db' = Some (with_is_ordered true (mkCart 1 1 250 3 false)).
Proof.
  apply (@place_order_decrements_stock_and_marks_ordered
           Sample.user Sample.two_lines (mkCart 1 1 250 3 false)).
  - constructor; cbn; repeat constructor; cbn; try lia; intuition discriminate.
  - cbn. left. reflexivity.
  - split; reflexivity.
  - cbn. discriminate.
  - cbn. intros l [<- | [<- | []]]; cbn.
    + exists Sample.book. split; [reflexivity | cbn; lia].
    + exists Sample.scarce. split; [reflexivity | cbn; lia].
Defined.

(** The line of a cart for a book is the one row the views' filter selects. *)
Lemma line_unique (ls : list CartItems) (line : CartItems) :
  NoDup (map (fun l => (item_cart l, item_book l)) ls) -> In line ls ->
  filter (fun l => (item_cart l =? item_cart line) && (item_book l =? item_book line)) ls
    = [line].
Proof.
  assert (Hnone : forall ls',
    ~ In (item_cart line, item_book line) (map (fun l => (item_cart l, item_book l)) ls') ->
    filter (fun l => (item_cart l =? item_cart line) && (item_book l =? item_book line)) ls'
      = []).
  { induction ls' as [|a ls' IH]; cbn; intros H; [reflexivity|].
    destruct (Z.eqb_spec (item_cart a) (item_cart line)) as [E1|E1];
      destruct (Z.eqb_spec (item_book a) (item_book line)) as [E2|E2]; cbn;
      try (apply IH; intros Hin; apply H; now right).
    exfalso. apply H. left. now rewrite E1, E2. }
  induction ls as [|a ls IH]; cbn; intros Hnd Hin; [contradiction|].
  inversion Hnd as [|? ? Hnotin Hnd']; subst.
  destruct Hin as [-> | Hin].
  - rewrite !Z.eqb_refl. cbn. f_equal. now apply Hnone.
  - destruct (Z.eqb_spec (item_cart a) (item_cart line)) as [E1|E1];
      destruct (Z.eqb_spec (item_book a) (item_book line)) as [E2|E2]; cbn;
      try (now apply IH).
    exfalso. apply Hnotin. rewrite E1, E2.
    apply (in_map (fun l => (item_cart l, item_book l))). assumption.
Qed.

(** ** Cart POST against an existing line: the combined stock check *)

(** C7. When the caller's active cart already has a line for the book and
    that line's quantity plus the requested quantity exceeds the book's
    stock, the cart POST answers 400 and the store is as it was. *)
Theorem add_or_update_over_stock_rejected :
  forall (user : CustomUser) (db : DB) (cart : CartModel) (line : CartItems)
         (book : Book) (q : Z),
    wf_store db ->
    In cart (carts db) -> active_cart_of user cart ->
    In line (items db) -> item_cart line = cart_id cart ->
    In book (books db) -> item_book line = book_id book ->
    quantity line + q > stock book ->
    status_code (fst (add_or_update user (mkCartPost (Some (book_id book)) (Some q)) db)) = 400 /\
    snd (add_or_update user (mkCartPost (Some (book_id book)) (Some q)) db) = db.
Proof.
  intros user db cart line book q Hwf Hc Hact Hl Hlc Hb Hlb Hover.
  unfold add_or_update, CartsViews.post.
  cbn [post_book_id post_quantity truthy int_of].
  destruct (Z.eqb_spec q 0) as [->|Hq].
  { view_step. rewrite orb_true_r. cbn. split; reflexivity. }
  assert (Hid : (book_id book =? 0) = false).
  { pose proof (wf_book_range Hwf) as Hr. rewrite Forall_forall in Hr.
    specialize (Hr _ Hb). apply Z.eqb_neq. lia. }
  rewrite Hid. cbn [negb orb].
  unfold CartObjects.get_or_create, CartObjects.get, CartObjects.filter,
    ItemObjects.get_or_create, ItemObjects.filter.
  view_step.
  rewrite (BookObjects_get_found db book (wf_book_keys Hwf) Hb).
  destruct (Z.ltb_spec (stock book) q) as [Hlt|Hge]; [split; reflexivity|].
  rewrite (active_cart_unique Hwf Hc Hact).
  rewrite <- Hlc, <- Hlb.
  rewrite (line_unique (items db) line (wf_one_line_per_book Hwf) Hl).
  destruct (Z.ltb_spec (stock book) (quantity line + q)) as [Hlt|Hge']; [|lia].
  split; reflexivity.
Qed.

Lemma add_or_update_over_stock_rejected_witness :
  status_code (fst (add_or_update Sample.user (mkCartPost (Some 1) (Some 8)) Sample.one_line))
    = 400 /\
  snd (add_or_update Sample.user (mkCartPost (Some 1) (Some 8)) Sample.one_line)
    = Sample.one_line.
Proof.
  apply (@add_or_update_over_stock_rejected
           Sample.user Sample.one_line (mkCart 1 1 300 3 false) (mkItem 1 1 1 3 300)
           Sample.book 8).
  - constructor; cbn; repeat constructor; cbn; try lia; intuition discriminate.
  - cbn. left. reflexivity.
  - split; reflexivity.
  - cbn. left. reflexivity.
  - reflexivity.
  - cbn. left. reflexivity.
  - reflexivity.
  - cbn. lia.
Defined.

(** ** Get-or-create, case by case *)

Lemma CartObjects_get_or_create_cases (user : CustomUser) (db : DB) :
  (exists c, filter (owned_by user false) (carts db) = [c] /\
             CartObjects.get_or_create user db = (Val (c, false), db)) \/
  (filter (owned_by user false) (carts db) = [] /\
   CartObjects.get_or_create user db =
     (Val (mkCart (next_cart_id db) (user_id user) 0 0 false, true),
      insert_cart (mkCart (next_cart_id db) (user_id user) 0 0 false) db)) \/
  (exists n, CartObjects.get_or_create user db =
               (Exc (MultipleObjectsReturned "CartModel" n), db)).
Proof.
  unfold CartObjects.get_or_create, CartObjects.get, CartObjects.filter, CartObjects.create.
  view_step.
  destruct (filter (owned_by user false) (carts db)) as [|c [|c' cs]].
  - right; left. split; reflexivity.
  - left. exists c. split; reflexivity.
  - right; right. eexists. reflexivity.
Qed.

Lemma ItemObjects_get_or_create_cases (c : CartModel) (b : Book) (db : DB) :
  let clause := fun l => (item_cart l =? cart_id c) && (item_book l =? book_id b) in
  (exists l, filter clause (items db) = [l] /\
             ItemObjects.get_or_create c b db = (Val (l, false), db)) \/
  (filter clause (items db) = [] /\
   ItemObjects.get_or_create c b db =
     (Val (mkItem (next_item_id db) (cart_id c) (book_id b) 0 0, true),
      insert_item (mkItem (next_item_id db) (cart_id c) (book_id b) 0 0) db)) \/
  (exists n, ItemObjects.get_or_create c b db =
               (Exc (MultipleObjectsReturned "CartItems" n), db)).
Proof.
  unfold ItemObjects.get_or_create, ItemObjects.filter, ItemObjects.create.
  view_step.
  destruct (filter _ (items db)) as [|l [|l' ls]].
  - right; left. split; reflexivity.
  - left. exists l. split; reflexivity.
  - right; right. eexists. reflexivity.
Qed.

(** The book lookup of the cart POST, with its own 404. *)
Lemma book_lookup_cases (pk : Z) (db : DB) (not_found : Response) :
  let lookup :=
    try_except (BookObjects.get pk)
      (fun e => match e with DoesNotExist _ => return_ not_found | _ => raise e end) in
  (exists b, filter (fun b => book_id b =? pk) (books db) = [b] /\
             lookup db = (Val b, db)) \/
  lookup db = (Ret not_found, db) \/
  (exists n, lookup db = (Exc (MultipleObjectsReturned "Book" n), db)).
Proof.
  unfold BookObjects.get, BookObjects.filter. view_step.
  destruct (filter _ (books db)) as [|b [|b' bs]].
  - right; left. reflexivity.
  - left. exists b. split; reflexivity.
  - right; right. eexists. reflexivity.
Qed.

(** ** Cart totals *)

Lemma or_0_Sum (xs : list Z) : or_0 (Sum xs) = sum_Z xs.
Proof.
  destruct xs as [|x xs]; cbn; [reflexivity|].
  fold (sum_Z xs). destruct (Z.eqb_spec (x + sum_Z xs) 0); congruence.
Qed.

Lemma filter_singleton_In {A} (p : A -> bool) (l : list A) (x : A) :
  filter p l = [x] -> In x l /\ p x = true.
Proof. intros E. apply filter_In. rewrite E. now left. Qed.

Lemma find_head_filter {A} (p : A -> bool) (l : list A) :
  find p l = head (filter p l).
Proof.
  induction l as [|a l IH]; cbn; [reflexivity|]. now destruct (p a).
Qed.

Lemma truthy_Some (v : option Z) : truthy v = true -> v = Some (int_of v).
Proof. destruct v; cbn; [reflexivity | discriminate]. Qed.

Lemma owned_by_active (user : CustomUser) (c : CartModel) :
  owned_by user false c = true -> active_cart_of user c.
Proof.
  unfold owned_by, active_cart_of. intros H. apply andb_prop in H as [H1 H2].
  apply Z.eqb_eq in H1. split; [assumption|]. now destruct (is_ordered c).
Qed.

(** The tail of a cart mutation: the totals are recomputed from the lines as
    they then are, and the cart row is saved. *)
Lemma recompute_totals_sound (c : CartModel) (db : DB) :
  In c (carts db) ->
  let c' := recompute_totals c db in
  let db' := set_carts (put_row cart_id c' (carts db)) db in
  In c' (carts db') /\ cart_id c' = cart_id c /\ cart_user c' = cart_user c /\
  is_ordered c' = is_ordered c /\
  total_price c' = sum_Z (map item_price (lines_of (cart_id c') db')) /\
  total_quantity c' = sum_Z (map quantity (lines_of (cart_id c') db')).
Proof.
  intros Hin c' db'. repeat split.
  - apply (In_put_row cart_id c' c); [assumption | reflexivity].
  - apply or_0_Sum.
  - apply or_0_Sum.
Qed.

Lemma run_try_except (body : View Response) (handler : Exception -> View Response) (db : DB) :
  run (try_except body handler) db =
  match body db with
  | (Val r, db') => (r, db')
  | (Ret r, db') => (r, db')
  | (Exc e, db') => run (handler e) db'
  end.
Proof. unfold run, try_except. now destruct (body db) as [[r|r|e] db']. Qed.

(** A view that failed answered neither 200, 201 nor 204. *)
Ltac not_a_success H Hs :=
  try (inversion H; subst; cbn in Hs; intuition discriminate).

(** Step a hypothesis [H] about [bind m k db] along the cases [E] of [m db]. *)
Ltac step_Val H E :=
  match type of E with ?m ?db = _ =>
    match type of H with context [bind m ?k db] =>
      rewrite (bind_Val m k db E) in H; cbv beta iota in H
    end
  end.
Ltac step_Exc H E :=
  match type of E with ?m ?db = _ =>
    match type of H with context [bind m ?k db] =>
      rewrite (bind_Exc m k db E) in H; cbv beta iota in H
    end
  end.
Ltac step_Ret H E :=
  match type of E with ?m ?db = _ =>
    match type of H with context [bind m ?k db] =>
      rewrite (bind_Ret m k db E) in H; cbv beta iota in H
    end
  end.

Lemma In_put_row_inv {A} (key : A -> Z) (y x : A) (l : list A) :
  In x (put_row key y l) -> x = y \/ (In x l /\ key x <> key y).
Proof.
  unfold put_row. intros H. apply in_map_iff in H as (z & Hz & Hin).
  destruct (Z.eqb_spec (key z) (key y)) as [E|E]; subst; auto.
Qed.

Lemma active_owned_by (user : CustomUser) (c : CartModel) :
  active_cart_of user c -> owned_by user false c = true.
Proof. intros [Hu Ho]. unfold owned_by. now rewrite Hu, Ho, Z.eqb_refl. Qed.

Lemma add_or_update_success (user : CustomUser) (data : CartPost) (db db' : DB) (r : Response) :
  add_or_update user data db = (r, db') ->
  status_code r = 200 \/ status_code r = 201 ->
  exists book line cart,
    post_book_id data = Some (book_id book) /\
    book_of (book_id book) db' = Some book /\
    the_active_cart user cart db' /\
    the_line cart book line db' /\
    item_price line = price book * quantity line /\
    totals_consistent cart db'.
Proof.
  destruct data as [bid q]. intros H Hs.
  unfold add_or_update, CartsViews.post in H. rewrite run_try_except in H.
  cbn [post_book_id post_quantity] in H.
  destruct (negb (truthy bid) || negb (truthy q)) eqn:Et; [not_a_success H Hs|].
  apply orb_false_elim in Et as [Etb _]. apply negb_false_iff in Etb.
  destruct (book_lookup_cases (int_of bid) db
      (mkResponse HTTP_404_NOT_FOUND
         (JObj [("message", JStr "Book does not exist in the database.")])))
    as [(b & Eb & E) | [E | [n E]]];
    [step_Val H E | step_Ret H E | step_Exc H E]; not_a_success H Hs.
  assert (Hbook : book_of (book_id b) db = Some b /\ bid = Some (book_id b)).
  { destruct (filter_singleton_In _ _ Eb) as [_ Hk]. apply Z.eqb_eq in Hk. split.
    - unfold book_of. rewrite Hk, find_head_filter, Eb. reflexivity.
    - rewrite Hk. now apply truthy_Some. }
  destruct Hbook as [Hbook Hbid]. clear E Eb Etb.
  destruct (stock b <? int_of q); [not_a_success H Hs|].
  (* the active cart: found or created *)
  assert (Hcart : exists c created db1,
    CartObjects.get_or_create user db = (Val (c, created), db1) /\
    filter (owned_by user false) (carts db1) = [c] /\ books db1 = books db \/
    (exists n, CartObjects.get_or_create user db =
                 (Exc (MultipleObjectsReturned "CartModel" n), db))).
  { destruct (CartObjects_get_or_create_cases user db)
      as [(c & Ec & E) | [[Ec E] | [n E]]].
    - exists c, false, db. left. repeat split; assumption.
    - eexists _, true, _. left. split; [exact E|]. cbn. split; [|reflexivity].
      rewrite filter_app, Ec. cbn. unfold owned_by at 1; cbn.
      now rewrite Z.eqb_refl.
    - exists (mkCart 0 0 0 0 false), false, db. right. now exists n. }
  destruct Hcart as (c & created_c & db1 & [(E & Ec & Hb1) | [n E]]);
    [step_Val H E | step_Exc H E]; not_a_success H Hs.
  clear E.
  destruct (filter_singleton_In _ _ Ec) as [Hc Hp].
  pose proof (owned_by_active _ _ Hp) as Hact. clear Hp.
  (* the line: found or created *)
  assert (Hline : exists l created db2,
    ItemObjects.get_or_create c b db1 = (Val (l, created), db2) /\
    filter (fun l => (item_cart l =? cart_id c) && (item_book l =? book_id b)) (items db2)
      = [l] /\
    books db2 = books db1 /\ carts db2 = carts db1 \/
    (exists n, ItemObjects.get_or_create c b db1 =
                 (Exc (MultipleObjectsReturned "CartItems" n), db1))).
  { destruct (ItemObjects_get_or_create_cases c b db1)
      as [(l & El & E) | [[El E] | [n E]]].
    - exists l, false, db1. left. repeat split; assumption.
    - eexists _, true, _. left. split; [exact E|]. cbn. split; [|split; reflexivity].
      rewrite filter_app, El. cbn. now rewrite !Z.eqb_refl.
    - exists (mkItem 0 0 0 0 0), false, db1. right. now exists n. }
  destruct Hline as (l & created & db2 & [(E & El & Hb2 & Hc2) | [n E]]);
    [step_Val H E | step_Exc H E]; not_a_success H Hs.
  clear E.
  destruct (filter_singleton_In _ _ El) as [Hl Hp].
  apply andb_prop in Hp as [Hlc Hlb]. apply Z.eqb_eq in Hlc, Hlb.
  (* the new quantity, with the combined check on an existing line *)
  assert (Hq : exists l1,
    item_id l1 = item_id l /\ item_cart l1 = item_cart l /\ item_book l1 = item_book l /\
    ((if created then ret (with_quantity (int_of q) l)
      else if stock b <? quantity l + int_of q
           then return_ (CartsViews.insufficient_stock b)
           else ret (with_quantity (quantity l + int_of q) l)) db2 = (Val l1, db2) \/
     (if created then ret (with_quantity (int_of q) l)
      else if stock b <? quantity l + int_of q
           then return_ (CartsViews.insufficient_stock b)
           else ret (with_quantity (quantity l + int_of q) l)) db2
       = (Ret (CartsViews.insufficient_stock b), db2))).
  { destruct created;
      [exists (with_quantity (int_of q) l); repeat split; left; reflexivity|].
    destruct (stock b <? quantity l + int_of q).
    - exists l. repeat split. right. reflexivity.
    - exists (with_quantity (quantity l + int_of q) l); repeat split; left; reflexivity. }
  destruct Hq as (l1 & Hid & Hl1c & Hl1b & [E | E]);
    [step_Val H E | step_Ret H E]; not_a_success H Hs.
  clear E.
  unfold ItemObjects.save, ItemObjects.filter_cart, aggregate_totals, ItemObjects.filter,
    CartObjects.save in H.
  view_step_in H.
  destruct (storable (backend db2) (quantity (with_price (price b * quantity l1) l1)) &&
            storable (backend db2) (item_price (with_price (price b * quantity l1) l1)));
    [|not_a_success H Hs].
  set (l2 := with_price (price b * quantity l1) l1) in *.
  set (db3 := set_items (put_row item_id l2 (items db2)) db2) in *.
  fold (lines_of (cart_id c) db3) in H.
  fold (recompute_totals c db3) in H.
  inversion H; subst r db'; clear H.
  destruct (recompute_totals_sound c db3) as (Hin' & Hcid & Hcu & Hco & Htp & Htq).
  { unfold db3; cbn. now rewrite Hc2. }
  exists b, l2, (recompute_totals c db3).
  split; [assumption|]. split; [|split; [|split; [|split]]].
  - unfold book_of in *. cbn. now rewrite Hb2, Hb1.
  - split; [assumption|]. split.
    + destruct Hact as [Hu Ho]. split; congruence.
    + intros cart' Hin Hact'. cbn in Hin.
      apply In_put_row_inv in Hin as [-> | [Hin Hne]]; [reflexivity|].
      exfalso. apply Hne.
      assert (Hf : In cart' (filter (owned_by user false) (carts db1))).
      { apply filter_In. split; [now rewrite <- Hc2 | now apply active_owned_by]. }
      rewrite Ec in Hf. destruct Hf as [<- | []]. reflexivity.
  - split; [|split; [|split]].
    + cbn. apply (In_put_row item_id l2 l); [assumption | now rewrite <- Hid].
    + cbn. congruence.
    + cbn. congruence.
    + intros line' Hin Hc' Hb'. cbn in Hin.
      apply In_put_row_inv in Hin as [-> | [Hin Hne]]; [reflexivity|].
      exfalso. apply Hne.
      assert (Hf : In line' (filter (fun l => (item_cart l =? cart_id c) &&
                                              (item_book l =? book_id b)) (items db2))).
      { apply filter_In. split; [assumption|].
        rewrite Hc', Hb'. cbn. now rewrite !Z.eqb_refl. }
      rewrite El in Hf. destruct Hf as [<- | []]. cbn. now rewrite Hid.
  - reflexivity.
  - split; assumption.
Qed.

(** ** Removing a line *)

(** [remove_item] in closed form. *)
Lemma remove_item_unfold (user : CustomUser) (pk : Z) (db : DB) :
  remove_item user pk db =
  if pk =? 0 then
    (mkResponse 400 (JObj [("message", JStr "Item ID is required.")]), db)
  else
    match head (filter (owned_by user false) (carts db)) with
    | None => (mkResponse 404 (JObj [("message", JStr "No active cart found.")]), db)
    | Some c =>
        match head (filter (fun l => (item_book l =? pk) && (item_cart l =? cart_id c))
                           (items db)) with
        | None =>
            (mkResponse 404 (JObj [("message", JStr "No such item found in the active cart.")]),
             db)
        | Some l =>
            let db1 :=
              set_items (filter (fun x => negb (item_id x =? item_id l)) (items db)) db in
            (mkResponse 204 (JObj [("message", JStr "Item deleted successfully")]),
             set_carts (put_row cart_id (recompute_totals c db1) (carts db1)) db1)
        end
    end.
Proof.
  unfold remove_item, CartsViewsByID.delete, CartObjects.first, CartObjects.filter,
    ItemObjects.first, ItemObjects.filter, ItemObjects.delete, ItemObjects.filter_cart,
    aggregate_totals, ItemObjects.filter, CartObjects.save.
  view_step.
  destruct (pk =? 0); cbn [negb]; [reflexivity|].
  destruct (head (filter (owned_by user false) (carts db))) as [c|]; [|reflexivity].
  destruct (head (filter _ (items db))) as [l|]; reflexivity.
Qed.

Lemma head_In {A} (l : list A) (x : A) : head l = Some x -> In x l.
Proof. destruct l; cbn; [discriminate|]. intros [= ->]. now left. Qed.





(** ** Removing the last line *)

Lemma filter_andb {A} (p q : A -> bool) (l : list A) :
  filter (fun x => p x && q x) l = filter p (filter q l).
Proof.
  induction l as [|a l IH]; cbn; [reflexivity|].
  destruct (q a); cbn; [|now rewrite andb_false_r].
  rewrite andb_true_r. destruct (p a); now rewrite IH.
Qed.

Lemma filter_swap {A} (p q : A -> bool) (l : list A) :
  filter p (filter q l) = filter q (filter p l).
Proof.
  rewrite <- !filter_andb. apply filter_ext. intros a. apply andb_comm.
Qed.

Lemma put_row_absent {A} (key : A -> Z) (y : A) (l : list A) :
  ~ In (key y) (map key l) -> put_row key y l = l.
Proof.
  unfold put_row. induction l as [|a l IH]; cbn; intros H; [reflexivity|].
  destruct (Z.eqb_spec (key a) (key y)) as [E|E].
  - exfalso. apply H. now left.
  - f_equal. apply IH. intros Hin. apply H. now right.
Qed.

(** Saving the one row a clause selects, the clause still holding of it. *)
Lemma filter_put_row_selected {A} (key : A -> Z) (p : A -> bool) (x y : A) (l : list A) :
  NoDup (map key l) -> filter p l = [x] -> key y = key x -> p y = true ->
  filter p (put_row key y l) = [y].
Proof.
  induction l as [|a l IH]; intros Hnd Hf Hk Hp; [discriminate|].
  change (put_row key y (a :: l))
    with ((if key a =? key y then y else a) :: put_row key y l).
  cbn [filter map] in *.
  inversion Hnd as [|? ? Hnotin Hnd']; subst.
  destruct (Z.eqb_spec (key a) (key y)) as [E|E].
  - rewrite Hp. rewrite put_row_absent by (now rewrite <- E).
    destruct (p a) eqn:Pa.
    + inversion Hf as [[Ha Hl]]. now rewrite Hl.
    + exfalso. destruct (filter_singleton_In _ _ Hf) as [Hin _].
      apply Hnotin. rewrite E, Hk. now apply in_map.
  - destruct (p a) eqn:Pa.
    + inversion Hf; subst. congruence.
    + now apply IH.
Qed.

(** C10. When [remove_item] deletes the only line of the caller's active
    cart, the answer is 204, the cart row stays, active, with both totals 0
    and no line, and the cart GET that follows answers 200 with that cart. *)
Theorem remove_last_line_keeps_empty_cart :
  forall (user : CustomUser) (db : DB) (cart : CartModel) (line : CartItems),
    wf_store db ->
    In cart (carts db) -> active_cart_of user cart ->
    lines_of (cart_id cart) db = [line] ->
    let emptied := with_total_price 0 (with_total_quantity 0 cart) in
    exists db',
      remove_item user (item_book line) db =
        (mkResponse 204 (JObj [("message", JStr "Item deleted successfully")]), db') /\
      lines_of (cart_id cart) db' = [] /\
      cart_of (cart_id cart) db' = Some emptied /\
      is_ordered emptied = false /\ total_price emptied = 0 /\ total_quantity emptied = 0 /\
      get_active user db' =
        (mkResponse 200
           (JObj [("message", JStr "The active cart of the user is Fetched");
                  ("status", JStr "success");
                  ("cart", CartSerializer emptied)]), db').
Proof.
  intros user db cart line Hwf Hin Hact Hlines emptied.
  assert (Hl : In line (items db) /\ item_cart line = cart_id cart).
  { destruct (filter_singleton_In _ _ Hlines) as [H1 H2]. apply Z.eqb_eq in H2. now split. }
  destruct Hl as [Hl Hlc].
  assert (Hpk : (item_book line =? 0) = false).
  { pose proof (wf_item_book Hwf) as Hfk. rewrite Forall_forall in Hfk.
    specialize (Hfk _ Hl). apply in_map_iff in Hfk as (b & Hb & Hbin).
    pose proof (wf_book_range Hwf) as Hr. rewrite Forall_forall in Hr.
    specialize (Hr _ Hbin). apply Z.eqb_neq. lia. }
  set (db1 := set_items (filter (fun x => negb (item_id x =? item_id line)) (items db)) db).
  assert (Hempty : lines_of (cart_id cart) db1 = []).
  { unfold lines_of, db1; cbn. rewrite filter_swap.
    unfold lines_of in Hlines. rewrite Hlines. cbn. now rewrite Z.eqb_refl. }
  assert (Hre : recompute_totals cart db1 = emptied).
  { unfold recompute_totals. rewrite Hempty. reflexivity. }
  exists (set_carts (put_row cart_id emptied (carts db1)) db1).
  split; [|repeat split].
  - rewrite remove_item_unfold, Hpk, (active_cart_unique Hwf Hin Hact). cbn [head].
    rewrite filter_andb. fold (lines_of (cart_id cart) db). rewrite Hlines.
    cbn [filter]. rewrite Z.eqb_refl. cbn [head]. cbv zeta. fold db1.
    now rewrite Hre.
  - exact Hempty.
  - apply cart_of_save; [assumption | reflexivity].
  - apply Hact.
  - unfold get_active, CartsViews.get, CartObjects.get, CartObjects.filter. view_step.
    cbn [carts set_carts db1 set_items].
    rewrite (@filter_put_row_selected _ cart_id (owned_by user false) cart emptied).
    + reflexivity.
    + apply (wf_cart_keys Hwf).
    + apply (active_cart_unique Hwf Hin Hact).
    + reflexivity.
    + pose proof (active_cart_unique Hwf Hin Hact) as Hf.
      destruct (filter_singleton_In _ _ Hf) as [_ Hp]. exact Hp.
Qed.

Lemma remove_last_line_keeps_empty_cart_witness :
  exists db',
    remove_item Sample.user 1 Sample.one_line =
      (mkResponse 204 (JObj [("message", JStr "Item deleted successfully")]), db') /\
    lines_of 1 db' = [] /\
    cart_of 1 db' = Some (mkCart 1 1 0 0 false) /\
    false = false /\ 0 = 0 /\ 0 = 0 /\
    get_active Sample.user db' =
      (mkResponse 200
         (JObj [("message", JStr "The active cart of the user is Fetched");
                ("status", JStr "success");
                ("cart", CartSerializer (mkCart 1 1 0 0 false))]), db').
Proof.
  apply (@remove_last_line_keeps_empty_cart
           Sample.user Sample.one_line (mkCart 1 1 300 3 false) (mkItem 1 1 1 3 300)).
  - constructor; cbn; repeat constructor; cbn; try lia; intuition discriminate.
  - cbn. left. reflexivity.
  - split; reflexivity.
  - reflexivity.
Defined.

(** ** Login *)

Section LoginProperties.

Variable check_password : string -> string -> bool.
Variable valid_email : string -> bool.
Variable refresh_for_user : CustomUser -> string.
Variable access_token : CustomUser -> string.

Local Abbreviation login :=
  (LoginUser_post check_password valid_email refresh_for_user access_token).

(** A well-formed login for an e-mail that no account has. *)
Lemma login_unknown_email (db : DB) (data : LoginData) (e p : string) :
  UserLoginSerializer_is_valid valid_email data = Some (e, p) ->
  (forall u, In u (users db) -> email u <> e) ->
  run (login data) db = (login_failed, db).
Proof.
  intros Hv Hnone. unfold login, LoginUser_post, authenticate. rewrite Hv.
  view_step.
  assert (E : filter (fun u => String.eqb (email u) e) (users db) = []).
  { destruct (filter _ (users db)) as [|u us] eqn:F; [reflexivity|].
    exfalso. assert (Hin : In u (filter (fun u => String.eqb (email u) e) (users db)))
      by (rewrite F; now left).
    apply filter_In in Hin as [Hin He]. apply String.eqb_eq in He.
    now apply (Hnone u). }
  rewrite E. reflexivity.
Qed.

(** A well-formed login for the e-mail of an account, with a password that
    does not match the account's hash. *)
Lemma login_wrong_password (db : DB) (data : LoginData) (e p : string) (u : CustomUser) :
  UserLoginSerializer_is_valid valid_email data = Some (e, p) ->
  filter (fun u => String.eqb (email u) e) (users db) = [u] ->
  check_password p (password u) = false ->
  run (login data) db = (login_failed, db).
Proof.
  intros Hv Hu Hp. unfold login, LoginUser_post, authenticate. rewrite Hv.
  view_step. rewrite Hu, Hp. reflexivity.
Qed.

End LoginProperties.

Lemma filter_email_unique (us : list CustomUser) (u : CustomUser) :
  NoDup (map email us) -> In u us ->
  filter (fun v => String.eqb (email v) (email u)) us = [u].
Proof.
  induction us as [|a us IH]; cbn; intros Hnd Hin; [contradiction|].
  inversion Hnd as [|? ? Hnotin Hnd']; subst.
  assert (Hnone : forall l, ~ In (email u) (map email l) ->
            filter (fun v => String.eqb (email v) (email u)) l = []).
  { induction l as [|b l IHl]; cbn; intros H; [reflexivity|].
    destruct (String.eqb_spec (email b) (email u)) as [E|E].
    - exfalso. apply H. now left.
    - apply IHl. intros Hi. apply H. now right. }
  destruct Hin as [-> | Hin].
  - rewrite String.eqb_refl. f_equal. now apply Hnone.
  - destruct (String.eqb_spec (email a) (email u)) as [E|E].
    + exfalso. apply Hnotin. rewrite E. now apply in_map.
    + now apply IH.
Qed.

(** C9. A well-formed login whose credentials match no account answers 400,
    and the whole response is the same whether the e-mail is unknown or the
    e-mail is an account's and the password is wrong. *)
Theorem login_failure_indistinguishable :
  forall (check_password : string -> string -> bool) (valid_email : string -> bool)
         (refresh_for_user access_token : CustomUser -> string)
         (db1 db2 : DB) (data1 data2 : LoginData) (e1 p1 e2 p2 : string) (u : CustomUser),
    let login := LoginUser_post check_password valid_email refresh_for_user access_token in
    UserLoginSerializer_is_valid valid_email data1 = Some (e1, p1) ->
    UserLoginSerializer_is_valid valid_email data2 = Some (e2, p2) ->
    (forall v, In v (users db1) -> email v <> e1) ->
    NoDup (map email (users db2)) -> In u (users db2) -> email u = e2 ->
    check_password p2 (password u) = false ->
    status_code (fst (run (login data1) db1)) = 400 /\
    status_code (fst (run (login data2) db2)) = 400 /\
    fst (run (login data1) db1) = fst (run (login data2) db2) /\
    snd (run (login data1) db1) = db1 /\ snd (run (login data2) db2) = db2.
Proof.
  intros cp ve rf at_ db1 db2 data1 data2 e1 p1 e2 p2 u login Hv1 Hv2 Hunknown Hnd Hin He Hp.
  unfold login.
  rewrite (login_unknown_email cp ve rf at_ db1 data1 Hv1 Hunknown).
  rewrite (login_wrong_password cp ve rf at_ db2 data2 (u := u) Hv2); [| |assumption].
  - repeat split.
  - rewrite <- He. now apply filter_email_unique.
Qed.

Lemma login_failure_indistinguishable_witness :
  let login := LoginUser_post String.eqb (fun _ => true) email email in
  let unknown := mkLoginData (Some "nobody@example.com") (Some "testpassword") in
  let wrong := mkLoginData (Some "testuser@example.com") (Some "guess") in
  status_code (fst (run (login unknown) Sample.catalog)) = 400 /\
  status_code (fst (run (login wrong) Sample.catalog)) = 400 /\
  fst (run (login unknown) Sample.catalog) = fst (run (login wrong) Sample.catalog) /\
  snd (run (login unknown) Sample.catalog) = Sample.catalog /\
  snd (run (login wrong) Sample.catalog) = Sample.catalog.
Proof.
  intros login unknown wrong.
  apply (@login_failure_indistinguishable String.eqb (fun _ => true) email email
           Sample.catalog Sample.catalog unknown wrong
           "nobody@example.com" "testpassword" "testuser@example.com" "guess" Sample.user).
  - reflexivity.
  - reflexivity.
  - cbn. intros v [<- | [<- | []]]; discriminate.
  - cbn. repeat constructor; cbn; intuition discriminate.
  - cbn. left. reflexivity.
  - reflexivity.
  - reflexivity.
Defined.

(** ** Rules of the Hoare logic *)

Section HoareRules.

Context {A B : Type}.
Variable I : DB -> Prop.

Lemma hoare_ret (P : DB -> Prop) (a : A) :
  hoare P (ret a) (fun a' db => a' = a /\ P db) I.
Proof. intros db H; cbn; auto. Qed.

Lemma hoare_return (P : DB -> Prop) (Q : A -> DB -> Prop) (r : Response) :
  (forall db, P db -> I db) -> hoare P (return_ r) Q I.
Proof. intros H db HP; cbn; auto. Qed.

Lemma hoare_raise (P : DB -> Prop) (Q : A -> DB -> Prop) (e : Exception) :
  (forall db, P db -> I db) -> hoare P (raise e) Q I.
Proof. intros H db HP; cbn; auto. Qed.

Lemma hoare_query (P : DB -> Prop) (f : DB -> A) :
  hoare P (query f) (fun a db => a = f db /\ P db) I.
Proof. intros db H; cbn; auto. Qed.

Lemma hoare_modify (P : DB -> Prop) (Q : DB -> Prop) (f : DB -> DB) :
  (forall db, P db -> Q (f db)) -> hoare P (modify f) (fun _ db => Q db) I.
Proof. intros H db HP; cbn; auto. Qed.

Lemma hoare_bind (P : DB -> Prop) (Q : A -> DB -> Prop) (R : B -> DB -> Prop)
      (m : View A) (k : A -> View B) :
  hoare P m Q I -> (forall a, hoare (Q a) (k a) R I) -> hoare P (bind m k) R I.
Proof.
  intros Hm Hk db HP. unfold bind. specialize (Hm db HP).
  destruct (m db) as [[a|r|e] db1]; [|assumption..].
  exact (Hk a db1 Hm).
Qed.

Lemma hoare_try_except (P : DB -> Prop) (Q : A -> DB -> Prop)
      (body : View A) (handler : Exception -> View A) :
  hoare P body Q I -> (forall e, hoare I (handler e) Q I) ->
  hoare P (try_except body handler) Q I.
Proof.
  intros Hb Hh db HP. unfold try_except. specialize (Hb db HP).
  destruct (body db) as [[a|r|e] db1]; [assumption..|].
  exact (Hh e db1 Hb).
Qed.

Lemma hoare_weaken (P P' : DB -> Prop) (Q Q' : A -> DB -> Prop) (m : View A) :
  hoare P m Q I -> (forall db, P' db -> P db) -> (forall a db, Q a db -> Q' a db) ->
  hoare P' m Q' I.
Proof.
  intros Hm HP HQ db HP'. specialize (Hm db (HP db HP')).
  destruct (m db) as [[a|r|e] db1]; auto.
Qed.

Lemma hoare_if (P : DB -> Prop) (Q : A -> DB -> Prop) (c : bool) (m1 m2 : View A) :
  (c = true -> hoare P m1 Q I) -> (c = false -> hoare P m2 Q I) ->
  hoare P (if c then m1 else m2) Q I.
Proof. intros H1 H2. destruct c; [apply H1 | apply H2]; reflexivity. Qed.

End HoareRules.

Lemma hoare_for_each {A} (I : DB -> Prop) (xs : list A) (body : A -> View unit) :
  (forall x, In x xs -> hoare I (body x) (fun _ => I) I) ->
  hoare I (for_each xs body) (fun _ => I) I.
Proof.
  induction xs as [|x xs IH]; intros H.
  - intros db HI; cbn; assumption.
  - cbn [for_each]. eapply hoare_bind.
    + apply H. now left.
    + intros u. apply IH. intros y Hy. apply H. now right.
Qed.

(** A view all of whose exits restore [I], run to its response. *)
Lemma hoare_run (I : DB -> Prop) (v : View Response) :
  hoare I v (fun _ => I) I -> forall db, I db -> I (snd (run v db)).
Proof.
  intros H db HI. unfold run. specialize (H db HI).
  destruct (v db) as [[a|r|e] db1]; assumption.
Qed.

(** A computation that only reads. *)
Lemma hoare_get_one {A} (I : DB -> Prop) (model : string) (matches : list A) :
  hoare I (get_one model matches) (fun a db => In a matches /\ I db) I.
Proof.
  destruct matches as [|x [|y l]]; intros db HI; cbn; auto.
Qed.

(** ** Invariants that every exit of a view restores *)

Section Keeps.

Context {A B : Type}.
Variable I : DB -> Prop.

Lemma keeps_ret (a : A) : keeps I (ret a).
Proof. intros db H; cbn; assumption. Qed.

Lemma keeps_return (r : Response) : keeps I (@return_ A r).
Proof. intros db H; cbn; assumption. Qed.

Lemma keeps_raise (e : Exception) : keeps I (@raise A e).
Proof. intros db H; cbn; assumption. Qed.

Lemma keeps_query (f : DB -> A) : keeps I (query f).
Proof. intros db H; cbn; assumption. Qed.

Lemma keeps_modify (f : DB -> DB) : (forall db, I db -> I (f db)) -> keeps I (modify f).
Proof. intros Hf db H; cbn; auto. Qed.

Lemma keeps_bind (m : View A) (k : A -> View B) :
  keeps I m -> (forall a, keeps I (k a)) -> keeps I (bind m k).
Proof. intros Hm Hk. eapply hoare_bind; [exact Hm | exact Hk]. Qed.

Lemma keeps_try_except (body : View A) (handler : Exception -> View A) :
  keeps I body -> (forall e, keeps I (handler e)) -> keeps I (try_except body handler).
Proof. intros Hb Hh. apply hoare_try_except; assumption. Qed.

Lemma keeps_get_one (model : string) (matches : list A) :
  keeps I (get_one model matches).
Proof. destruct matches as [|x [|y l]]; intros db HI; cbn; auto. Qed.

End Keeps.

(** One structural step of a proof that a view keeps an invariant. *)
Ltac keeps_step :=
  match goal with
  | |- hoare _ (ret _) _ _ => apply keeps_ret
  | |- hoare _ (return_ _) _ _ => apply keeps_return
  | |- hoare _ (raise _) _ _ => apply keeps_raise
  | |- hoare _ (query _) _ _ => apply keeps_query
  | |- hoare _ (get_one _ _) _ _ => apply keeps_get_one
  | |- hoare _ (bind _ _) _ _ => apply keeps_bind; [| intros ?]
  | |- hoare _ (try_except _ _) _ _ => apply keeps_try_except; [| intros ?]
  | |- hoare _ (for_each _ _) _ _ => apply hoare_for_each; intros ? ?
  | |- hoare _ (if ?c then _ else _) _ _ => destruct c eqn:?
  | |- hoare _ (match ?x with _ => _ end) _ _ => destruct x
  end.

(** *** Invariants that look at the book rows only *)

Section BooksOnly.

Variable I : DB -> Prop.
Hypothesis books_only : forall db db', books db' = books db -> I db -> I db'.

Lemma keeps_modify_books (f : DB -> DB) :
  (forall db, books (f db) = books db) -> keeps I (modify f).
Proof.
  intros Hf. apply keeps_modify. intros db H.
  eapply books_only; [apply Hf | assumption].
Qed.

Ltac books_untouched :=
  first [ assumption
        | apply keeps_modify_books; intros; reflexivity
        | keeps_step ].

Lemma keeps_CartObjects_get_or_create (user : CustomUser) :
  keeps I (CartObjects.get_or_create user).
Proof.
  unfold CartObjects.get_or_create, CartObjects.get, CartObjects.filter, CartObjects.create.
  repeat books_untouched.
Qed.

Lemma keeps_ItemObjects_get_or_create (c : CartModel) (b : Book) :
  keeps I (ItemObjects.get_or_create c b).
Proof.
  unfold ItemObjects.get_or_create, ItemObjects.filter, ItemObjects.create.
  repeat books_untouched.
Qed.

Lemma keeps_BookObjects_get (pk : Z) : keeps I (BookObjects.get pk).
Proof. unfold BookObjects.get, BookObjects.filter. repeat books_untouched. Qed.

Lemma keeps_CartsViews_get (user : CustomUser) : keeps I (CartsViews.get user).
Proof.
  unfold CartsViews.get, CartObjects.get, CartObjects.filter. repeat books_untouched.
Qed.

Lemma keeps_CartsViews_post (user : CustomUser) (data : CartPost) :
  keeps I (CartsViews.post user data).
Proof.
  unfold CartsViews.post.
  repeat first
    [ apply keeps_CartObjects_get_or_create
    | apply keeps_ItemObjects_get_or_create
    | apply keeps_BookObjects_get
    | books_untouched ].
  all: unfold ItemObjects.save, ItemObjects.filter_cart, aggregate_totals,
         ItemObjects.filter, CartObjects.save; repeat books_untouched.
Qed.

Lemma keeps_CartsViewsByID_delete (user : CustomUser) (pk : Z) :
  keeps I (CartsViewsByID.delete user pk).
Proof.
  unfold CartsViewsByID.delete, CartObjects.first, CartObjects.filter, ItemObjects.first,
    ItemObjects.delete, ItemObjects.filter_cart, aggregate_totals, ItemObjects.filter,
    CartObjects.save.
  repeat books_untouched.
Qed.

Lemma keeps_OrderViews_get (user : CustomUser) : keeps I (OrderViews.get user).
Proof.
  unfold OrderViews.get, CartObjects.filter. repeat books_untouched.
Qed.

Lemma keeps_BookViewset_list (user : CustomUser) : keeps I (BookViewset.list user).
Proof.
  unfold BookViewset.list, BookObjects.filter. repeat books_untouched.
Qed.

End BooksOnly.

(** ** Stock never goes negative *)

Lemma stock_non_negative_books_only (db db' : DB) :
  books db' = books db -> stock_non_negative db -> stock_non_negative db'.
Proof. unfold stock_non_negative. now intros ->. Qed.

Lemma Forall_put_row {A} (key : A -> Z) (P : A -> Prop) (y : A) (l : list A) :
  Forall P l -> P y -> Forall P (put_row key y l).
Proof.
  intros Hl Hy. unfold put_row. apply Forall_forall. intros x Hx.
  apply in_map_iff in Hx as (z & Hz & Hin). rewrite Forall_forall in Hl.
  destruct (key z =? key y); subst; auto.
Qed.

Lemma Forall_filter {A} (p : A -> bool) (P : A -> Prop) (l : list A) :
  Forall P l -> Forall P (filter p l).
Proof.
  rewrite !Forall_forall. intros H x Hx. apply filter_In in Hx as [Hx _]. auto.
Qed.

Lemma keeps_stock_save (b : Book) :
  0 <= stock b -> keeps stock_non_negative (BookObjects.save b).
Proof.
  intros Hb. apply keeps_modify. intros db H. unfold stock_non_negative; cbn.
  now apply Forall_put_row.
Qed.

Ltac stock_step :=
  first [ apply (keeps_BookObjects_get stock_non_negative stock_non_negative_books_only)
        | apply keeps_modify_books;
            [exact stock_non_negative_books_only | intros; reflexivity]
        | keeps_step ].

(** The loop body of [place_order]: the decrement comes after the check, so
    the stock that is saved is not negative. *)
Lemma keeps_stock_order_line (item : CartItems) :
  keeps stock_non_negative (OrderViews.order_line item).
Proof.
  unfold OrderViews.order_line, ItemObjects.book.
  apply keeps_bind; [stock_step|]. intros book.
  destruct (Z.gtb_spec (quantity item) (stock book)) as [Hgt|Hle]; [stock_step|].
  apply keeps_stock_save. cbn. lia.
Qed.

Lemma keeps_stock_OrderViews_post (user : CustomUser) :
  keeps stock_non_negative (OrderViews.post user).
Proof.
  unfold OrderViews.post, CartObjects.first, CartObjects.filter, ItemObjects.filter_cart,
    ItemObjects.exists_, ItemObjects.filter, CartObjects.save.
  repeat first [ apply keeps_stock_order_line | stock_step ].
Qed.

(** [cancel_order]: the filter on the lines raises before the loop is
    entered, so nothing after it runs. *)
Lemma keeps_OrderViewsByID_delete (I : DB -> Prop) (user : CustomUser) (pk : Z) :
  keeps I (OrderViewsByID.delete user pk).
Proof.
  unfold OrderViewsByID.delete, CartObjects.filter.
  apply keeps_try_except; [|intros e; keeps_step].
  apply keeps_bind; [keeps_step|]. intros found.
  destruct found as [|c cs]; [keeps_step|].
  eapply hoare_bind with (Q := fun _ _ => False).
  - unfold ItemObjects.filter_cart. intros db H; cbn; assumption.
  - intros qs db [].
Qed.

Lemma cancel_order_leaves_store (user : CustomUser) (pk : Z) (db : DB) :
  snd (cancel_order user pk db) = db.
Proof.
  unfold cancel_order.
  apply (hoare_run (I := fun db' => db' = db)
           (keeps_OrderViewsByID_delete (fun db' => db' = db) user pk)).
  reflexivity.
Qed.

(** ** The fields of the serializers *)

Lemma validated_inr {A} (v w : A) (errors : list ErrorDetail) :
  validated v errors = inr w -> w = v /\ errors = [].
Proof. destruct errors; cbn; [intros [= <-]; now split | discriminate]. Qed.

Lemma validated_nil {A} (v : A) : validated v [] = inr v.
Proof. reflexivity. Qed.

Lemma IntegerField_inr (limit : Z) (input : option Z) (v : Z) :
  IntegerField limit input = inr v <-> input = Some v /\ 0 <= v <= limit.
Proof.
  unfold IntegerField. split.
  - destruct input as [z|]; [|discriminate]. intros H.
    apply validated_inr in H as [-> H].
    destruct (Z.gtb_spec z limit); [discriminate|].
    destruct (Z.ltb_spec z 0); [discriminate|]. split; [reflexivity | lia].
  - intros [-> Hv].
    destruct (Z.gtb_spec v limit); [lia|]. destruct (Z.ltb_spec v 0); [lia|]. reflexivity.
Qed.

Lemma CharField_validators_nil (v : string) :
  CharField_validators (Some 255) v = [] <-> len v <= 255 /\ null_free v.
Proof.
  unfold CharField_validators, null_free. split.
  - intros H. apply app_eq_nil in H as [H1 H2].
    destruct (Z.gtb_spec (len v) 255); [discriminate|].
    destruct (existsb _ _); [discriminate|]. split; [lia | reflexivity].
  - intros [H1 H2]. rewrite H2.
    destruct (Z.gtb_spec (len v) 255); [lia | reflexivity].
Qed.

Lemma CharField_inr (limit : option Z) (before after : string -> list ErrorDetail)
      (input : option string) (v : string) :
  CharField limit before after input = inr v <->
  exists raw, input = Some raw /\ v = strip raw /\ v <> "" /\
              before v = [] /\ CharField_validators limit v = [] /\ after v = [].
Proof.
  unfold CharField. split.
  - destruct input as [raw|]; [|discriminate].
    destruct (String.eqb_spec (strip raw) "") as [|Hne]; [discriminate|].
    intros H. apply validated_inr in H as [-> H].
    apply app_eq_nil in H as [H1 H]. apply app_eq_nil in H as [H2 H3].
    exists raw. repeat split; assumption.
  - intros (raw & -> & -> & Hne & H1 & H2 & H3).
    destruct (String.eqb_spec (strip raw) ""); [contradiction|].
    now rewrite H1, H2, H3.
Qed.

Lemma optional_CharField_inr (input d : option (option string)) :
  optional_CharField input = inr d ->
  d = option_map trimmed input.
Proof.
  unfold optional_CharField, trimmed.
  destruct input as [[raw|]|]; cbn; try (intros [= <-]; reflexivity).
  destruct (String.eqb_spec (strip raw) "") as [E|]; [intros [= <-]; now rewrite E|].
  intros H. now apply validated_inr in H as [-> _].
Qed.

Lemma UniqueValidator_nil (rows : list Book) (instance : option Book) (v : string) :
  UniqueValidator rows instance v = [] <->
  forall b, In b rows ->
    match instance with Some i => book_id b <> book_id i | None => True end ->
    name b <> v.
Proof.
  unfold UniqueValidator. split.
  - intros H b Hb Hi E.
    assert (Hin : In b (filter (fun b => String.eqb (name b) v &&
                match instance with Some i => negb (book_id b =? book_id i) | None => true end)
                rows)).
    { apply filter_In. split; [assumption|]. apply andb_true_iff. split.
      - now apply String.eqb_eq.
      - destruct instance; [apply negb_true_iff; now apply Z.eqb_neq | reflexivity]. }
    destruct (filter _ rows); [contradiction | discriminate].
  - intros H. destruct (filter _ rows) as [|b l] eqn:F; [reflexivity|]. exfalso.
    assert (Hin : In b (b :: l)) by now left.
    rewrite <- F in Hin. apply filter_In in Hin as [Hb Hp].
    apply andb_true_iff in Hp as [Hn Hi]. apply String.eqb_eq in Hn.
    apply (H b Hb); [|assumption].
    destruct instance; [|exact I]. apply negb_true_iff in Hi. now apply Z.eqb_neq.
Qed.

(** [BookSerializer.is_valid] only reads: it yields the validated fields,
    each one what its field makes of the body, or raises a
    [ValidationError]. *)
Lemma BookSerializer_is_valid_cases (instance : option Book) (data : BookPayload) (db : DB) :
  (exists n a d p s,
     CharField (Some 255) (UniqueValidator (books db) instance) no_validator (p_name data)
       = inr n /\
     CharField (Some 255) no_validator no_validator (p_author data) = inr a /\
     optional_CharField (p_description data) = inr d /\
     IntegerField (positive_integer_max (backend db)) (p_price data) = inr p /\
     IntegerField (positive_integer_max (backend db)) (p_stock data) = inr s /\
     BookSerializer_is_valid instance data db = (Val (n, a, d, p, s), db)) \/
  (exists detail,
     BookSerializer_is_valid instance data db = (Exc (ValidationError detail), db)).
Proof.
  unfold BookSerializer_is_valid. view_step.
  destruct (CharField (Some 255) (UniqueValidator (books db) instance) no_validator
              (p_name data)) as [en|n];
    [right; eexists; reflexivity|].
  destruct (CharField (Some 255) no_validator no_validator (p_author data)) as [ea|a];
    [right; eexists; reflexivity|].
  destruct (optional_CharField (p_description data)) as [ed|d];
    [right; eexists; reflexivity|].
  destruct (IntegerField (positive_integer_max (backend db)) (p_price data)) as [ep|p];
    [right; eexists; reflexivity|].
  destruct (IntegerField (positive_integer_max (backend db)) (p_stock data)) as [es|s];
    [right; eexists; reflexivity|].
  left. exists n, a, d, p, s. repeat split.
Qed.

(** The validated stock of a catalog payload is not negative. *)
Lemma BookSerializer_is_valid_stock (instance : option Book) (data : BookPayload) :
  hoare stock_non_negative (BookSerializer_is_valid instance data)
    (fun v db => 0 <= snd v /\ stock_non_negative db) stock_non_negative.
Proof.
  intros db H.
  destruct (BookSerializer_is_valid_cases instance data db)
    as [(n & a & d & p & s & _ & _ & _ & _ & Hs & ->) | (detail & ->)]; [|assumption].
  cbn [snd]. split; [|assumption]. apply IntegerField_inr in Hs. lia.
Qed.

Lemma keeps_stock_get_object (pk : Z) : keeps stock_non_negative (BookViewset.get_object pk).
Proof. unfold BookViewset.get_object. repeat stock_step. Qed.

Lemma keeps_stock_BookViewset_create (user : CustomUser) (data : BookPayload) :
  keeps stock_non_negative (BookViewset.create user data).
Proof.
  unfold BookViewset.create. destruct (negb (is_superuser user)); [stock_step|].
  apply keeps_try_except; [|intros e; repeat stock_step].
  eapply hoare_bind; [apply BookSerializer_is_valid_stock|].
  intros [[[[n a] d] p] s]. cbn [snd].
  intros db [Hs H]. view_step. unfold stock_non_negative, insert_book; cbn.
  apply Forall_app. split; [assumption|]. constructor; [exact Hs | constructor].
Qed.

Lemma keeps_stock_BookViewset_update (user : CustomUser) (pk : Z) (data : BookPayload) :
  keeps stock_non_negative (BookViewset.update user pk data).
Proof.
  unfold BookViewset.update. destruct (negb (is_superuser user)); [stock_step|].
  apply keeps_try_except; [|intros e; repeat stock_step].
  apply keeps_bind; [apply keeps_stock_get_object|]. intros book.
  eapply hoare_bind; [apply BookSerializer_is_valid_stock|].
  intros [[[[n a] d] p] s]. cbn [snd].
  intros db [Hs H]. unfold BookObjects.save. view_step.
  unfold stock_non_negative; cbn. now apply Forall_put_row.
Qed.

Lemma keeps_stock_BookViewset_destroy (user : CustomUser) (pk : Z) :
  keeps stock_non_negative (BookViewset.destroy user pk).
Proof.
  unfold BookViewset.destroy. destruct (negb (is_superuser user)); [stock_step|].
  apply keeps_try_except; [|intros e; repeat stock_step].
  apply keeps_bind; [apply keeps_stock_get_object|]. intros book.
  apply keeps_bind; [|intros u; stock_step].
  unfold BookObjects.delete. apply keeps_modify. intros db H.
  unfold stock_non_negative; cbn. now apply Forall_filter.
Qed.

(** C4. If no book's stock is negative, none is after any operation of the
    API, whoever calls it and whatever it answers; the cart POST and the
    removal of a line leave every book row as it was, and the cancellation
    of an order lowers no book's stock. *)
Theorem stock_stays_non_negative :
  forall (user : CustomUser) (op : Operation) (db : DB),
    stock_non_negative db ->
    stock_non_negative (snd (exec user op db)) /\
    (forall data, op = AddOrUpdate data -> books (snd (exec user op db)) = books db) /\
    (forall pk, op = RemoveItem pk -> books (snd (exec user op db)) = books db) /\
    (forall pk, op = CancelOrder pk ->
       forall k b, book_of k db = Some b ->
         exists b', book_of k (snd (exec user op db)) = Some b' /\ stock b <= stock b').
Proof.
  intros user op db H. split; [|split; [|split]].
  - destruct op; cbn [exec];
      unfold get_active, add_or_update, remove_item, list_orders, place_order, cancel_order;
      apply hoare_run; try assumption.
    + apply keeps_CartsViews_get, stock_non_negative_books_only.
    + apply keeps_CartsViews_post, stock_non_negative_books_only.
    + apply keeps_CartsViewsByID_delete, stock_non_negative_books_only.
    + apply keeps_OrderViews_get, stock_non_negative_books_only.
    + apply keeps_stock_OrderViews_post.
    + apply keeps_OrderViewsByID_delete.
    + apply keeps_BookViewset_list, stock_non_negative_books_only.
    + apply keeps_stock_BookViewset_create.
    + apply keeps_stock_BookViewset_update.
    + apply keeps_stock_BookViewset_destroy.
  - intros data ->. cbn [exec]. unfold add_or_update.
    apply (hoare_run (I := fun db' => books db' = books db)); [|reflexivity].
    apply keeps_CartsViews_post. intros d d' E1 E2. congruence.
  - intros pk ->. cbn [exec]. unfold remove_item.
    apply (hoare_run (I := fun db' => books db' = books db)); [|reflexivity].
    apply keeps_CartsViewsByID_delete. intros d d' E1 E2. congruence.
  - intros pk -> k b Hb. cbn [exec]. rewrite cancel_order_leaves_store.
    exists b. split; [assumption | lia].
Qed.

Lemma stock_stays_non_negative_witness :
  stock_non_negative (snd (exec Sample.user PlaceOrder Sample.two_lines)) /\
  (forall data, PlaceOrder = AddOrUpdate data ->
     books (snd (exec Sample.user PlaceOrder Sample.two_lines)) = books Sample.two_lines) /\
  (forall pk, PlaceOrder = RemoveItem pk ->
     books (snd (exec Sample.user PlaceOrder Sample.two_lines)) = books Sample.two_lines) /\
  (forall pk, PlaceOrder = CancelOrder pk ->
     forall k b, book_of k Sample.two_lines = Some b ->
       exists b', book_of k (snd (exec Sample.user PlaceOrder Sample.two_lines)) = Some b' /\
                  stock b <= stock b').
Proof.
  apply (@stock_stays_non_negative Sample.user PlaceOrder Sample.two_lines).
  unfold stock_non_negative. cbn. repeat constructor; cbn; lia.
Defined.

(** ** The well-formedness of the store is an invariant of the API *)

Lemma Forall_put_row_same {A} (key : A -> Z) (P : A -> Prop) (y : A) (l : list A) :
  Forall P l -> (forall x, In x l -> key x = key y -> P y) -> Forall P (put_row key y l).
Proof.
  intros Hl Hy. unfold put_row. apply Forall_forall. intros x Hx.
  apply in_map_iff in Hx as (z & Hz & Hin). rewrite Forall_forall in Hl.
  destruct (Z.eqb_spec (key z) (key y)); subst; eauto.
Qed.

Lemma map_put_row_same {A B} (key : A -> Z) (f : A -> B) (y : A) (l : list A) :
  (forall x, In x l -> key x = key y -> f x = f y) ->
  map f (put_row key y l) = map f l.
Proof.
  unfold put_row. induction l as [|a l IH]; cbn; intros H; [reflexivity|].
  rewrite IH by (intros x Hx; apply H; now right). f_equal.
  destruct (Z.eqb_spec (key a) (key y)) as [E|E]; [|reflexivity].
  symmetry. apply H; [now left | assumption].
Qed.

Lemma filter_put_row_same {A} (key : A -> Z) (p : A -> bool) (y : A) (l : list A) :
  (forall x, In x l -> key x = key y -> p x = p y) ->
  filter p (put_row key y l) = put_row key y (filter p l).
Proof.
  unfold put_row. induction l as [|a l IH]; cbn; intros H; [reflexivity|].
  rewrite IH by (intros x Hx; apply H; now right).
  destruct (Z.eqb_spec (key a) (key y)) as [E|E].
  - rewrite <- (H a (or_introl eq_refl) E). destruct (p a); cbn; [|reflexivity].
    destruct (Z.eqb_spec (key a) (key y)); [reflexivity | contradiction].
  - destruct (p a); cbn; [|reflexivity].
    destruct (Z.eqb_spec (key a) (key y)); [contradiction | reflexivity].
Qed.

Lemma filter_put_row_rejected {A} (key : A -> Z) (p : A -> bool) (y : A) (l : list A) :
  p y = false ->
  filter p (put_row key y l) = filter (fun x => negb (key x =? key y)) (filter p l).
Proof.
  intros Hy. unfold put_row. induction l as [|a l IH]; cbn; [reflexivity|].
  rewrite IH. destruct (Z.eqb_spec (key a) (key y)) as [E|E].
  - rewrite Hy. destruct (p a); cbn; [|reflexivity].
    destruct (Z.eqb_spec (key a) (key y)); [reflexivity | contradiction].
  - destruct (p a); cbn; [|reflexivity].
    destruct (Z.eqb_spec (key a) (key y)); [contradiction | reflexivity].
Qed.

Lemma NoDup_map_filter {K R} (key : R -> K) (keep : R -> bool) (rows : list R)
      (Hnd : NoDup (map key rows)) :
  NoDup (map key (filter keep rows)).
Proof.
  induction rows as [|a rows IH]; cbn in *; [constructor|].
  inversion Hnd as [|? ? Hnotin Hnd']; subst.
  destruct (keep a); cbn; [|now apply IH].
  constructor; [|now apply IH].
  intros Hin. apply Hnotin. apply in_map_iff in Hin as (x & Hx & Hxin).
  apply filter_In in Hxin as [Hxin _]. rewrite <- Hx. now apply in_map.
Qed.

Lemma NoDup_snoc {A} (l : list A) (x : A) : NoDup l -> ~ In x l -> NoDup (l ++ [x]).
Proof.
  intros Hl Hx. apply NoDup_app; [assumption | repeat constructor; intros [] |].
  intros y Hy [<- | []]. now apply Hx.
Qed.

Lemma key_unique {A} (key : A -> Z) (l : list A) (x x' : A) :
  NoDup (map key l) -> In x l -> In x' l -> key x = key x' -> x = x'.
Proof.
  intros Hnd Hx Hx' E.
  pose proof (filter_key_unique key l x Hnd Hx) as F.
  assert (Hin : In x' (filter (fun y => key y =? key x) l)).
  { apply filter_In. split; [assumption|]. apply Z.eqb_eq. now symmetry. }
  rewrite F in Hin. destruct Hin as [<- | []]. reflexivity.
Qed.

Lemma range_fresh {A} (key : A -> Z) (next : Z) (l : list A) :
  Forall (fun x => 0 < key x < next) l -> ~ In next (map key l).
Proof.
  intros H Hin. apply in_map_iff in Hin as (x & Hx & Hxin).
  rewrite Forall_forall in H. specialize (H x Hxin). lia.
Qed.

Lemma range_grow {A} (key : A -> Z) (next : Z) (l : list A) :
  Forall (fun x => 0 < key x < next) l -> Forall (fun x => 0 < key x < next + 1) l.
Proof. apply Forall_impl. intros x. lia. Qed.

(** *** The writes, one by one *)

Lemma wf_save_book (b : Book) (db : DB) :
  wf_store db -> wf_store (set_books (put_row book_id b (books db)) db).
Proof.
  intros [Hn Hbk Hbr Hck Hcr Hik Hir Hib Hic Hl Ha].
  constructor; cbn; try assumption.
  - now rewrite map_key_put_row.
  - apply Forall_put_row_same; [assumption|]. intros x Hx E.
    rewrite Forall_forall in Hbr. rewrite <- E. now apply Hbr.
  - now rewrite map_key_put_row.
Qed.

Lemma wf_delete_book (b : Book) (db : DB) :
  wf_store db ->
  wf_store (mkDB (users db)
                 (filter (fun x => negb (book_id x =? book_id b)) (books db))
                 (carts db)
                 (filter (fun l => negb (item_book l =? book_id b)) (items db))
                 (next_book_id db) (next_cart_id db) (next_item_id db) (backend db)).
Proof.
  intros [Hn Hbk Hbr Hck Hcr Hik Hir Hib Hic Hl Ha].
  constructor; cbn; try assumption;
    try (now apply NoDup_map_filter); try (now apply Forall_filter).
  apply Forall_forall. intros l Hin. apply filter_In in Hin as [Hin Hne].
  rewrite Forall_forall in Hib. specialize (Hib l Hin).
  apply in_map_iff in Hib as (x & Hx & Hxin). apply in_map_iff. exists x.
  split; [assumption|]. apply filter_In. split; [assumption|]. now rewrite Hx.
Qed.

Lemma wf_insert_book (b : Book) (db : DB) :
  wf_store db -> book_id b = next_book_id db -> wf_store (insert_book b db).
Proof.
  intros [Hn Hbk Hbr Hck Hcr Hik Hir Hib Hic Hl Ha] E.
  constructor; cbn; try assumption.
  - lia.
  - rewrite map_app. cbn. apply NoDup_snoc; [assumption|].
    rewrite E. now apply range_fresh.
  - apply Forall_app. split; [rewrite E; now apply range_grow|].
    constructor; [cbn; lia | constructor].
  - eapply Forall_impl; [|exact Hib]. cbn. intros l Hin.
    rewrite map_app. apply in_or_app. now left.
Qed.

Lemma wf_delete_item (l : CartItems) (db : DB) :
  wf_store db ->
  wf_store (set_items (filter (fun x => negb (item_id x =? item_id l)) (items db)) db).
Proof.
  intros [Hn Hbk Hbr Hck Hcr Hik Hir Hib Hic Hl Ha].
  constructor; cbn; try assumption;
    try (now apply NoDup_map_filter); now apply Forall_filter.
Qed.

(** A line saved over the stored line of the same key, cart and book. *)
Lemma wf_save_item (l l' : CartItems) (db : DB) :
  wf_store db -> In l (items db) ->
  item_id l' = item_id l -> item_cart l' = item_cart l -> item_book l' = item_book l ->
  wf_store (set_items (put_row item_id l' (items db)) db).
Proof.
  intros [Hn Hbk Hbr Hck Hcr Hik Hir Hib Hic Hl Ha] Hin Eid Ec Eb.
  assert (Hsame : forall x, In x (items db) -> item_id x = item_id l' -> x = l).
  { intros x Hx E. apply (key_unique item_id (items db)); congruence. }
  rewrite Forall_forall in Hir, Hib, Hic.
  constructor; cbn; try assumption.
  - now rewrite map_key_put_row.
  - apply Forall_put_row_same; [now apply Forall_forall|].
    intros x Hx E. rewrite Eid. now apply Hir.
  - apply Forall_put_row_same; [now apply Forall_forall|].
    intros x Hx E. rewrite Eb. now apply Hib.
  - apply Forall_put_row_same; [now apply Forall_forall|].
    intros x Hx E. rewrite Ec. now apply Hic.
  - rewrite map_put_row_same; [assumption|].
    intros x Hx E. rewrite (Hsame x Hx E). congruence.
Qed.

(** A cart saved over the stored cart of the same key, user and flag. *)
Lemma wf_save_cart (c c' : CartModel) (db : DB) :
  wf_store db -> In c (carts db) ->
  cart_id c' = cart_id c -> cart_user c' = cart_user c -> is_ordered c' = is_ordered c ->
  wf_store (set_carts (put_row cart_id c' (carts db)) db).
Proof.
  intros [Hn Hbk Hbr Hck Hcr Hik Hir Hib Hic Hl Ha] Hin Eid Eu Eo.
  assert (Hsame : forall x, In x (carts db) -> cart_id x = cart_id c' -> x = c).
  { intros x Hx E. apply (key_unique cart_id (carts db)); congruence. }
  rewrite Forall_forall in Hcr.
  constructor; cbn; try assumption.
  - now rewrite map_key_put_row.
  - apply Forall_put_row_same; [now apply Forall_forall|].
    intros x Hx E. rewrite Eid. now apply Hcr.
  - now rewrite map_key_put_row.
  - rewrite filter_put_row_same.
    + rewrite map_put_row_same; [assumption|].
      intros x Hx E. apply filter_In in Hx as [Hx _]. rewrite (Hsame x Hx E). congruence.
    + intros x Hx E. rewrite (Hsame x Hx E). congruence.
Qed.

(** A cart saved as ordered, whatever it was. *)
Lemma wf_save_cart_ordered (c' : CartModel) (db : DB) :
  wf_store db -> is_ordered c' = true ->
  wf_store (set_carts (put_row cart_id c' (carts db)) db).
Proof.
  intros [Hn Hbk Hbr Hck Hcr Hik Hir Hib Hic Hl Ha] Eo.
  constructor; cbn; try assumption.
  - now rewrite map_key_put_row.
  - apply Forall_put_row_same; [assumption|].
    intros x Hx E. rewrite Forall_forall in Hcr. rewrite <- E. now apply Hcr.
  - now rewrite map_key_put_row.
  - rewrite filter_put_row_rejected by (now rewrite Eo).
    now apply NoDup_map_filter.
Qed.

Lemma wf_insert_cart (user : CustomUser) (db : DB) :
  wf_store db -> filter (owned_by user false) (carts db) = [] ->
  wf_store (insert_cart (mkCart (next_cart_id db) (user_id user) 0 0 false) db).
Proof.
  intros [Hn Hbk Hbr Hck Hcr Hik Hir Hib Hic Hl Ha] Hnone.
  constructor; cbn; try assumption.
  - lia.
  - rewrite map_app. cbn. apply NoDup_snoc; [assumption | now apply range_fresh].
  - apply Forall_app. split; [now apply range_grow|]. constructor; [cbn; lia | constructor].
  - eapply Forall_impl; [|exact Hic]. cbn. intros l Hin.
    rewrite map_app. apply in_or_app. now left.
  - rewrite filter_app, map_app. cbn. apply NoDup_snoc; [assumption|].
    intros Hin. apply in_map_iff in Hin as (x & Hx & Hxin).
    assert (Hin' : In x (filter (owned_by user false) (carts db))).
    { rewrite filter_owned_by. apply filter_In. split; [assumption|]. now apply Z.eqb_eq. }
    now rewrite Hnone in Hin'.
Qed.

Lemma wf_insert_item (c : CartModel) (b : Book) (db : DB) :
  wf_store db -> In c (carts db) -> In b (books db) ->
  filter (fun l => (item_cart l =? cart_id c) && (item_book l =? book_id b)) (items db) = [] ->
  wf_store (insert_item (mkItem (next_item_id db) (cart_id c) (book_id b) 0 0) db).
Proof.
  intros [Hn Hbk Hbr Hck Hcr Hik Hir Hib Hic Hl Ha] Hc Hb Hnone.
  constructor; cbn; try assumption.
  - lia.
  - rewrite map_app. cbn. apply NoDup_snoc; [assumption | now apply range_fresh].
  - apply Forall_app. split; [now apply range_grow|]. constructor; [cbn; lia | constructor].
  - apply Forall_app. split; [assumption|]. repeat constructor. cbn. now apply in_map.
  - apply Forall_app. split; [assumption|]. repeat constructor. cbn. now apply in_map.
  - rewrite map_app. cbn. apply NoDup_snoc; [assumption|].
    intros Hin. apply in_map_iff in Hin as (x & Hx & Hxin). inversion Hx as [[E1 E2]].
    assert (Hin' : In x (filter (fun l => (item_cart l =? cart_id c) &&
                                           (item_book l =? book_id b)) (items db))).
    { apply filter_In. split; [assumption|]. now rewrite E1, E2, !Z.eqb_refl. }
    now rewrite Hnone in Hin'.
Qed.

(** *** The views, one by one *)

(** Views that only read keep any invariant. *)
Lemma keeps_BookSerializer_is_valid (I : DB -> Prop) (instance : option Book)
      (data : BookPayload) :
  keeps I (BookSerializer_is_valid instance data).
Proof.
  unfold BookSerializer_is_valid, BookObjects.filter. repeat keeps_step.
Qed.

Lemma keeps_get_object (I : DB -> Prop) (pk : Z) : keeps I (BookViewset.get_object pk).
Proof.
  unfold BookViewset.get_object, BookObjects.get, BookObjects.filter. repeat keeps_step.
Qed.

Lemma wf_get_active (user : CustomUser) (db : DB) :
  wf_store db -> wf_store (snd (get_active user db)).
Proof.
  apply hoare_run. unfold CartsViews.get, CartObjects.get, CartObjects.filter.
  repeat keeps_step.
Qed.

Lemma wf_list_orders (user : CustomUser) (db : DB) :
  wf_store db -> wf_store (snd (list_orders user db)).
Proof.
  apply hoare_run. unfold OrderViews.get, CartObjects.filter. repeat keeps_step.
Qed.

Lemma wf_catalog_list (user : CustomUser) (db : DB) :
  wf_store db -> wf_store (snd (run (BookViewset.list user) db)).
Proof.
  apply hoare_run. unfold BookViewset.list, BookObjects.filter. repeat keeps_step.
Qed.

Lemma wf_cancel_order (user : CustomUser) (pk : Z) (db : DB) :
  wf_store db -> wf_store (snd (cancel_order user pk db)).
Proof. now rewrite cancel_order_leaves_store. Qed.

Lemma wf_place_order (user : CustomUser) (db : DB) :
  wf_store db -> wf_store (snd (place_order user db)).
Proof.
  apply hoare_run.
  unfold OrderViews.post, CartObjects.first, CartObjects.filter, ItemObjects.filter_cart,
    ItemObjects.exists_, ItemObjects.filter, CartObjects.save, OrderViews.order_line,
    ItemObjects.book, BookObjects.get, BookObjects.filter, BookObjects.save.
  repeat first
    [ apply keeps_modify; intros ? ?;
        first [ now apply wf_save_book | now apply wf_save_cart_ordered ]
    | keeps_step ].
Qed.

Lemma wf_catalog_create (user : CustomUser) (data : BookPayload) (db : DB) :
  wf_store db -> wf_store (snd (run (BookViewset.create user data) db)).
Proof.
  apply hoare_run. unfold BookViewset.create.
  destruct (negb (is_superuser user)); [keeps_step|].
  apply keeps_try_except; [|intros e; repeat keeps_step].
  apply keeps_bind; [apply keeps_BookSerializer_is_valid|].
  intros [[[[n a] d] p] s] db' H. view_step. now apply wf_insert_book.
Qed.

Lemma wf_catalog_update (user : CustomUser) (pk : Z) (data : BookPayload) (db : DB) :
  wf_store db -> wf_store (snd (run (BookViewset.update user pk data) db)).
Proof.
  apply hoare_run. unfold BookViewset.update.
  destruct (negb (is_superuser user)); [keeps_step|].
  apply keeps_try_except; [|intros e; repeat keeps_step].
  apply keeps_bind; [apply keeps_get_object|]. intros book.
  apply keeps_bind; [apply keeps_BookSerializer_is_valid|].
  intros [[[[n a] d] p] s] db' H. unfold BookObjects.save. view_step.
  now apply wf_save_book.
Qed.

Lemma wf_catalog_destroy (user : CustomUser) (pk : Z) (db : DB) :
  wf_store db -> wf_store (snd (run (BookViewset.destroy user pk) db)).
Proof.
  apply hoare_run. unfold BookViewset.destroy.
  destruct (negb (is_superuser user)); [keeps_step|].
  apply keeps_try_except; [|intros e; repeat keeps_step].
  apply keeps_bind; [apply keeps_get_object|]. intros book.
  apply keeps_bind; [|intros u; keeps_step].
  unfold BookObjects.delete. apply keeps_modify. intros db' H.
  now apply wf_delete_book.
Qed.

Lemma recompute_totals_same (c : CartModel) (db : DB) :
  cart_id (recompute_totals c db) = cart_id c /\
  cart_user (recompute_totals c db) = cart_user c /\
  is_ordered (recompute_totals c db) = is_ordered c.
Proof. repeat split. Qed.

Lemma wf_remove_item (user : CustomUser) (pk : Z) (db : DB) :
  wf_store db -> wf_store (snd (remove_item user pk db)).
Proof.
  intros Hwf. rewrite remove_item_unfold.
  destruct (pk =? 0); [assumption|].
  destruct (head (filter (owned_by user false) (carts db))) as [c|] eqn:Ec; [|assumption].
  destruct (head (filter _ (items db))) as [l|]; [|assumption].
  cbv zeta. cbn [snd].
  apply head_In, filter_In in Ec as [Hin _].
  apply (wf_save_cart c); try reflexivity; [now apply wf_delete_item | assumption].
Qed.

Lemma wf_add_or_update (user : CustomUser) (data : CartPost) (db : DB) :
  wf_store db -> wf_store (snd (add_or_update user data db)).
Proof.
  apply hoare_run. unfold CartsViews.post.
  apply keeps_try_except; [|intros e; keeps_step].
  destruct (negb (truthy (post_book_id data)) || negb (truthy (post_quantity data)));
    [keeps_step|].
  (* the book *)
  apply hoare_bind with (Q := fun b db' => wf_store db' /\ In b (books db')).
  { intros db' Hwf.
    destruct (book_lookup_cases (int_of (post_book_id data)) db'
      (mkResponse HTTP_404_NOT_FOUND
         (JObj [("message", JStr "Book does not exist in the database.")])))
      as [(b & Eb & ->) | [-> | [n ->]]]; try assumption.
    split; [assumption|]. now destruct (filter_singleton_In _ _ Eb). }
  intros b. destruct (stock b <? int_of (post_quantity data));
    [apply hoare_return; tauto|].
  (* the active cart *)
  apply hoare_bind
    with (Q := fun x db' => wf_store db' /\ In b (books db') /\ In (fst x) (carts db')).
  { intros db' [Hwf Hb].
    destruct (CartObjects_get_or_create_cases user db')
      as [(c & Ec & ->) | [[Ec ->] | [n ->]]];
      try assumption.
    - split; [|split]; try assumption. now destruct (filter_singleton_In _ _ Ec).
    - split; [|split]; [now apply wf_insert_cart | exact Hb |].
      cbn. apply in_or_app. right. now left. }
  intros [c created_c]. cbn [fst].
  (* the line *)
  apply hoare_bind
    with (Q := fun x db' => wf_store db' /\ In c (carts db') /\ In (fst x) (items db') /\
                            item_cart (fst x) = cart_id c /\ item_book (fst x) = book_id b).
  { intros db' (Hwf & Hb & Hc).
    destruct (ItemObjects_get_or_create_cases c b db')
      as [(l & El & ->) | [[El ->] | [n ->]]];
      try assumption.
    - destruct (filter_singleton_In _ _ El) as [Hin Hp].
      apply andb_prop in Hp as [Hp1 Hp2]. apply Z.eqb_eq in Hp1, Hp2.
      split; [|split; [|split; [|split]]]; assumption.
    - split; [|split; [|split; [|split]]];
        [now apply wf_insert_item | exact Hc | | reflexivity | reflexivity].
      cbn. apply in_or_app. right. now left. }
  intros [l created]. cbn [fst].
  (* the new quantity, the price, the totals: two saves *)
  intros db' (Hwf & Hc & Hl & Hlc & Hlb).
  unfold ItemObjects.save, ItemObjects.filter_cart, aggregate_totals, ItemObjects.filter,
    CartObjects.save.
  assert (Hsave : forall l', item_id l' = item_id l -> item_cart l' = item_cart l ->
            item_book l' = item_book l ->
            forall c', cart_id c' = cart_id c -> cart_user c' = cart_user c ->
              is_ordered c' = is_ordered c ->
            wf_store (set_carts (put_row cart_id c' (carts db'))
                        (set_items (put_row item_id l' (items db')) db'))).
  { intros l' E1 E2 E3 c' E4 E5 E6.
    apply (@wf_save_cart c c' (set_items (put_row item_id l' (items db')) db'));
      try assumption.
    now apply (@wf_save_item l l' db'). }
  destruct created; [|destruct (stock b <? quantity l + int_of (post_quantity data))];
    view_step; try assumption;
    match goal with |- context [if ?c then _ else _] => destruct c end;
    try assumption; now apply Hsave.
Qed.

(** Every operation of the API, whoever calls it and whatever it answers,
    takes a well-formed store to a well-formed store; the store with no rows
    is well formed. *)
Theorem wf_store_invariant :
  (forall engine : Backend, wf_store (mkDB [] [] [] [] 1 1 1 engine)) /\
  forall (user : CustomUser) (op : Operation) (db : DB),
    wf_store db -> wf_store (snd (exec user op db)).
Proof.
  split.
  - intros engine. constructor; cbn; repeat constructor; lia.
  - intros user op db H. destruct op; cbn [exec].
    + now apply wf_get_active.
    + now apply wf_add_or_update.
    + now apply wf_remove_item.
    + now apply wf_list_orders.
    + now apply wf_place_order.
    + now apply wf_cancel_order.
    + now apply wf_catalog_list.
    + now apply wf_catalog_create.
    + now apply wf_catalog_update.
    + now apply wf_catalog_destroy.
Qed.

(** * Further properties of the views *)

(** ** Reads *)

Lemma keeps_read_only_views (I : DB -> Prop) (user : CustomUser) :
  keeps I (CartsViews.get user) /\ keeps I (OrderViews.get user) /\
  keeps I (BookViewset.list user).
Proof.
  split; [|split].
  - unfold CartsViews.get, CartObjects.get, CartObjects.filter. repeat keeps_step.
  - unfold OrderViews.get, CartObjects.filter. repeat keeps_step.
  - unfold BookViewset.list, BookObjects.filter. repeat keeps_step.
Qed.

(** X1. The three GET views (active cart, orders, catalog list) leave the
    store exactly as it was, whatever it holds and whatever they answer. *)
Theorem get_views_leave_store :
  forall (user : CustomUser) (db : DB),
    snd (get_active user db) = db /\
    snd (list_orders user db) = db /\
    snd (exec user CatalogList db) = db.
Proof.
  intros user db.
  destruct (keeps_read_only_views (fun db' => db' = db) user) as (H1 & H2 & H3).
  split; [|split].
  - apply (hoare_run (I := fun db' => db' = db) H1). reflexivity.
  - apply (hoare_run (I := fun db' => db' = db) H2). reflexivity.
  - apply (hoare_run (I := fun db' => db' = db) H3). reflexivity.
Qed.

(** ** The closed forms are the views *)

Lemma add_or_update_unfold (user : CustomUser) (data : CartPost) (db : DB) :
  add_or_update user data db = add_or_update_closed user data db.
Proof.
  unfold add_or_update, add_or_update_closed, CartsViews.post, post_line, save_line,
    write_line, cart_response, server_error,
    BookObjects.get, BookObjects.filter,
    CartObjects.get_or_create, CartObjects.get, CartObjects.filter, CartObjects.create,
    ItemObjects.get_or_create, ItemObjects.filter, ItemObjects.create,
    ItemObjects.save, ItemObjects.filter_cart, aggregate_totals, ItemObjects.filter,
    CartObjects.save, recompute_totals, lines_of.
  view_step.
  destruct (negb (truthy (post_book_id data)) || negb (truthy (post_quantity data)));
    [reflexivity|].
  destruct (filter _ (books db)) as [|b [|b' bs]]; try reflexivity.
  destruct (stock b <? int_of (post_quantity data)); [reflexivity|].
  destruct (filter (owned_by user false) (carts db)) as [|c [|c' cs]]; try reflexivity.
  - cbn [items insert_cart cart_id].
    destruct (filter _ (items db)) as [|l [|l' ls]]; try reflexivity.
    + cbn [backend insert_item insert_cart].
      destruct (storable _ _ && storable _ _); reflexivity.
    + destruct (stock b <? quantity l + int_of (post_quantity data)); [reflexivity|].
      cbn [backend insert_cart].
      destruct (storable _ _ && storable _ _); reflexivity.
  - destruct (filter _ (items db)) as [|l [|l' ls]]; try reflexivity.
    + cbn [backend insert_item].
      destruct (storable _ _ && storable _ _); reflexivity.
    + destruct (stock b <? quantity l + int_of (post_quantity data)); [reflexivity|].
      destruct (storable _ _ && storable _ _); reflexivity.
Qed.

Lemma place_order_unfold (user : CustomUser) (db : DB) :
  place_order user db = place_order_closed user db.
Proof.
  unfold place_order, place_order_closed, OrderViews.post, first_active_cart, lines_of,
    server_error,
    CartObjects.first, CartObjects.filter, ItemObjects.filter_cart, ItemObjects.exists_,
    ItemObjects.filter, CartObjects.save.
  view_step.
  destruct (head (filter (owned_by user false) (carts db))) as [c|]; [|reflexivity].
  destruct (filter _ (items db)) as [|l ls] eqn:El; [reflexivity|].
  cbn [negb]. rewrite El.
  destruct (for_each (l :: ls) OrderViews.order_line db) as [[u|r|e] db1]; reflexivity.
Qed.

(** ** Placing an order: nothing to order *)

Lemma filter_nil_iff {A} (p : A -> bool) (l : list A) :
  filter p l = [] <-> forall x, In x l -> p x = false.
Proof.
  split.
  - intros E x Hin. destruct (p x) eqn:Px; [|reflexivity].
    assert (H : In x (filter p l)) by (apply filter_In; now split).
    now rewrite E in H.
  - intros H. destruct (filter p l) as [|x xs] eqn:E; [reflexivity|].
    assert (Hin : In x (filter p l)) by (rewrite E; now left).
    apply filter_In in Hin as [Hin Px]. rewrite (H x Hin) in Px. discriminate.
Qed.

Lemma place_order_nothing_to_order_aux (user : CustomUser) (db : DB) :
  filter (owned_by user false) (carts db) = [] ->
  place_order user db =
    (mkResponse 400 (JObj [("message", JStr "No active cart to order.")]), db).
Proof.
  intros F. rewrite place_order_unfold. unfold place_order_closed, first_active_cart.
  now rewrite F.
Qed.

(** X2. When every active cart of the caller is without lines (in particular
    when the caller has no active cart), [place_order] answers 400 and the
    store is as it was; the message tells the two cases apart. *)
Theorem place_order_nothing_to_order :
  forall (user : CustomUser) (db : DB),
    (forall c, In c (carts db) -> active_cart_of user c -> lines_of (cart_id c) db = []) ->
    place_order user db =
      (mkResponse 400
         (JObj [("message",
                 JStr (if existsb (owned_by user false) (carts db)
                       then "The cart is empty." else "No active cart to order."))]),
       db).
Proof.
  intros user db Hempty. rewrite place_order_unfold.
  unfold place_order_closed, first_active_cart.
  destruct (filter (owned_by user false) (carts db)) as [|c cs] eqn:F; cbn [head].
  - assert (E : existsb (owned_by user false) (carts db) = false).
    { apply not_true_is_false. intros H. apply existsb_exists in H as (x & Hin & Hx).
      rewrite filter_nil_iff in F. rewrite (F x Hin) in Hx. discriminate. }
    now rewrite E.
  - assert (Hc : In c (filter (owned_by user false) (carts db))) by (rewrite F; now left).
    apply filter_In in Hc as [Hin Hp].
    assert (E : existsb (owned_by user false) (carts db) = true).
    { apply existsb_exists. now exists c. }
    rewrite E, (Hempty c Hin (owned_by_active _ _ Hp)). reflexivity.
Qed.

Lemma place_order_nothing_to_order_witness :
  place_order Sample.user Scenario.empty_cart =
    (mkResponse 400 (JObj [("message", JStr "The cart is empty.")]), Scenario.empty_cart) /\
  place_order Sample.other Scenario.empty_cart =
    (mkResponse 400 (JObj [("message", JStr "No active cart to order.")]),
     Scenario.empty_cart).
Proof.
  split.
  - apply (@place_order_nothing_to_order Sample.user Scenario.empty_cart).
    intros c Hin Hact. reflexivity.
  - apply (@place_order_nothing_to_order Sample.other Scenario.empty_cart).
    intros c Hin Hact. reflexivity.
Defined.

(** ** Placing an order: what the loop writes *)

Lemma for_each_app {A} (xs ys : list A) (body : A -> View unit) (db : DB) :
  for_each (xs ++ ys) body db =
  match for_each xs body db with
  | (Val _, db1) => for_each ys body db1
  | other => other
  end.
Proof.
  revert db. induction xs as [|x xs IH]; intros db; [reflexivity|].
  cbn [app for_each]. unfold bind.
  destruct (body x db) as [[u|r|e] db1]; [apply IH | reflexivity | reflexivity].
Qed.

Lemma same_but_books_refl (db : DB) : same_but_books db db.
Proof. repeat split. Qed.

Lemma keeps_frame_order_line (db : DB) (item : CartItems) :
  keeps (same_but_books db) (OrderViews.order_line item).
Proof.
  unfold OrderViews.order_line, ItemObjects.book, BookObjects.get, BookObjects.filter,
    BookObjects.save.
  repeat first [ apply keeps_modify; intros d H; exact H | keeps_step ].
Qed.

(** The loop of [place_order] writes book rows only, however it ends. *)
Lemma order_lines_frame (ls : list CartItems) (db : DB) :
  same_but_books db (snd (for_each ls OrderViews.order_line db)).
Proof.
  pose proof (@hoare_for_each _ (same_but_books db) ls OrderViews.order_line
                (fun x _ => @keeps_frame_order_line db x) db (same_but_books_refl db)) as H.
  destruct (for_each ls OrderViews.order_line db) as [[u|r|e] db1]; exact H.
Qed.

(** A line that its book's stock does not cover ends the loop with 400. *)
Lemma order_line_short (db : DB) (l : CartItems) (b : Book) :
  NoDup (map book_id (books db)) ->
  book_of (item_book l) db = Some b ->
  quantity l > stock b ->
  OrderViews.order_line l db =
    (Ret (mkResponse 400
       (JObj [("message",
               JStr ("Insufficient stock for the book " ++ name b ++ ".")%string)])), db).
Proof.
  intros Hnd Hb Hq. apply book_of_In in Hb as [Hin Hid].
  unfold OrderViews.order_line, ItemObjects.book.
  rewrite <- Hid. erewrite bind_Val by (now apply BookObjects_get_found).
  destruct (Z.gtb_spec (quantity l) (stock b)) as [_|Hle]; [reflexivity | lia].
Qed.

(** X3. [place_order] applies the lines in key order and stops at the first
    one that its book's stock does not cover: the answer is 400 naming that
    book, the books of the lines before it have already lost those lines'
    quantities, every other book, every cart (the caller's stays active) and
    every line is as it was. *)
Theorem place_order_stops_at_first_short_line :
  forall (user : CustomUser) (db : DB) (cart : CartModel)
         (before after : list CartItems) (short : CartItems) (b : Book),
    wf_store db ->
    In cart (carts db) -> active_cart_of user cart ->
    lines_of (cart_id cart) db = before ++ short :: after ->
    (forall l, In l before ->
       exists bl, book_of (item_book l) db = Some bl /\ quantity l <= stock bl) ->
    book_of (item_book short) db = Some b -> quantity short > stock b ->
    exists db',
      place_order user db =
        (mkResponse 400
           (JObj [("message",
                   JStr ("Insufficient stock for the book " ++ name b ++ ".")%string)]),
         db') /\
      (forall l bl, In l before -> book_of (item_book l) db = Some bl ->
         book_of (item_book l) db' = Some (with_stock (stock bl - quantity l) bl)) /\
      (forall pk, ~ In pk (map item_book before) -> book_of pk db' = book_of pk db) /\
      carts db' = carts db /\ items db' = items db.
Proof.
  intros user db cart before after short b Hwf Hin Hact Hlines Hcov Hb Hshort.
  assert (Hnd : NoDup (map item_book (before ++ short :: after))).
  { rewrite <- Hlines. apply lines_distinct_books, (wf_one_line_per_book Hwf). }
  rewrite map_app in Hnd. cbn [map] in Hnd.
  pose proof (NoDup_remove_2 _ _ _ Hnd) as Hfresh.
  assert (Hfresh' : ~ In (item_book short) (map item_book before)).
  { intros H. apply Hfresh. apply in_or_app. now left. }
  destruct (order_lines_ok before db)
    as (db1 & Hrun & Hu & Hc & Hi & Hnb & Hnc & Hni & Hk & Hdec & Hrest).
  - apply (wf_book_keys Hwf).
  - apply NoDup_app_remove_r in Hnd. exact Hnd.
  - assumption.
  - exists db1. split; [|repeat split; assumption].
    rewrite place_order_unfold. unfold place_order_closed, first_active_cart.
    rewrite (active_cart_unique Hwf Hin Hact). cbn [head]. rewrite Hlines.
    destruct (before ++ short :: after) as [|x xs] eqn:E;
      [now destruct before|]. rewrite <- E.
    rewrite for_each_app, Hrun. cbn [for_each].
    erewrite bind_Ret; [reflexivity|].
    apply order_line_short;
      [rewrite Hk; apply (wf_book_keys Hwf) | rewrite Hrest; assumption | assumption].
Qed.

Lemma place_order_stops_at_first_short_line_witness :
  exists db',
    place_order Sample.user Sample.contended =
      (mkResponse 400
         (JObj [("message", JStr "Insufficient stock for the book Second Book.")]), db') /\
    (forall l bl, In l [mkItem 1 1 1 2 200] ->
       book_of (item_book l) Sample.contended = Some bl ->
       book_of (item_book l) db' = Some (with_stock (stock bl - quantity l) bl)) /\
    (forall pk, ~ In pk (map item_book [mkItem 1 1 1 2 200]) ->
       book_of pk db' = book_of pk Sample.contended) /\
    carts db' = carts Sample.contended /\ items db' = items Sample.contended.
Proof.
  apply (@place_order_stops_at_first_short_line
           Sample.user Sample.contended (mkCart 1 1 250 3 false)
           [mkItem 1 1 1 2 200] [] (mkItem 2 1 2 1 50)
           (mkBook 2 "Second Book" "Author Name" None 1 50 0)).
  - constructor; cbn; repeat constructor; cbn; try lia; intuition discriminate.
  - cbn. left. reflexivity.
  - split; reflexivity.
  - reflexivity.
  - intros l [<- | []]. exists Sample.book. split; [reflexivity | cbn; lia].
  - reflexivity.
  - cbn. lia.
Defined.

(** ** Once ordered, a cart is no longer the active cart *)

Lemma order_line_answers_400 (l : CartItems) (db db1 : DB) (r : Response) :
  OrderViews.order_line l db = (Ret r, db1) -> status_code r = 400.
Proof.
  unfold OrderViews.order_line, ItemObjects.book, BookObjects.get, BookObjects.filter,
    BookObjects.save.
  view_step. destruct (filter _ (books db)) as [|b [|b' bs]]; try discriminate.
  destruct (quantity l >? stock b); [|discriminate].
  intros [= <- _]. reflexivity.
Qed.

Lemma order_lines_answer_400 (ls : list CartItems) (db db1 : DB) (r : Response) :
  for_each ls OrderViews.order_line db = (Ret r, db1) -> status_code r = 400.
Proof.
  revert db. induction ls as [|l ls IH]; intros db; [discriminate|].
  cbn [for_each]. unfold bind.
  destruct (OrderViews.order_line l db) as [[u|r0|e] d] eqn:E; try discriminate.
  - apply IH.
  - intros [= <- _]. now apply (order_line_answers_400 _ _ E).
Qed.

(** X4. After [place_order] has answered 200 on a well-formed store, the
    caller has no active cart: the cart GET answers 404, a second
    [place_order] answers 400 without touching the store, and the list of
    orders answers 200 and holds the cart, now ordered. *)
Theorem ordered_cart_is_no_longer_active :
  forall (user : CustomUser) (db db' : DB) (r : Response),
    wf_store db ->
    place_order user db = (r, db') -> status_code r = 200 ->
    get_active user db' =
      (mkResponse 404 (JObj [("message", JStr "No active cart found for the user");
                             ("status", JStr "error")]), db') /\
    place_order user db' =
      (mkResponse 400 (JObj [("message", JStr "No active cart to order.")]), db') /\
    exists cart orders,
      In cart (carts db) /\ active_cart_of user cart /\
      fst (list_orders user db') =
        mkResponse 200 (JObj [("message", JStr "Order details fetched successfully.");
                              ("data", JArr (map CartSerializer orders))]) /\
      In (with_is_ordered true cart) orders.
Proof.
  intros user db db' r Hwf H Hs. rewrite place_order_unfold in H.
  unfold place_order_closed, first_active_cart in H.
  destruct (head (filter (owned_by user false) (carts db))) as [c|] eqn:Ec;
    [|not_a_success H Hs].
  destruct (lines_of (cart_id c) db) as [|l ls] eqn:El; [not_a_success H Hs|].
  pose proof (order_lines_frame (l :: ls) db) as (_ & Hc & _).
  destruct (for_each (l :: ls) OrderViews.order_line db) as [[u|r0|e] db1] eqn:Erun;
    cbn [snd] in Hc.
  2:{ inversion H; subst. rewrite (order_lines_answer_400 _ _ Erun) in Hs. discriminate. }
  2:{ not_a_success H Hs. }
  inversion H; subst r db'; clear H.
  apply head_In, filter_In in Ec as [Hin Hp].
  pose proof (owned_by_active _ _ Hp) as Hact.
  assert (Hnone : filter (owned_by user false)
                    (put_row cart_id (with_is_ordered true c) (carts db1)) = []).
  { rewrite filter_put_row_rejected.
    - rewrite Hc, (active_cart_unique Hwf Hin Hact). cbn. now rewrite Z.eqb_refl.
    - unfold owned_by. cbn. now rewrite andb_false_r. }
  split; [|split].
  - unfold get_active, CartsViews.get, CartObjects.get, CartObjects.filter. view_step.
    cbn [carts set_carts]. now rewrite Hnone.
  - apply place_order_nothing_to_order_aux. exact Hnone.
  - exists c, (filter (owned_by user true)
                 (put_row cart_id (with_is_ordered true c) (carts db1))).
    assert (Hin' : In (with_is_ordered true c)
                     (filter (owned_by user true)
                        (put_row cart_id (with_is_ordered true c) (carts db1)))).
    { apply filter_In. split.
      - apply (In_put_row cart_id (with_is_ordered true c) c); [now rewrite Hc | reflexivity].
      - destruct Hact as [Hu _]. unfold owned_by. cbn. now rewrite Hu, Z.eqb_refl. }
    repeat split; try assumption; try apply Hact.
    unfold list_orders, OrderViews.get, CartObjects.filter. view_step.
    cbn [carts set_carts].
    destruct (filter (owned_by user true) _) as [|o os]; [contradiction | reflexivity].
Qed.

Lemma ordered_cart_is_no_longer_active_witness :
  let db' := snd (place_order Sample.user Sample.two_lines) in
  get_active Sample.user db' =
    (mkResponse 404 (JObj [("message", JStr "No active cart found for the user");
                           ("status", JStr "error")]), db') /\
  place_order Sample.user db' =
    (mkResponse 400 (JObj [("message", JStr "No active cart to order.")]), db') /\
  exists cart orders,
    In cart (carts Sample.two_lines) /\ active_cart_of Sample.user cart /\
    fst (list_orders Sample.user db') =
      mkResponse 200 (JObj [("message", JStr "Order details fetched successfully.");
                            ("data", JArr (map CartSerializer orders))]) /\
    In (with_is_ordered true cart) orders.
Proof.
  apply (@ordered_cart_is_no_longer_active Sample.user Sample.two_lines
           (snd (place_order Sample.user Sample.two_lines))
           (fst (place_order Sample.user Sample.two_lines))).
  - constructor; cbn; repeat constructor; cbn; try lia; intuition discriminate.
  - reflexivity.
  - reflexivity.
Defined.

(** ** Removing a line: failures and the exact effect *)

Lemma remove_item_outcomes (user : CustomUser) (pk : Z) (db : DB) :
  status_code (fst (remove_item user pk db)) = 204 \/
  ((status_code (fst (remove_item user pk db)) = 400 \/
    status_code (fst (remove_item user pk db)) = 404) /\
   snd (remove_item user pk db) = db).
Proof.
  rewrite remove_item_unfold.
  destruct (pk =? 0); [right; split; [now left | reflexivity]|].
  destruct (head (filter (owned_by user false) (carts db))) as [c|];
    [|right; split; [now right | reflexivity]].
  destruct (head (filter _ (items db))) as [l|];
    [now left | right; split; [now right | reflexivity]].
Qed.


Lemma In_put_row_kept {A} (key : A -> Z) (y x : A) (l : list A) :
  In x l -> key x <> key y -> In x (put_row key y l).
Proof.
  intros Hin Hne. unfold put_row. apply in_map_iff. exists x. split; [|assumption].
  destruct (Z.eqb_spec (key x) (key y)); [contradiction | reflexivity].
Qed.






(** ** Cart POST on a well-formed store *)

Lemma filter_at_most_one {A B} (f : A -> B) (p : A -> bool) (l : list A) :
  NoDup (map f l) ->
  (forall x y, In x l -> In y l -> p x = true -> p y = true -> f x = f y) ->
  filter p l = [] \/ exists x, filter p l = [x].
Proof.
  induction l as [|a l IH]; intros Hnd Hsame; [now left|].
  inversion Hnd as [|? ? Hnotin Hnd']; subst. cbn [filter].
  destruct (p a) eqn:Pa.
  - right. exists a. f_equal. apply filter_nil_iff. intros x Hx.
    destruct (p x) eqn:Px; [|reflexivity]. exfalso. apply Hnotin.
    rewrite (Hsame a x (or_introl eq_refl) (or_intror Hx) Pa Px). now apply in_map.
  - apply IH; [assumption|]. intros x y Hx Hy. apply Hsame; now right.
Qed.

Lemma books_at_most_one (db : DB) (pk : Z) :
  wf_store db ->
  filter (fun b => book_id b =? pk) (books db) = [] \/
  exists b, filter (fun b => book_id b =? pk) (books db) = [b].
Proof.
  intros Hwf. apply (filter_at_most_one book_id); [apply (wf_book_keys Hwf)|].
  intros x y _ _ Hx Hy. apply Z.eqb_eq in Hx, Hy. congruence.
Qed.

Lemma active_carts_at_most_one (user : CustomUser) (db : DB) :
  wf_store db ->
  filter (owned_by user false) (carts db) = [] \/
  exists c, filter (owned_by user false) (carts db) = [c].
Proof.
  intros Hwf. rewrite filter_owned_by.
  apply (filter_at_most_one cart_user); [apply (wf_one_active_cart Hwf)|].
  intros x y _ _ Hx Hy. apply Z.eqb_eq in Hx, Hy. congruence.
Qed.

Lemma lines_at_most_one (c : CartModel) (b : Book) (db : DB) :
  wf_store db ->
  let clause := fun l => (item_cart l =? cart_id c) && (item_book l =? book_id b) in
  filter clause (items db) = [] \/ exists l, filter clause (items db) = [l].
Proof.
  intros Hwf clause.
  apply (filter_at_most_one (fun l => (item_cart l, item_book l)));
    [apply (wf_one_line_per_book Hwf)|].
  intros x y _ _ Hx Hy. unfold clause in *.
  apply andb_prop in Hx as [Hx1 Hx2]. apply andb_prop in Hy as [Hy1 Hy2].
  apply Z.eqb_eq in Hx1, Hx2, Hy1, Hy2. congruence.
Qed.

(** A cart that has just been created has no line. *)
Lemma no_line_of_next_cart (db : DB) (pk : Z) :
  wf_store db ->
  filter (fun l => (item_cart l =? next_cart_id db) && (item_book l =? pk)) (items db) = [].
Proof.
  intros Hwf. apply filter_nil_iff. intros l Hl.
  pose proof (wf_item_cart Hwf) as Hfk. rewrite Forall_forall in Hfk.
  specialize (Hfk l Hl). apply in_map_iff in Hfk as (c & Hc & Hcin).
  pose proof (wf_cart_range Hwf) as Hr. rewrite Forall_forall in Hr.
  specialize (Hr c Hcin).
  destruct (Z.eqb_spec (item_cart l) (next_cart_id db)); [lia | reflexivity].
Qed.

Lemma fits_64_bits_spec (v : Z) :
  Sample.fits_64_bits v = true <-> -9223372036854775808 <= v <= 9223372036854775807.
Proof.
  unfold Sample.fits_64_bits. rewrite Z.shiftr_div_pow2 by lia.
  change (2 ^ 63) with 9223372036854775808.
  pose proof (Z.div_mod v 9223372036854775808 ltac:(lia)) as D.
  pose proof (Z.mod_pos_bound v 9223372036854775808 ltac:(lia)) as M.
  rewrite orb_true_iff, !Z.eqb_eq. lia.
Qed.

Lemma storable_spec (db : DB) (v : Z) :
  (in_column_range db v /\ storable (backend db) v = true) \/
  (~ in_column_range db v /\ storable (backend db) v = false).
Proof.
  unfold storable, in_column_range.
  destruct (Z.leb_spec 0 v), (Z.leb_spec v (positive_integer_max (backend db))); cbn;
    [left | right | right | right]; split; try reflexivity; lia.
Qed.

(** The two checks of a save, case by case. *)
Ltac split_storable db :=
  match goal with
  | |- context [storable (backend db) ?x && storable (backend db) ?y] =>
      let Hx := fresh "Hx" in let Ex := fresh "Ex" in
      let Hy := fresh "Hy" in let Ey := fresh "Ey" in
      destruct (storable_spec db x) as [[Hx Ex] | [Hx Ex]]; rewrite Ex; cbn [andb];
      [destruct (storable_spec db y) as [[Hy Ey] | [Hy Ey]]; rewrite Ey|]
  end.

(** What a refused save leaves behind: the rows there were, and at most a
    cart and a line that the get-or-create calls have just inserted, with
    nothing in them yet. *)
Lemma add_or_update_outcomes (user : CustomUser) (data : CartPost) (db : DB) :
  wf_store db ->
  (status_code (fst (add_or_update user data db)) = 200 \/
   status_code (fst (add_or_update user data db)) = 201) \/
  ((status_code (fst (add_or_update user data db)) = 400 \/
    status_code (fst (add_or_update user data db)) = 404) /\
   snd (add_or_update user data db) = db) \/
  (exists refused : CartItems,
     fst (add_or_update user data db) =
       server_error "An error occurred while processing the request." (Some "error")
         (DatabaseError (refusal (backend db) refused)) /\
     ~ (in_column_range db (quantity refused) /\ in_column_range db (item_price refused)) /\
     left_by_refusal user db (snd (add_or_update user data db))).
Proof.
  intros Hwf. rewrite add_or_update_unfold.
  unfold add_or_update_closed.
  destruct (negb (truthy (post_book_id data)) || negb (truthy (post_quantity data)));
    [right; left; split; [now left | reflexivity]|].
  destruct (@books_at_most_one db (int_of (post_book_id data)) Hwf) as [-> | [b ->]];
    [right; left; split; [now right | reflexivity]|].
  destruct (stock b <? int_of (post_quantity data));
    [right; left; split; [now left | reflexivity]|].
  cbv zeta.
  destruct (@active_carts_at_most_one user db Hwf) as [-> | [c ->]].
  - unfold post_line. cbn [items insert_cart cart_id].
    rewrite (@no_line_of_next_cart db (book_id b) Hwf). cbv zeta.
    unfold save_line. cbn [backend insert_item insert_cart].
    split_storable db; [left; now right | |];
      right; right; eexists; (split; [reflexivity|]); (split; [tauto|]);
      (split; [reflexivity|]);
      eexists [_], [_]; repeat split; repeat constructor.
  - unfold post_line.
    destruct (@lines_at_most_one c b db Hwf) as [-> | [l ->]]; cbv zeta.
    + unfold save_line. cbn [backend insert_item].
      split_storable db; [left; now right | |];
        right; right; eexists; (split; [reflexivity|]); (split; [tauto|]);
        (split; [reflexivity|]);
        eexists [], [_]; cbn [carts items insert_item]; rewrite ?app_nil_r;
        repeat split; repeat constructor.
    + destruct (stock b <? quantity l + int_of (post_quantity data));
        [right; left; split; [now left | reflexivity]|].
      unfold save_line.
      split_storable db; [left; now left | |];
        right; right; eexists; (split; [reflexivity|]); (split; [tauto|]);
        (split; [reflexivity|]);
        exists [], []; rewrite ?app_nil_r; repeat split; constructor.
Qed.

(** X7. On a well-formed store, and with totals that fit their columns, the
    cart POST answers 200, 201, 400, 404 or 500.  A 400 or 404 leaves the
    store as it was.  The 500 is the answer to a line that the database
    refuses, its quantity or its price being negative or beyond the range of
    the column: the books and every cart and line there were are then as
    they were, and what the POST had inserted before the refusal stays,
    which is at most an empty active cart of the caller and a line of
    quantity 0 and price 0. *)
Theorem add_or_update_fails_cleanly :
  forall (user : CustomUser) (data : CartPost) (db : DB),
    wf_store db ->
    let result := add_or_update user data db in
    totals_fit (snd result) ->
    (status_code (fst result) = 200 \/ status_code (fst result) = 201) \/
    ((status_code (fst result) = 400 \/ status_code (fst result) = 404) /\
     snd result = db) \/
    (exists refused : CartItems,
       fst result =
         server_error "An error occurred while processing the request." (Some "error")
           (DatabaseError (refusal (backend db) refused)) /\
       ~ (in_column_range db (quantity refused) /\
          in_column_range db (item_price refused)) /\
       left_by_refusal user db (snd result)).
Proof. intros user data db Hwf. cbv zeta. intros _. now apply add_or_update_outcomes. Qed.

Lemma add_or_update_fails_cleanly_witness :
  let result := add_or_update Sample.user (mkCartPost (Some 2) (Some (-1))) Sample.one_line in
  (status_code (fst result) = 200 \/ status_code (fst result) = 201) \/
  ((status_code (fst result) = 400 \/ status_code (fst result) = 404) /\
   snd result = Sample.one_line) \/
  (exists refused : CartItems,
     fst result =
       server_error "An error occurred while processing the request." (Some "error")
         (DatabaseError (refusal (backend Sample.one_line) refused)) /\
     ~ (in_column_range Sample.one_line (quantity refused) /\
        in_column_range Sample.one_line (item_price refused)) /\
     left_by_refusal Sample.user Sample.one_line (snd result)).
Proof.
  apply (@add_or_update_fails_cleanly Sample.user (mkCartPost (Some 2) (Some (-1)))
           Sample.one_line).
  - constructor; cbn; repeat constructor; cbn; try lia; intuition discriminate.
  - unfold totals_fit, big_integer_max. cbn. repeat constructor; cbn; lia.
Defined.

Lemma book_of_unique (db : DB) (b b' : Book) :
  wf_store db -> In b (books db) -> book_of (book_id b) db = Some b' -> b' = b.
Proof.
  intros Hwf Hin H.
  rewrite (In_book_of db b (wf_book_keys Hwf) Hin) in H. congruence.
Qed.

Lemma add_or_update_books (user : CustomUser) (data : CartPost) (db : DB) :
  books (snd (add_or_update user data db)) = books db.
Proof.
  unfold add_or_update.
  apply (hoare_run (I := fun db' => books db' = books db)); [|reflexivity].
  apply keeps_CartsViews_post. intros d d' E1 E2. congruence.
Qed.

(** The request of [q] copies of a book that is in the catalog passes the
    first checks of the view. *)
Lemma add_or_update_passes_checks (user : CustomUser) (db : DB) (book : Book) (q : Z) :
  wf_store db -> In book (books db) -> q <> 0 -> q <= stock book ->
  add_or_update user (mkCartPost (Some (book_id book)) (Some q)) db =
  match filter (owned_by user false) (carts db) with
  | [] =>
      post_line (mkCart (next_cart_id db) (user_id user) 0 0 false) book q
        (insert_cart (mkCart (next_cart_id db) (user_id user) 0 0 false) db)
  | [c] => post_line c book q db
  | found :: more =>
      (server_error "An error occurred while processing the request." (Some "error")
         (MultipleObjectsReturned "CartModel" (Z.of_nat (List.length (found :: more)))), db)
  end.
Proof.
  intros Hwf Hb Hq Hs. rewrite add_or_update_unfold. unfold add_or_update_closed.
  cbn [post_book_id post_quantity truthy int_of].
  assert (Hid : (book_id book =? 0) = false).
  { pose proof (wf_book_range Hwf) as Hr. rewrite Forall_forall in Hr.
    specialize (Hr _ Hb). apply Z.eqb_neq. lia. }
  rewrite Hid. apply Z.eqb_neq in Hq. rewrite Hq. cbn [negb orb].
  rewrite (filter_key_unique book_id _ _ (wf_book_keys Hwf) Hb).
  destruct (Z.ltb_spec (stock book) q); [lia | reflexivity].
Qed.

(** The POST of a book of which the caller's active cart has no line: the
    cart is found or created, the line is created. *)
Lemma add_new_line_closed (user : CustomUser) (db : DB) (book : Book) (q : Z) :
  wf_store db -> In book (books db) -> q <> 0 -> q <= stock book ->
  (forall c l, In c (carts db) -> active_cart_of user c ->
     In l (items db) -> item_cart l = cart_id c -> item_book l <> book_id book) ->
  exists c db1,
    In c (carts db1) /\ active_cart_of user c /\
    head (filter (owned_by user false) (carts db1)) = Some c /\
    items db1 = items db /\ next_item_id db1 = next_item_id db /\
    backend db1 = backend db /\
    add_or_update user (mkCartPost (Some (book_id book)) (Some q)) db =
      (let created := mkItem (next_item_id db1) (cart_id c) (book_id book) 0 0 in
       save_line true c (with_price (price book * q) (with_quantity q created))
         (insert_item created db1)).
Proof.
  intros Hwf Hb Hq Hs Hnone.
  pose proof (@add_or_update_passes_checks user db book q Hwf Hb Hq Hs) as E.
  destruct (@active_carts_at_most_one user db Hwf) as [F | [c F]]; rewrite F in E.
  - exists (mkCart (next_cart_id db) (user_id user) 0 0 false),
           (insert_cart (mkCart (next_cart_id db) (user_id user) 0 0 false) db).
    split; [|split; [|split; [|split; [|split; [|split; [|rewrite E; unfold post_line]]]]]].
    + cbn. apply in_or_app. right. now left.
    + split; reflexivity.
    + cbn [carts insert_cart]. rewrite filter_app, F. cbn.
      unfold owned_by at 1. cbn. now rewrite Z.eqb_refl.
    + reflexivity.
    + reflexivity.
    + reflexivity.
    + cbn [items insert_cart cart_id].
      rewrite (@no_line_of_next_cart db (book_id book) Hwf). reflexivity.
  - destruct (filter_singleton_In _ _ F) as [Hc Hp].
    exists c, db. split; [assumption|]. split; [now apply owned_by_active|].
    split; [now rewrite F|].
    split; [reflexivity|]. split; [reflexivity|]. split; [reflexivity|].
    rewrite E. unfold post_line.
    assert (F0 : filter (fun l => (item_cart l =? cart_id c) &&
                                  (item_book l =? book_id book)) (items db) = []).
    { apply filter_nil_iff. intros l Hl.
      destruct (Z.eqb_spec (item_cart l) (cart_id c)) as [E1|]; [|reflexivity].
      destruct (Z.eqb_spec (item_book l) (book_id book)) as [E2|]; [|reflexivity].
      exfalso. now apply (Hnone c l Hc (owned_by_active _ _ Hp) Hl E1). }
    now rewrite F0.
Qed.

(** X8. On a well-formed store, asking for [q] copies of a book of which the
    caller's active cart has no line, with [q] not 0 and at most the stock,
    [q] and book price x q from 0 to the greatest value of the column, and
    totals that fit theirs, answers 201: the caller then has one active cart (created now if there
    was none) with one line for the book, of quantity [q] and price book
    price x q; the totals are the sums over the lines; the books and the
    lines there were are untouched. *)
Theorem add_or_update_new_line :
  forall (user : CustomUser) (db : DB) (book : Book) (q : Z),
    wf_store db -> In book (books db) -> q <> 0 -> q <= stock book ->
    in_column_range db q -> in_column_range db (price book * q) ->
    totals_fit (snd (add_or_update user (mkCartPost (Some (book_id book)) (Some q)) db)) ->
    (forall c l, In c (carts db) -> active_cart_of user c ->
       In l (items db) -> item_cart l = cart_id c -> item_book l <> book_id book) ->
    exists db' cart line,
      add_or_update user (mkCartPost (Some (book_id book)) (Some q)) db =
        (cart_response true cart, db') /\
      the_active_cart user cart db' /\ the_line cart book line db' /\
      quantity line = q /\ item_price line = price book * q /\
      totals_consistent cart db' /\
      books db' = books db /\ (forall l, In l (items db) -> In l (items db')).
Proof.
  intros user db book q Hwf Hb Hq Hs Hrq Hrp _ Hnone.
  destruct (@add_new_line_closed user db book q Hwf Hb Hq Hs Hnone)
    as (c & db1 & Hc & Hact & _ & Hi & Hni & Hbk & Eq).
  cbv zeta in Eq. unfold save_line in Eq.
  cbn [backend insert_item quantity item_price with_price with_quantity] in Eq.
  rewrite Hbk in Eq.
  destruct (storable_spec db q) as [[_ Eq1] | [Hn _]]; [|contradiction].
  destruct (storable_spec db (price book * q)) as [[_ Eq2] | [Hn _]]; [|contradiction].
  rewrite Eq1, Eq2 in Eq. cbn [andb] in Eq.
  set (l0 := mkItem (next_item_id db1) (cart_id c) (book_id book) 0 0) in *.
  set (l2 := with_price (price book * q) (with_quantity q l0)) in *.
  set (db3 := set_items (put_row item_id l2 (items (insert_item l0 db1)))
                (insert_item l0 db1)) in *.
  destruct (add_or_update_success user (mkCartPost (Some (book_id book)) (Some q)) db Eq)
    as (book' & line & cart & Hpost & Hbook' & Hcart & Hline & Hprice & Htot).
  { right. reflexivity. }
  assert (Hbooks : books (write_line c l2 (insert_item l0 db1)) = books db).
  { rewrite <- (add_or_update_books user (mkCartPost (Some (book_id book)) (Some q)) db).
    now rewrite Eq. }
  assert (book' = book) as ->.
  { cbn in Hpost. injection Hpost as Hid. unfold book_of in Hbook'.
    rewrite Hbooks, <- Hid in Hbook'. now apply (@book_of_unique db book book' Hwf Hb). }
  assert (Hc' : In (recompute_totals c db3) (carts (write_line c l2 (insert_item l0 db1)))).
  { apply (In_put_row cart_id (recompute_totals c db3) c); [exact Hc | reflexivity]. }
  assert (Hl2 : In l2 (items (write_line c l2 (insert_item l0 db1)))).
  { apply (In_put_row item_id l2 l0); [|reflexivity].
    cbn. apply in_or_app. right. now left. }
  pose proof Hcart as (Hcin & Hcact & Hcuniq).
  assert (Ecart : recompute_totals c db3 = cart).
  { apply Hcuniq; [exact Hc'|]. destruct Hact as [Hu Ho]. split; assumption. }
  pose proof Hline as (Hlin & Hlc & Hlb & Hluniq).
  assert (Eline : l2 = line).
  { apply Hluniq; [exact Hl2 | now rewrite <- Ecart | reflexivity]. }
  exists (write_line c l2 (insert_item l0 db1)), cart, line.
  split; [now rewrite Eq, Ecart|].
  split; [assumption|]. split; [assumption|].
  split; [now rewrite <- Eline|]. split; [now rewrite <- Eline|].
  split; [assumption|]. split; [assumption|].
  intros l Hl.
  apply (@In_put_row_kept _ item_id l2 l (items db1 ++ [l0])).
  - apply in_or_app. left. now rewrite Hi.
  - pose proof (wf_item_range Hwf) as Hr. rewrite Forall_forall in Hr.
    specialize (Hr l Hl). cbn. lia.
Qed.

Lemma add_or_update_new_line_witness :
  exists db' cart line,
    add_or_update Sample.other (mkCartPost (Some 1) (Some 4)) Sample.one_line =
      (cart_response true cart, db') /\
    the_active_cart Sample.other cart db' /\ the_line cart Sample.book line db' /\
    quantity line = 4 /\ item_price line = 100 * 4 /\
    totals_consistent cart db' /\
    books db' = books Sample.one_line /\
    (forall l, In l (items Sample.one_line) -> In l (items db')).
Proof.
  apply (@add_or_update_new_line Sample.other Sample.one_line Sample.book 4).
  - constructor; cbn; repeat constructor; cbn; try lia; intuition discriminate.
  - cbn. left. reflexivity.
  - lia.
  - cbn. lia.
  - unfold in_column_range. cbn. lia.
  - unfold in_column_range. cbn. lia.
  - unfold totals_fit, big_integer_max. cbn. repeat constructor; cbn; lia.
  - cbn. intros c l [<- | []] [Hu _]. discriminate.
Defined.

(** X9. On a well-formed store, asking for [q] more copies (q not 0) of a
    book of which the caller's active cart already has a line, with the
    combined quantity within the stock, that quantity and its price from 0
    to the greatest value of the column, and totals that fit theirs,
    answers 200: the same line (same
    key) now carries the old quantity plus [q] and the price book price x
    that quantity, and the totals are the sums over the lines. *)
Theorem add_or_update_merges_quantity :
  forall (user : CustomUser) (db : DB) (cart : CartModel) (line : CartItems)
         (book : Book) (q : Z),
    wf_store db ->
    In cart (carts db) -> active_cart_of user cart ->
    In line (items db) -> item_cart line = cart_id cart ->
    In book (books db) -> item_book line = book_id book ->
    q <> 0 -> q <= stock book -> quantity line + q <= stock book ->
    in_column_range db (quantity line + q) ->
    in_column_range db (price book * (quantity line + q)) ->
    totals_fit (snd (add_or_update user (mkCartPost (Some (book_id book)) (Some q)) db)) ->
    exists db' cart' line',
      add_or_update user (mkCartPost (Some (book_id book)) (Some q)) db =
        (cart_response false cart', db') /\
      cart_id cart' = cart_id cart /\
      the_active_cart user cart' db' /\ the_line cart' book line' db' /\
      item_id line' = item_id line /\
      quantity line' = quantity line + q /\
      item_price line' = price book * (quantity line + q) /\
      totals_consistent cart' db' /\ books db' = books db.
Proof.
  intros user db cart line book q Hwf Hc Hact Hl Hlc Hb Hlb Hq Hs Hmerge Hrq Hrp _.
  pose proof (@add_or_update_passes_checks user db book q Hwf Hb Hq Hs) as E.
  rewrite (active_cart_unique Hwf Hc Hact) in E. unfold post_line in E.
  rewrite <- Hlc, <- Hlb in E.
  rewrite (line_unique (items db) line (wf_one_line_per_book Hwf) Hl) in E.
  rewrite Hlb in E.
  destruct (Z.ltb_spec (stock book) (quantity line + q)) as [|_]; [lia|].
  cbv zeta in E. unfold save_line in E.
  cbn [quantity item_price with_price with_quantity] in E.
  destruct (storable_spec db (quantity line + q)) as [[_ Eq1] | [Hn _]]; [|contradiction].
  destruct (storable_spec db (price book * (quantity line + q))) as [[_ Eq2] | [Hn _]];
    [|contradiction].
  rewrite Eq1, Eq2 in E. cbn [andb] in E.
  set (l2 := with_price (price book * (quantity line + q))
               (with_quantity (quantity line + q) line)) in *.
  set (db3 := set_items (put_row item_id l2 (items db)) db) in *.
  destruct (add_or_update_success user (mkCartPost (Some (book_id book)) (Some q)) db E)
    as (book' & line' & cart' & Hpost & Hbook' & Hcart & Hline & Hprice & Htot).
  { left. reflexivity. }
  assert (Hbooks : books (write_line cart l2 db) = books db) by reflexivity.
  assert (book' = book) as ->.
  { cbn in Hpost. injection Hpost as Hid. unfold book_of in Hbook'.
    rewrite Hbooks, <- Hid in Hbook'. now apply (@book_of_unique db book book' Hwf Hb). }
  assert (Hc' : In (recompute_totals cart db3) (carts (write_line cart l2 db))).
  { apply (In_put_row cart_id (recompute_totals cart db3) cart); [exact Hc | reflexivity]. }
  assert (Hl2 : In l2 (items (write_line cart l2 db))).
  { apply (In_put_row item_id l2 line); [exact Hl | reflexivity]. }
  pose proof Hcart as (Hcin & Hcact & Hcuniq).
  assert (Ecart : recompute_totals cart db3 = cart').
  { apply Hcuniq; [exact Hc'|]. destruct Hact as [Hu Ho]. split; assumption. }
  pose proof Hline as (Hlin & Hlc' & Hlb' & Hluniq).
  assert (Eline : l2 = line').
  { apply Hluniq; [exact Hl2 | rewrite <- Ecart; exact Hlc | exact Hlb]. }
  exists (write_line cart l2 db), cart', line'.
  split; [now rewrite E, Ecart|].
  split; [now rewrite <- Ecart|].
  split; [assumption|]. split; [assumption|].
  split; [now rewrite <- Eline|]. split; [now rewrite <- Eline|].
  split; [now rewrite <- Eline|]. split; assumption.
Qed.

Lemma add_or_update_merges_quantity_witness :
  exists db' cart' line',
    add_or_update Sample.user (mkCartPost (Some 1) (Some 4)) Sample.one_line =
      (cart_response false cart', db') /\
    cart_id cart' = 1 /\
    the_active_cart Sample.user cart' db' /\ the_line cart' Sample.book line' db' /\
    item_id line' = 1 /\
    quantity line' = 3 + 4 /\
    item_price line' = 100 * (3 + 4) /\
    totals_consistent cart' db' /\ books db' = books Sample.one_line.
Proof.
  apply (@add_or_update_merges_quantity Sample.user Sample.one_line
           (mkCart 1 1 300 3 false) (mkItem 1 1 1 3 300) Sample.book 4).
  - constructor; cbn; repeat constructor; cbn; try lia; intuition discriminate.
  - cbn. left. reflexivity.
  - split; reflexivity.
  - cbn. left. reflexivity.
  - reflexivity.
  - cbn. left. reflexivity.
  - reflexivity.
  - lia.
  - cbn. lia.
  - cbn. lia.
  - unfold in_column_range. cbn. lia.
  - unfold in_column_range. cbn. lia.
  - unfold totals_fit, big_integer_max. cbn. repeat constructor; cbn; lia.
Defined.

(** X10. A cart POST with a quantity and a book key (neither 0) that no
    book of the catalog has answers 404 and leaves the store as it was, on
    any store. *)
Theorem add_or_update_unknown_book :
  forall (user : CustomUser) (pk q : Z) (db : DB),
    pk <> 0 -> q <> 0 ->
    (forall b, In b (books db) -> book_id b <> pk) ->
    add_or_update user (mkCartPost (Some pk) (Some q)) db =
      (mkResponse 404 (JObj [("message", JStr "Book does not exist in the database.")]), db).
Proof.
  intros user pk q db Hpk Hq Hnone. rewrite add_or_update_unfold.
  unfold add_or_update_closed. cbn [post_book_id post_quantity truthy int_of].
  apply Z.eqb_neq in Hpk, Hq. rewrite Hpk, Hq. cbn [negb orb].
  assert (F : filter (fun b => book_id b =? pk) (books db) = []).
  { apply filter_nil_iff. intros b Hb. apply Z.eqb_neq. now apply Hnone. }
  now rewrite F.
Qed.

Lemma add_or_update_unknown_book_witness :
  add_or_update Sample.user (mkCartPost (Some 7) (Some 1)) Sample.one_line =
    (mkResponse 404 (JObj [("message", JStr "Book does not exist in the database.")]),
     Sample.one_line).
Proof.
  apply (@add_or_update_unknown_book Sample.user 7 1 Sample.one_line); [lia | lia |].
  cbn. intros b [<- | [<- | []]]; cbn; lia.
Defined.

(** ** Adding a line and removing it again *)





(** ** Cancelling an order, on any store *)

(** X12. Whatever the store, the caller and the key, cancelling an order
    never writes and never answers 200: when the caller has an ordered cart
    of that key the filter on the lines raises and the answer is the 500 of
    the handler, carrying the text of the error; otherwise it is the 404.
    No stock is restored and no cart is deleted in either case. *)
Theorem cancel_order_never_succeeds :
  forall (user : CustomUser) (pk : Z) (db : DB),
    cancel_order user pk db =
      (if existsb (fun c => owned_by user true c && (cart_id c =? pk)) (carts db)
       then mkResponse 500
              (JObj [("message", JStr "An error occurred while cancelling the order.");
                     ("error", JStr "The QuerySet value for an exact lookup must be limited to one result using slicing.")])
       else mkResponse 404 (JObj [("message", JStr "No order found to cancel.")]),
       db).
Proof.
  intros user pk db.
  unfold cancel_order, OrderViewsByID.delete, CartObjects.filter. view_step.
  assert (E : existsb (fun c => owned_by user true c && (cart_id c =? pk)) (carts db) =
              match filter (fun c => owned_by user true c && (cart_id c =? pk)) (carts db) with
              | [] => false | _ :: _ => true end).
  { induction (carts db) as [|c cs IH]; [reflexivity|]. cbn.
    destruct (owned_by user true c && (cart_id c =? pk)); [reflexivity | exact IH]. }
  rewrite E.
  destruct (filter _ (carts db)) as [|c cs]; reflexivity.
Qed.

(** ** The catalog *)

Lemma get_object_cases (pk : Z) (db : DB) :
  (exists book,
     filter (fun b => book_id b =? pk) (books db) = [book] /\
     BookViewset.get_object pk db = (Val book, db)) \/
  ((forall book, filter (fun b => book_id b =? pk) (books db) <> [book]) /\
   BookViewset.get_object pk db = (Exc Http404, db)).
Proof.
  unfold BookViewset.get_object, BookObjects.get, BookObjects.filter. view_step.
  destruct (filter _ (books db)) as [|b [|b' l]].
  - right. split; [discriminate | reflexivity].
  - left. exists b. split; reflexivity.
  - right. split; [discriminate | reflexivity].
Qed.

(** What the fields of [BookSerializer] have accepted, read off the body. *)
Lemma validated_book (rows : list Book) (instance : option Book) (data : BookPayload)
      (db : DB) (n a : string) (d : option (option string)) (p s : Z) :
  CharField (Some 255) (UniqueValidator rows instance) no_validator (p_name data) = inr n ->
  CharField (Some 255) no_validator no_validator (p_author data) = inr a ->
  optional_CharField (p_description data) = inr d ->
  IntegerField (positive_integer_max (backend db)) (p_price data) = inr p ->
  IntegerField (positive_integer_max (backend db)) (p_stock data) = inr s ->
  exists raw_name raw_author,
    p_name data = Some raw_name /\ n = strip raw_name /\
    p_author data = Some raw_author /\ a = strip raw_author /\
    p_price data = Some p /\ p_stock data = Some s /\
    d = option_map trimmed (p_description data) /\
    accepted_fields db raw_name raw_author p s /\
    UniqueValidator rows instance n = [].
Proof.
  intros Hn Ha Hd Hp Hs.
  apply CharField_inr in Hn as (raw_name & En & -> & Hne & Hu & Hv & _).
  apply CharField_inr in Ha as (raw_author & Ea & -> & Hae & _ & Hav & _).
  apply CharField_validators_nil in Hv as [Hl Hz].
  apply CharField_validators_nil in Hav as [Hal Haz].
  apply IntegerField_inr in Hp as [Ep Hp]. apply IntegerField_inr in Hs as [Es Hs].
  apply optional_CharField_inr in Hd.
  exists raw_name, raw_author.
  unfold accepted_fields, accepted_text, in_column_range.
  repeat match goal with |- _ /\ _ => split end; try reflexivity; try assumption; lia.
Qed.

Lemma validated_name_unused (rows : list Book) (instance : option Book)
      (input : option string) (n : string) :
  CharField (Some 255) (UniqueValidator rows instance) no_validator input = inr n ->
  forall b, In b rows ->
    match instance with Some i => book_id b <> book_id i | None => True end ->
    name b <> n.
Proof.
  intros H. apply CharField_inr in H as (raw & _ & _ & _ & Hu & _).
  now apply UniqueValidator_nil.
Qed.

(** X13. A catalog create that answers 201 was asked by a superuser with the
    four required fields in the body, each of them valid once trimmed, and a
    trimmed name that no book has yet.  It inserted one row, with the next
    key, the caller as owner, the trimmed name, author and description and
    the price and stock of the body, and touched nothing else; the answer
    carries that row. *)
Theorem catalog_create_success :
  forall (user : CustomUser) (data : BookPayload) (db db' : DB) (r : Response),
    run (BookViewset.create user data) db = (r, db') ->
    status_code r = 201 ->
    exists book raw_name raw_author,
      is_superuser user = true /\
      p_name data = Some raw_name /\ name book = strip raw_name /\
      p_author data = Some raw_author /\ author book = strip raw_author /\
      p_price data = Some (price book) /\ p_stock data = Some (stock book) /\
      description book =
        match p_description data with Some d => trimmed d | None => None end /\
      accepted_fields db raw_name raw_author (price book) (stock book) /\
      book_id book = next_book_id db /\ book_user book = user_id user /\
      (forall b, In b (books db) -> name b <> name book) /\
      db' = insert_book book db /\
      r = mkResponse 201 (JObj [("message", JStr "Book created successfully");
                                ("status", JStr "Success");
                                ("data", BookSerializer book)]).
Proof.
  intros user data db db' r Hrun Hs. unfold BookViewset.create in Hrun.
  destruct (is_superuser user) eqn:Su; cbn [negb] in Hrun.
  2:{ view_step_in Hrun. injection Hrun as <- <-. discriminate. }
  destruct (BookSerializer_is_valid_cases None data db)
    as [(n & a & d & p & s & Hn & Ha & Hd & Hp & Hst & E) | (detail & E)];
    view_step_in Hrun; rewrite E in Hrun.
  2:{ injection Hrun as <- <-. discriminate. }
  injection Hrun as <- <-.
  destruct (validated_book _ _ _ _ Hn Ha Hd Hp Hst)
    as (raw_name & raw_author & En & -> & Ea & -> & Ep & Es & -> & Hacc & Hu).
  exists (mkBook (next_book_id db) (strip raw_name) (strip raw_author)
            (match option_map trimmed (p_description data) with
             | Some d => d
             | None => None
             end) (user_id user) p s),
    raw_name, raw_author.
  cbn [name author price stock description book_id book_user].
  repeat match goal with |- _ /\ _ => split end; try reflexivity; try assumption.
  - now destruct (p_description data).
  - intros b Hb. apply (proj1 (UniqueValidator_nil (books db) None (strip raw_name)) Hu b Hb).
    exact I.
Qed.

Lemma catalog_create_success_witness :
  exists book raw_name raw_author,
    is_superuser Sample.admin = true /\
    p_name Scenario.padded_book = Some raw_name /\ name book = strip raw_name /\
    p_author Scenario.padded_book = Some raw_author /\ author book = strip raw_author /\
    p_price Scenario.padded_book = Some (price book) /\
    p_stock Scenario.padded_book = Some (stock book) /\
    description book =
      match p_description Scenario.padded_book with Some d => trimmed d | None => None end /\
    accepted_fields Scenario.shop raw_name raw_author (price book) (stock book) /\
    book_id book = next_book_id Scenario.shop /\ book_user book = user_id Sample.admin /\
    (forall b, In b (books Scenario.shop) -> name b <> name book) /\
    insert_book (mkBook 3 "New Book" "New Author" (Some "a gift") 3 150 5) Scenario.shop =
      insert_book book Scenario.shop /\
    mkResponse 201
      (JObj [("message", JStr "Book created successfully");
             ("status", JStr "Success");
             ("data",
              BookSerializer (mkBook 3 "New Book" "New Author" (Some "a gift") 3 150 5))]) =
    mkResponse 201 (JObj [("message", JStr "Book created successfully");
                          ("status", JStr "Success");
                          ("data", BookSerializer book)]).
Proof.
  apply (@catalog_create_success Sample.admin Scenario.padded_book Scenario.shop);
    reflexivity.
Defined.

(** X14. Conversely, a superuser's create answers 201 when the body has the
    four required fields, each of them valid once trimmed, a description, if
    any, without the null character, and a trimmed name that no book has. *)
Theorem catalog_create_accepts_valid_body :
  forall (user : CustomUser) (data : BookPayload) (db : DB) (n a : string) (p s : Z),
    is_superuser user = true ->
    p_name data = Some n -> p_author data = Some a ->
    p_price data = Some p -> p_stock data = Some s ->
    accepted_fields db n a p s ->
    (forall d, p_description data = Some (Some d) -> null_free (strip d)) ->
    (forall b, In b (books db) -> name b <> strip n) ->
    status_code (fst (run (BookViewset.create user data) db)) = 201.
Proof.
  intros user data db n a p s Su Hn Ha Hp Hs ((Nne & Nl & Nz) & (Ane & Al & Az) & Vp & Vs)
    Hd Hfree.
  unfold BookViewset.create, BookSerializer_is_valid. rewrite Su. cbn [negb]. view_step.
  assert (En : CharField (Some 255) (UniqueValidator (books db) None) no_validator
                 (p_name data) = inr (strip n)).
  { apply CharField_inr. exists n. repeat split; try assumption.
    - apply UniqueValidator_nil. intros b Hb _. now apply Hfree.
    - now apply CharField_validators_nil. }
  assert (Ea : CharField (Some 255) no_validator no_validator (p_author data)
               = inr (strip a)).
  { apply CharField_inr. exists a. repeat split; try assumption.
    now apply CharField_validators_nil. }
  assert (Ed : exists d, optional_CharField (p_description data) = inr d).
  { unfold optional_CharField. destruct (p_description data) as [[d|]|]; try (eexists; reflexivity).
    destruct (String.eqb (strip d) ""); [eexists; reflexivity|].
    unfold CharField_validators. cbn [app].
    specialize (Hd d eq_refl). unfold null_free in Hd. rewrite Hd. eexists; reflexivity. }
  destruct Ed as [d Ed].
  assert (Ep : IntegerField (positive_integer_max (backend db)) (p_price data) = inr p)
    by now apply IntegerField_inr.
  assert (Es : IntegerField (positive_integer_max (backend db)) (p_stock data) = inr s)
    by now apply IntegerField_inr.
  rewrite En, Ea, Ed, Ep, Es. reflexivity.
Qed.

Lemma catalog_create_accepts_valid_body_witness :
  status_code (fst (run (BookViewset.create Sample.admin Scenario.padded_book)
                      Scenario.shop)) = 201.
Proof.
  apply (@catalog_create_accepts_valid_body Sample.admin Scenario.padded_book Scenario.shop
           "  New Book " "New Author" 150 5); try reflexivity.
  - unfold accepted_fields, accepted_text, in_column_range, null_free.
    repeat split; try discriminate; try reflexivity; cbn; lia.
  - intros d [= <-]. reflexivity.
  - cbn. intros b [<- | [<- | []]]; discriminate.
Defined.

Lemma filter_singleton_key {A} (key : A -> Z) (k : Z) (x : A) (rows : list A) :
  filter (fun r => key r =? k) rows = [x] ->
  In x rows /\ key x = k /\ forall r, In r rows -> key r = k -> r = x.
Proof.
  intros F. destruct (filter_singleton_In _ _ F) as [Hin Hk].
  apply Z.eqb_eq in Hk. repeat split; try assumption.
  intros r Hr Er.
  assert (Hin' : In r (filter (fun r => key r =? k) rows)).
  { apply filter_In. split; [assumption | now apply Z.eqb_eq]. }
  rewrite F in Hin'. destruct Hin' as [<- | []]. reflexivity.
Qed.

(** X15. A catalog update that answers 200 was asked by a superuser for a
    key that exactly one book has, with the four required fields in the
    body, each of them valid once trimmed, and a trimmed name that no other
    book has.  The row keeps its key and its owner, takes the trimmed name
    and author and the price and stock of the body (and the trimmed
    description, which stays when the body has none), and replaces the old
    row; the other books, the carts and the lines, with the prices they
    recorded, are as they were. *)
Theorem catalog_update_success :
  forall (user : CustomUser) (pk : Z) (data : BookPayload) (db db' : DB) (r : Response),
    run (BookViewset.update user pk data) db = (r, db') ->
    status_code r = 200 ->
    exists old new raw_name raw_author,
      is_superuser user = true /\
      In old (books db) /\ book_id old = pk /\
      book_id new = pk /\ book_user new = book_user old /\
      p_name data = Some raw_name /\ name new = strip raw_name /\
      p_author data = Some raw_author /\ author new = strip raw_author /\
      p_price data = Some (price new) /\ p_stock data = Some (stock new) /\
      description new =
        match p_description data with Some d => trimmed d | None => description old end /\
      accepted_fields db raw_name raw_author (price new) (stock new) /\
      (forall b, In b (books db) -> book_id b <> pk -> name b <> name new) /\
      books db' = map (fun b => if book_id b =? pk then new else b) (books db) /\
      users db' = users db /\ carts db' = carts db /\ items db' = items db /\
      r = mkResponse 200 (JObj [("message", JStr "Book updated successfully");
                                ("status", JStr "Success");
                                ("data", BookSerializer new)]).
Proof.
  intros user pk data db db' r Hrun Hs. unfold BookViewset.update in Hrun.
  destruct (is_superuser user) eqn:Su; cbn [negb] in Hrun.
  2:{ view_step_in Hrun. injection Hrun as <- <-. discriminate. }
  view_step_in Hrun.
  destruct (get_object_cases pk db) as [(old & Fo & Eo) | (_ & Eo)]; rewrite Eo in Hrun.
  2:{ injection Hrun as <- <-. discriminate. }
  destruct (@filter_singleton_key _ book_id pk old (books db) Fo) as (Hold & Hid & _).
  destruct (BookSerializer_is_valid_cases (Some old) data db)
    as [(n & a & d & p & s & Hn & Ha & Hd & Hp & Hst & E) | (detail & E)];
    rewrite E in Hrun.
  2:{ injection Hrun as <- <-. discriminate. }
  unfold BookObjects.save in Hrun. view_step_in Hrun. injection Hrun as <- <-.
  destruct (validated_book _ _ _ _ Hn Ha Hd Hp Hst)
    as (raw_name & raw_author & En & -> & Ea & -> & Ep & Es & -> & Hacc & Hu).
  exists old.
  exists (mkBook (book_id old) (strip raw_name) (strip raw_author)
            (match option_map trimmed (p_description data) with
             | Some d => d
             | None => description old
             end) (book_user old) p s),
    raw_name, raw_author.
  cbn [name author price stock description book_id book_user books users carts items
       set_books].
  repeat match goal with |- _ /\ _ => split end; try reflexivity; try assumption.
  - now destruct (p_description data).
  - intros b Hb Hne.
    apply (proj1 (UniqueValidator_nil (books db) (Some old) (strip raw_name)) Hu b Hb).
    now rewrite Hid.
  - unfold put_row. cbn [book_id]. now rewrite Hid.
Qed.

Lemma catalog_update_success_witness :
  let data := mkBookPayload (Some "Updated Book ") (Some " Updated Author") None
                (Some 200) (Some 20) in
  let updated := mkBook 1 "Updated Book" "Updated Author" None 1 200 20 in
  let db' := set_books [updated; Sample.scarce] Scenario.shop in
  exists old new raw_name raw_author,
    is_superuser Sample.admin = true /\
    In old (books Scenario.shop) /\ book_id old = 1 /\
    book_id new = 1 /\ book_user new = book_user old /\
    p_name data = Some raw_name /\ name new = strip raw_name /\
    p_author data = Some raw_author /\ author new = strip raw_author /\
    p_price data = Some (price new) /\ p_stock data = Some (stock new) /\
    description new =
      match p_description data with Some d => trimmed d | None => description old end /\
    accepted_fields Scenario.shop raw_name raw_author (price new) (stock new) /\
    (forall b, In b (books Scenario.shop) -> book_id b <> 1 -> name b <> name new) /\
    books db' = map (fun b => if book_id b =? 1 then new else b) (books Scenario.shop) /\
    users db' = users Scenario.shop /\ carts db' = carts Scenario.shop /\
    items db' = items Scenario.shop /\
    mkResponse 200 (JObj [("message", JStr "Book updated successfully");
                          ("status", JStr "Success");
                          ("data", BookSerializer updated)]) =
    mkResponse 200 (JObj [("message", JStr "Book updated successfully");
                          ("status", JStr "Success");
                          ("data", BookSerializer new)]).
Proof.
  apply (@catalog_update_success Sample.admin 1
           (mkBookPayload (Some "Updated Book ") (Some " Updated Author") None
              (Some 200) (Some 20))
           Scenario.shop); reflexivity.
Defined.

(** X16. A catalog delete that answers 204 was asked by a superuser for a
    key that exactly one book has.  That row goes, and with it every cart
    line of the book; the other books and lines stay, and the cart rows,
    totals included, are not rewritten. *)
Theorem catalog_destroy_cascades_to_lines :
  forall (user : CustomUser) (pk : Z) (db db' : DB) (r : Response),
    run (BookViewset.destroy user pk) db = (r, db') ->
    status_code r = 204 ->
    is_superuser user = true /\
    (exists book, In book (books db) /\ book_id book = pk) /\
    (forall b, In b (books db') <-> In b (books db) /\ book_id b <> pk) /\
    (forall l, In l (items db') <-> In l (items db) /\ item_book l <> pk) /\
    carts db' = carts db /\ users db' = users db /\
    r = mkResponse 204 JNull.
Proof.
  intros user pk db db' r Hrun Hs. unfold BookViewset.destroy in Hrun.
  destruct (is_superuser user) eqn:Su; cbn [negb] in Hrun.
  2:{ view_step_in Hrun. injection Hrun as <- <-. discriminate. }
  view_step_in Hrun.
  destruct (get_object_cases pk db) as [(book & Fo & Eo) | (_ & Eo)]; rewrite Eo in Hrun.
  2:{ injection Hrun as <- <-. discriminate. }
  destruct (@filter_singleton_key _ book_id pk book (books db) Fo) as (Hin & Hid & _).
  unfold BookObjects.delete in Hrun. view_step_in Hrun. injection Hrun as <- <-.
  cbn [books items carts users]. rewrite Hid.
  split; [reflexivity|]. split; [now exists book|].
  split; [|split; [|repeat split]].
  - intros b. rewrite filter_In, negb_true_iff, Z.eqb_neq. reflexivity.
  - intros l. rewrite filter_In, negb_true_iff, Z.eqb_neq. reflexivity.
Qed.

Lemma catalog_destroy_cascades_to_lines_witness :
  let db' := mkDB (users Scenario.shop) [Sample.scarce] (carts Scenario.shop) [] 3 2 2
               Sample.sqlite in
  is_superuser Sample.admin = true /\
  (exists book, In book (books Scenario.shop) /\ book_id book = 1) /\
  (forall b, In b (books db') <-> In b (books Scenario.shop) /\ book_id b <> 1) /\
  (forall l, In l (items db') <-> In l (items Scenario.shop) /\ item_book l <> 1) /\
  carts db' = carts Scenario.shop /\ users db' = users Scenario.shop /\
  mkResponse 204 JNull = mkResponse 204 JNull.
Proof.
  apply (@catalog_destroy_cascades_to_lines Sample.admin 1 Scenario.shop); reflexivity.
Defined.

(** X17. For a superuser and a key that no book has, update and delete do
    not answer 404: the lookup raises Django's [Http404], which the clause
    [except NotFound] does not name, so the last clause answers 500 with the
    text of the exception.  The store is as it was. *)
Theorem catalog_missing_book_answers_500 :
  forall (user : CustomUser) (pk : Z) (data : BookPayload) (db : DB),
    is_superuser user = true ->
    (forall b, In b (books db) -> book_id b <> pk) ->
    run (BookViewset.update user pk data) db =
      (mkResponse 500
         (JObj [("error", JStr "Error updating book: No Book matches the given query.")]),
       db) /\
    run (BookViewset.destroy user pk) db =
      (mkResponse 500
         (JObj [("error", JStr "Error deleting book: No Book matches the given query.")]),
       db).
Proof.
  intros user pk data db Su Hnone.
  assert (F : filter (fun b => book_id b =? pk) (books db) = []).
  { apply filter_nil_iff. intros b Hb. apply Z.eqb_neq. now apply Hnone. }
  unfold BookViewset.update, BookViewset.destroy, BookViewset.get_object, BookObjects.get,
    BookObjects.filter.
  rewrite Su. cbn [negb]. view_step. rewrite F. split; reflexivity.
Qed.

Lemma catalog_missing_book_answers_500_witness :
  run (BookViewset.update Sample.admin 9 Scenario.new_book) Scenario.shop =
    (mkResponse 500
       (JObj [("error", JStr "Error updating book: No Book matches the given query.")]),
     Scenario.shop) /\
  run (BookViewset.destroy Sample.admin 9) Scenario.shop =
    (mkResponse 500
       (JObj [("error", JStr "Error deleting book: No Book matches the given query.")]),
     Scenario.shop).
Proof.
  apply (@catalog_missing_book_answers_500 Sample.admin 9 Scenario.new_book Scenario.shop).
  - reflexivity.
  - cbn. intros b [<- | [<- | []]]; cbn; lia.
Defined.

(** X18. The answers of the catalog, whoever asks and whatever the store: a
    create answers 201, 400 or 403, an update 200, 400, 403 or 500, a delete
    204, 403 or 500 (so the 404 of their [except NotFound] clauses is never
    sent), and every answer but the success leaves the store as it was. *)
Theorem catalog_answers :
  forall (user : CustomUser) (pk : Z) (data : BookPayload) (db : DB),
    let created := run (BookViewset.create user data) db in
    let updated := run (BookViewset.update user pk data) db in
    let destroyed := run (BookViewset.destroy user pk) db in
    (status_code (fst created) = 201 \/
     (status_code (fst created) = 400 \/ status_code (fst created) = 403) /\
     snd created = db) /\
    (status_code (fst updated) = 200 \/
     (status_code (fst updated) = 400 \/ status_code (fst updated) = 403 \/
      status_code (fst updated) = 500) /\ snd updated = db) /\
    (status_code (fst destroyed) = 204 \/
     (status_code (fst destroyed) = 403 \/ status_code (fst destroyed) = 500) /\
     snd destroyed = db).
Proof.
  intros user pk data db. cbv zeta.
  unfold BookViewset.create, BookViewset.update, BookViewset.destroy.
  destruct (is_superuser user); cbn [negb].
  2:{ view_step. cbn. intuition. }
  view_step.
  destruct (BookSerializer_is_valid_cases None data db)
    as [(n & a & d & p & s & _ & _ & _ & _ & _ & E) | (detail & E)]; rewrite E.
  all: destruct (get_object_cases pk db) as [(old & Fo & Eo) | (_ & Eo)]; rewrite Eo.
  all: try (destruct (BookSerializer_is_valid_cases (Some old) data db)
    as [(n' & a' & d' & p' & s' & _ & _ & _ & _ & _ & E') | (detail' & E')]; rewrite E').
  all: unfold BookObjects.save, BookObjects.delete; view_step; cbn; intuition.
Qed.

(** ** The names of the books stay distinct *)

Lemma unique_names_books_only (db db' : DB) :
  books db' = books db -> unique_names db -> unique_names db'.
Proof. unfold unique_names. now intros ->. Qed.

(** Saving a row in place of the only row of its key changes no column on
    which the two agree. *)
Lemma map_put_row_only {A B} (key : A -> Z) (f : A -> B) (y x : A) (rows : list A) :
  filter (fun r => key r =? key y) rows = [x] -> f y = f x ->
  map f (put_row key y rows) = map f rows.
Proof.
  intros F E. unfold put_row. rewrite map_map. apply map_ext_in. intros r Hr.
  destruct (Z.eqb_spec (key r) (key y)) as [Ek|]; [|reflexivity].
  destruct (@filter_singleton_key _ key (key y) x rows F) as (_ & _ & Huniq).
  now rewrite (Huniq r Hr Ek).
Qed.

Lemma keeps_names_order_line (item : CartItems) :
  keeps unique_names (OrderViews.order_line item).
Proof.
  intros db H.
  unfold OrderViews.order_line, ItemObjects.book, BookObjects.get, BookObjects.filter,
    BookObjects.save.
  view_step.
  destruct (filter _ (books db)) as [|b [|b' l]] eqn:F; cbn; try assumption.
  destruct (quantity item >? stock b); cbn; [assumption|].
  unfold unique_names. cbn [books set_books].
  rewrite (@map_put_row_only _ _ book_id name (with_stock (stock b - quantity item) b) b);
    [assumption | | reflexivity].
  cbn [with_stock book_id].
  destruct (@filter_singleton_key _ book_id (item_book item) b (books db) F) as (_ & -> & _).
  exact F.
Qed.

Lemma keeps_names_OrderViews_post (user : CustomUser) :
  keeps unique_names (OrderViews.post user).
Proof.
  unfold OrderViews.post, CartObjects.first, CartObjects.filter, ItemObjects.filter_cart,
    ItemObjects.exists_, ItemObjects.filter, CartObjects.save.
  repeat first
    [ apply keeps_names_order_line
    | apply keeps_modify_books; [exact unique_names_books_only | intros; reflexivity]
    | keeps_step ].
Qed.

Lemma NoDup_map_replace {A B} (f : A -> B) (sel : A -> bool) (y : A) (rows : list A) :
  NoDup (map f rows) ->
  (forall r r', In r rows -> In r' rows -> sel r = true -> sel r' = true -> r = r') ->
  (forall r, In r rows -> sel r = false -> f r <> f y) ->
  NoDup (map f (map (fun r => if sel r then y else r) rows)).
Proof.
  induction rows as [|a rows IH]; intros Hnd Hone Hother; [constructor|].
  cbn. inversion Hnd as [|? ? Hnotin Hnd']; subst.
  assert (IH' : NoDup (map f (map (fun r => if sel r then y else r) rows))).
  { apply IH; [assumption | |].
    - intros r r' Hr Hr'. apply Hone; now right.
    - intros r Hr. apply Hother. now right. }
  constructor; [|exact IH'].
  rewrite map_map. intros Hin. apply in_map_iff in Hin as (r & Er & Hr).
  destruct (sel a) eqn:Sa, (sel r) eqn:Sr.
  - apply Hnotin. rewrite (Hone a r (or_introl eq_refl) (or_intror Hr) Sa Sr).
    now apply in_map.
  - now apply (Hother r (or_intror Hr) Sr).
  - apply (Hother a (or_introl eq_refl) Sa). now symmetry.
  - apply Hnotin. rewrite <- Er. now apply in_map.
Qed.

Lemma exec_keeps_names (user : CustomUser) (op : Operation) (db : DB) :
  unique_names db -> unique_names (snd (exec user op db)).
Proof.
  intros H.
  destruct op as [| payload | pk | | | pk | | payload | pk payload | pk]; cbn [exec];
    unfold get_active, add_or_update, remove_item, list_orders, place_order, cancel_order.
  - apply hoare_run; [|assumption]. apply keeps_CartsViews_get, unique_names_books_only.
  - apply hoare_run; [|assumption]. apply keeps_CartsViews_post, unique_names_books_only.
  - apply hoare_run; [|assumption].
    apply keeps_CartsViewsByID_delete, unique_names_books_only.
  - apply hoare_run; [|assumption]. apply keeps_OrderViews_get, unique_names_books_only.
  - apply hoare_run; [|assumption]. apply keeps_names_OrderViews_post.
  - apply hoare_run; [|assumption]. apply keeps_OrderViewsByID_delete.
  - apply hoare_run; [|assumption]. apply keeps_BookViewset_list, unique_names_books_only.
  - unfold BookViewset.create. destruct (is_superuser user); cbn [negb]; [|assumption].
    view_step.
    destruct (BookSerializer_is_valid_cases None payload db)
      as [(n & a & d & p & s & F & _ & _ & _ & _ & E) | (detail & E)]; rewrite E;
      [|assumption].
    unfold unique_names. cbn [snd books insert_book]. rewrite map_app. cbn.
    apply NoDup_snoc; [assumption|].
    intros Hin. apply in_map_iff in Hin as (b & Eb & Hb).
    now apply (validated_name_unused _ _ _ F b Hb).
  - unfold BookViewset.update. destruct (is_superuser user); cbn [negb]; [|assumption].
    view_step.
    destruct (get_object_cases pk db) as [(old & Fo & Eo) | (_ & Eo)]; rewrite Eo;
      [|assumption].
    destruct (BookSerializer_is_valid_cases (Some old) payload db)
      as [(n & a & d & p & s & F & _ & _ & _ & _ & E) | (detail & E)]; rewrite E;
      [|assumption].
    unfold BookObjects.save. view_step. cbn [snd].
    unfold unique_names, put_row. cbn [books set_books book_id].
    destruct (@filter_singleton_key _ book_id pk old (books db) Fo) as (_ & Hid & Huniq).
    apply NoDup_map_replace; [exact H | |].
    + intros r r' Hr Hr' Er Er'. apply Z.eqb_eq in Er, Er'.
      rewrite (Huniq r Hr), (Huniq r' Hr'); congruence.
    + intros r Hr Er. cbn [name]. apply (validated_name_unused _ _ _ F r Hr).
      apply Z.eqb_neq in Er. cbn. congruence.
  - unfold BookViewset.destroy. destruct (is_superuser user); cbn [negb]; [|assumption].
    view_step.
    destruct (get_object_cases pk db) as [(old & Fo & Eo) | (_ & Eo)]; rewrite Eo;
      [|assumption].
    unfold BookObjects.delete. view_step. cbn [snd]. unfold unique_names. cbn [books].
    now apply NoDup_map_filter.
Qed.


(** X19. The names of the books are distinct after every operation of the API
    if they were before: the serializer's check of the name is enough for
    the creations and the updates, the orders rewrite only the stock, and
    the cart operations write no book. *)
Theorem book_names_stay_unique :
  forall (user : CustomUser) (op : Operation) (db : DB),
    unique_names db -> unique_names (snd (exec user op db)).
Proof. intros user op db. apply exec_keeps_names. Qed.

Lemma book_names_stay_unique_witness :
  unique_names
    (snd (exec Sample.admin
            (CatalogUpdate 1 (mkBookPayload (Some "Updated Book") (Some "Updated Author")
                                None (Some 200) (Some 20)))
            Scenario.shop)).
Proof.
  apply (@book_names_stay_unique Sample.admin
           (CatalogUpdate 1 (mkBookPayload (Some "Updated Book") (Some "Updated Author")
                               None (Some 200) (Some 20)))
           Scenario.shop).
  unfold unique_names. cbn. repeat constructor; cbn; intuition discriminate.
Defined.

(** ** The verification link *)

Section VerifyProperties.

Variable AccessToken_user_id : string -> string + Z.

Local Abbreviation verify := (verify_registered_user AccessToken_user_id).

Lemma with_is_verified_same (u : CustomUser) :
  is_verified u = true -> with_is_verified true u = u.
Proof. destruct u; cbn. now intros ->. Qed.

Lemma set_users_same (db : DB) : set_users (users db) db = db.
Proof. now destruct db. Qed.

(** The closed form of the view on a token of a key that one account has. *)
Lemma verify_found (token : string) (pk : Z) (u : CustomUser) (db : DB) :
  AccessToken_user_id token = inr pk ->
  filter (fun x => user_id x =? pk) (users db) = [u] ->
  run (verify token) db =
    (mkResponse 200 (JObj [("message", JStr "User verification successful");
                           ("status", JStr "success")]),
     if negb (is_verified u)
     then set_users (put_row user_id (with_is_verified true u) (users db)) db
     else db).
Proof.
  intros Ht F. unfold verify_registered_user, UserObjects.get, UserObjects.save.
  rewrite Ht. view_step. rewrite F.
  destruct (is_verified u); reflexivity.
Qed.

Lemma verify_not_found (token : string) (db : DB) :
  (forall pk u, AccessToken_user_id token = inr pk ->
     filter (fun x => user_id x =? pk) (users db) <> [u]) ->
  status_code (fst (run (verify token) db)) <> 200 /\ snd (run (verify token) db) = db.
Proof.
  intros Hnone. unfold verify_registered_user, UserObjects.get, UserObjects.save.
  destruct (AccessToken_user_id token) as [msg | pk] eqn:Ht; view_step.
  - split; [discriminate | reflexivity].
  - specialize (Hnone pk).
    destruct (filter _ (users db)) as [|u [|u' l]].
    + split; [discriminate | reflexivity].
    + exfalso. now apply (Hnone u).
    + split; [discriminate | reflexivity].
Qed.

Lemma verify_cases (token : string) (db : DB) :
  (exists pk u, AccessToken_user_id token = inr pk /\
                filter (fun x => user_id x =? pk) (users db) = [u]) \/
  (forall pk u, AccessToken_user_id token = inr pk ->
     filter (fun x => user_id x =? pk) (users db) <> [u]).
Proof.
  destruct (AccessToken_user_id token) as [msg | pk]; [right; discriminate|].
  destruct (filter (fun x => user_id x =? pk) (users db)) as [|u [|u' l]] eqn:F.
  - right. intros pk' u' E. injection E as <-. now rewrite F.
  - left. now exists pk, u.
  - right. intros pk' u0 E. injection E as <-. now rewrite F.
Qed.

End VerifyProperties.

(** X20. The link of an account: when the token decodes to the key of an
    account (the keys being distinct), the answer is 200 and afterwards that
    account is verified; every other account, and every other column of
    this one, is as it was, and so are the books, the carts and the lines. *)
Theorem verify_marks_the_account :
  forall (AccessToken_user_id : string -> string + Z) (token : string)
         (u : CustomUser) (db : DB),
    NoDup (map user_id (users db)) -> In u (users db) ->
    AccessToken_user_id token = inr (user_id u) ->
    run (verify_registered_user AccessToken_user_id token) db =
      (mkResponse 200 (JObj [("message", JStr "User verification successful");
                             ("status", JStr "success")]),
       set_users
         (map (fun x => if user_id x =? user_id u then with_is_verified true x else x)
              (users db)) db).
Proof.
  intros dec token u db Hnd Hin Ht.
  rewrite (@verify_found dec token (user_id u) u db Ht
             (filter_key_unique user_id _ _ Hnd Hin)).
  f_equal.
  assert (Hu : forall x, In x (users db) -> user_id x = user_id u -> x = u).
  { intros x Hx Ek. exact (key_unique user_id _ _ _ Hnd Hx Hin Ek). }
  destruct (is_verified u) eqn:V; cbn [negb].
  - rewrite <- (set_users_same db) at 1. f_equal.
    rewrite <- (map_id (users db)) at 1. apply map_ext_in. intros x Hx.
    destruct (Z.eqb_spec (user_id x) (user_id u)) as [Ek|]; [|reflexivity].
    rewrite (Hu x Hx Ek). symmetry. now apply with_is_verified_same.
  - f_equal. unfold put_row. apply map_ext_in. intros x Hx.
    cbn [with_is_verified user_id].
    destruct (Z.eqb_spec (user_id x) (user_id u)) as [Ek|]; [|reflexivity].
    now rewrite (Hu x Hx Ek).
Qed.

Lemma verify_marks_the_account_witness :
  run (verify_registered_user Scenario.key_of_token "token-of-1") Scenario.shop =
    (mkResponse 200 (JObj [("message", JStr "User verification successful");
                           ("status", JStr "success")]),
     set_users
       (map (fun x => if user_id x =? user_id Sample.user
                      then with_is_verified true x else x)
            (users Scenario.shop)) Scenario.shop).
Proof.
  apply (@verify_marks_the_account Scenario.key_of_token "token-of-1" Sample.user
           Scenario.shop).
  - cbn. repeat constructor; cbn; intuition discriminate.
  - cbn. now left.
  - reflexivity.
Defined.

(** X21. Following the link twice is following it once: the second call
    gives the answer of the first and leaves the store of the first, whatever
    the token and the store. *)
Theorem verify_is_idempotent :
  forall (AccessToken_user_id : string -> string + Z) (token : string) (db : DB),
    let once := run (verify_registered_user AccessToken_user_id token) db in
    run (verify_registered_user AccessToken_user_id token) (snd once) = once.
Proof.
  intros dec token db once. unfold once.
  destruct (verify_cases dec token db) as [(pk & u & Ht & F) | Hnone].
  - rewrite (@verify_found dec token pk u db Ht F).
    destruct (is_verified u) eqn:V; cbn [negb snd].
    + rewrite (@verify_found dec token pk u db Ht F). now rewrite V.
    + destruct (@filter_singleton_key _ user_id pk u (users db) F) as (Hin & Hid & Huniq).
      assert (F' : filter (fun x => user_id x =? pk)
                     (users (set_users (put_row user_id (with_is_verified true u) (users db)) db))
                   = [with_is_verified true u]).
      { cbn [users set_users].
        rewrite filter_put_row_same.
        - rewrite F. unfold put_row. cbn. now rewrite Z.eqb_refl.
        - intros x Hx Ek. cbn [with_is_verified user_id] in *. now rewrite Ek, Hid. }
      rewrite (@verify_found dec token pk (with_is_verified true u) _ Ht F').
      reflexivity.
  - destruct (verify_not_found dec token db Hnone) as [_ E].
    rewrite E. reflexivity.
Qed.

(** X22. A link that names no account: when the token does not decode the
    answer is 400 with the text of the error, when it decodes to a key that
    no account has the answer is 404; the store is as it was. *)
Theorem verify_rejects_unknown_token :
  forall (AccessToken_user_id : string -> string + Z) (token : string) (db : DB),
    (forall pk u, AccessToken_user_id token = inr pk -> In u (users db) -> user_id u <> pk) ->
    run (verify_registered_user AccessToken_user_id token) db =
      (match AccessToken_user_id token with
       | inl msg =>
           mkResponse 400 (JObj [("message", JStr "Invalid or expired token");
                                 ("status", JStr "error"); ("error", JStr msg)])
       | inr _ =>
           mkResponse 404 (JObj [("message", JStr "User not found");
                                 ("status", JStr "error")])
       end, db).
Proof.
  intros dec token db Hnone.
  unfold verify_registered_user, UserObjects.get, UserObjects.save.
  destruct (dec token) as [msg | pk]; view_step; [reflexivity|].
  assert (F : filter (fun x => user_id x =? pk) (users db) = []).
  { apply filter_nil_iff. intros x Hx. apply Z.eqb_neq. now apply (Hnone pk x). }
  now rewrite F.
Qed.

Lemma verify_rejects_unknown_token_witness :
  run (verify_registered_user Scenario.key_of_token "token-of-9") Scenario.shop =
    (match Scenario.key_of_token "token-of-9" with
     | inl msg =>
         mkResponse 400 (JObj [("message", JStr "Invalid or expired token");
                               ("status", JStr "error"); ("error", JStr msg)])
     | inr _ =>
         mkResponse 404 (JObj [("message", JStr "User not found");
                               ("status", JStr "error")])
     end, Scenario.shop).
Proof.
  apply (@verify_rejects_unknown_token Scenario.key_of_token "token-of-9" Scenario.shop).
  intros pk u E. injection E as <-.
  cbn. intros [<- | [<- | [<- | []]]]; cbn; lia.
Defined.

(** X23. The link writes nothing but the flag: whatever the token and the
    store, the books, the carts, the lines and the key counters are as they
    were, each account row is the row there was or that row with the flag
    set, and an answer other than 200 leaves the store as it was. *)
Theorem verify_writes_only_the_flag :
  forall (AccessToken_user_id : string -> string + Z) (token : string) (db : DB),
    let result := run (verify_registered_user AccessToken_user_id token) db in
    books (snd result) = books db /\ carts (snd result) = carts db /\
    items (snd result) = items db /\
    next_book_id (snd result) = next_book_id db /\
    next_cart_id (snd result) = next_cart_id db /\
    next_item_id (snd result) = next_item_id db /\
    Forall2 (fun x x' => x' = x \/ x' = with_is_verified true x)
            (users db) (users (snd result)) /\
    (status_code (fst result) <> 200 -> snd result = db).
Proof.
  intros dec token db result. unfold result.
  assert (Hsame : Forall2 (fun x x' : CustomUser => x' = x \/ x' = with_is_verified true x)
                    (users db) (users db)).
  { induction (users db); constructor; auto. }
  destruct (verify_cases dec token db) as [(pk & u & Ht & F) | Hnone].
  - rewrite (@verify_found dec token pk u db Ht F).
    destruct (is_verified u); cbn [negb snd fst status_code].
    + repeat split; try reflexivity; try assumption. 
    + cbn [books carts items next_book_id next_cart_id next_item_id users set_users].
      repeat split; try reflexivity.
      * destruct (@filter_singleton_key _ user_id pk u (users db) F) as (_ & Hid & Huniq).
        unfold put_row. cbn [with_is_verified user_id].
        assert (G : forall l, (forall x, In x l -> In x (users db)) ->
                  Forall2 (fun x x' => x' = x \/ x' = with_is_verified true x) l
                    (map (fun x => if user_id x =? user_id u
                                   then with_is_verified true u else x) l)).
        { induction l as [|a l IH]; intros Hl; cbn; constructor.
          - destruct (Z.eqb_spec (user_id a) (user_id u)) as [Ek|]; [|now left].
            right. f_equal. symmetry. apply Huniq; [apply Hl; now left|].
            now rewrite Ek.
          - apply IH. intros x Hx. apply Hl. now right. }
        apply G. auto.
      * intros Hne. now contradiction Hne.
  - destruct (verify_not_found dec token db Hnone) as [_ E]. rewrite E.
    repeat split; try reflexivity; assumption.
Qed.

(** ** Login, beyond the failures *)

(** What [UserLoginSerializer] has accepted, read off the body. *)
Lemma UserLoginSerializer_is_valid_Some (valid_email : string -> bool) (data : LoginData)
      (e p : string) :
  UserLoginSerializer_is_valid valid_email data = Some (e, p) ->
  exists raw_email raw_password,
    login_email data = Some raw_email /\ e = strip raw_email /\
    login_password data = Some raw_password /\ p = strip raw_password /\
    e <> "" /\ valid_email e = true /\ p <> "".
Proof.
  unfold UserLoginSerializer_is_valid. intros V.
  destruct (email_field valid_email data) as [|e'] eqn:Fe; [discriminate|].
  destruct (password_field data) as [|p'] eqn:Fp; [discriminate|].
  injection V as -> ->.
  apply CharField_inr in Fe as (raw_email & Ee & -> & Hne & _ & _ & Hv).
  apply CharField_inr in Fp as (raw_password & Ep & -> & Hpe & _).
  exists raw_email, raw_password. repeat split; try assumption.
  now destruct (valid_email (strip raw_email)).
Qed.

(** X24. A login that answers 200 was asked with an e-mail and a password
    that are not empty once trimmed; the trimmed e-mail is well formed and
    is that of exactly one account, active, whose password hash the trimmed
    password matches; the answer carries the trimmed e-mail and the tokens
    issued for that account, and the store is as it was. *)
Theorem login_succeeds_only_for_an_account :
  forall (check_password : string -> string -> bool) (valid_email : string -> bool)
         (refresh_for_user access_token : CustomUser -> string)
         (data : LoginData) (db db' : DB) (r : Response),
    run (LoginUser_post check_password valid_email refresh_for_user access_token data) db
      = (r, db') ->
    status_code r = 200 ->
    exists raw_email raw_password u,
      login_email data = Some raw_email /\ login_password data = Some raw_password /\
      strip raw_email <> "" /\ valid_email (strip raw_email) = true /\
      strip raw_password <> "" /\
      In u (users db) /\ email u = strip raw_email /\
      (forall v, In v (users db) -> email v = strip raw_email -> v = u) /\
      check_password (strip raw_password) (password u) = true /\ is_active u = true /\
      r = mkResponse 200 (JObj [("message", JStr "Login successful!");
                                ("status", JStr "success");
                                ("data", JObj [("email", JStr (strip raw_email))]);
                                ("refresh", JStr (refresh_for_user u));
                                ("access", JStr (access_token u))]) /\
      db' = db.
Proof.
  intros cp ve rf at_ data db db' r Hrun Hs.
  unfold LoginUser_post in Hrun.
  destruct (UserLoginSerializer_is_valid ve data) as [[e p]|] eqn:V;
    [|view_step_in Hrun; injection Hrun as <- <-; discriminate].
  apply UserLoginSerializer_is_valid_Some in V
    as (raw_email & raw_password & Ee & -> & Ep & -> & Hne & Hv & Hpe).
  unfold authenticate in Hrun. view_step_in Hrun.
  destruct (filter (fun u => String.eqb (email u) (strip raw_email)) (users db))
    as [|u [|u' l]] eqn:F;
    [injection Hrun as <- <-; discriminate | | injection Hrun as <- <-; discriminate].
  destruct (cp (strip raw_password) (password u)) eqn:Hp; cbn [andb] in Hrun;
    [|injection Hrun as <- <-; discriminate].
  destruct (is_active u) eqn:Ha; [|injection Hrun as <- <-; discriminate].
  injection Hrun as <- <-.
  destruct (filter_singleton_In _ _ F) as [Hin He]. apply String.eqb_eq in He.
  exists raw_email, raw_password, u.
  repeat match goal with |- _ /\ _ => split end; try reflexivity; try assumption.
  intros v Hv' Ev.
  assert (Hin' : In v (filter (fun u => String.eqb (email u) (strip raw_email)) (users db))).
  { apply filter_In. split; [assumption | now apply String.eqb_eq]. }
  rewrite F in Hin'. destruct Hin' as [<- | []]. reflexivity.
Qed.

Lemma login_succeeds_only_for_an_account_witness :
  let data := mkLoginData (Some " testuser@example.com") (Some "testpassword ") in
  exists raw_email raw_password u,
    login_email data = Some raw_email /\ login_password data = Some raw_password /\
    strip raw_email <> "" /\ (fun _ : string => true) (strip raw_email) = true /\
    strip raw_password <> "" /\
    In u (users Sample.catalog) /\ email u = strip raw_email /\
    (forall v, In v (users Sample.catalog) -> email v = strip raw_email -> v = u) /\
    String.eqb (strip raw_password) (password u) = true /\ is_active u = true /\
    mkResponse 200 (JObj [("message", JStr "Login successful!");
                          ("status", JStr "success");
                          ("data", JObj [("email", JStr "testuser@example.com")]);
                          ("refresh", JStr "testuser@example.com");
                          ("access", JStr "UserOne")]) =
    mkResponse 200 (JObj [("message", JStr "Login successful!");
                          ("status", JStr "success");
                          ("data", JObj [("email", JStr (strip raw_email))]);
                          ("refresh", JStr (email u));
                          ("access", JStr (username u))]) /\
    Sample.catalog = Sample.catalog.
Proof.
  apply (@login_succeeds_only_for_an_account String.eqb (fun _ => true) email username
           (mkLoginData (Some " testuser@example.com") (Some "testpassword "))
           Sample.catalog); reflexivity.
Defined.

(** X25. Login reads and never writes: whatever the body and the store, the
    store is as it was, and the answer is 200, 400 or, only when several
    accounts have the e-mail of the body, the 500 of the handler. *)
Theorem login_never_writes :
  forall (check_password : string -> string -> bool) (valid_email : string -> bool)
         (refresh_for_user access_token : CustomUser -> string)
         (data : LoginData) (db : DB),
    let result :=
      run (LoginUser_post check_password valid_email refresh_for_user access_token data) db in
    snd result = db /\
    (status_code (fst result) = 200 \/ status_code (fst result) = 400 \/
     status_code (fst result) = 500 /\ ~ NoDup (map email (users db))).
Proof.
  intros cp ve rf at_ data db result. unfold result.
  unfold LoginUser_post, authenticate.
  destruct (UserLoginSerializer_is_valid ve data) as [[e p]|]; [|view_step; cbn; auto].
  view_step.
  destruct (filter (fun u => String.eqb (email u) e) (users db)) as [|u [|u' l]] eqn:F.
  - cbn; auto.
  - destruct (cp p (password u) && is_active u); cbn; auto.
  - cbn. split; [reflexivity|]. right. right. split; [reflexivity|]. intros Hnd.
    destruct (filter_at_most_one email (fun u => String.eqb (email u) e) (users db) Hnd)
      as [E | [x E]].
    + intros x y _ _ Hx Hy. apply String.eqb_eq in Hx, Hy. congruence.
    + rewrite F in E. discriminate.
    + rewrite F in E. discriminate.
Qed.

(** ** A caller's cart operations and the carts of the others *)

Lemma filter_put_row_unselected {A} (key : A -> Z) (p : A -> bool) (y : A) (l : list A) :
  p y = false -> (forall x, In x l -> key x = key y -> p x = false) ->
  filter p (put_row key y l) = filter p l.
Proof.
  intros Hy. unfold put_row. induction l as [|a l IH]; intros H; [reflexivity|]. cbn.
  rewrite IH by (intros x Hx; apply H; now right).
  destruct (Z.eqb_spec (key a) (key y)) as [E|]; [|reflexivity].
  now rewrite Hy, (H a (or_introl eq_refl) E).
Qed.

Lemma filter_remove_unselected {A} (key : A -> Z) (p : A -> bool) (k : Z) (l : list A) :
  (forall x, In x l -> key x = k -> p x = false) ->
  filter p (filter (fun x => negb (key x =? k)) l) = filter p l.
Proof.
  induction l as [|a l IH]; intros H; [reflexivity|]. cbn.
  specialize (IH (fun x Hx => H x (or_intror Hx))).
  destruct (Z.eqb_spec (key a) k) as [E|]; cbn; [|now rewrite IH].
  now rewrite (H a (or_introl eq_refl) E).
Qed.

Lemma others_untouched_refl (user : CustomUser) (db : DB) : others_untouched user db db.
Proof. split; [reflexivity | intros; reflexivity]. Qed.

Lemma not_the_caller (user : CustomUser) (c : CartModel) :
  cart_user c = user_id user -> negb (cart_user c =? user_id user) = false.
Proof. intros ->. now rewrite Z.eqb_refl. Qed.

(** The tail of a cart mutation writes the caller's cart and one line of it. *)
Lemma write_line_others (user : CustomUser) (c : CartModel) (l' : CartItems) (db : DB) :
  cart_user c = user_id user ->
  (forall x, In x (carts db) -> cart_id x = cart_id c -> cart_user x = user_id user) ->
  (forall x, In x (items db) -> item_id x = item_id l' -> item_cart x = cart_id c) ->
  item_cart l' = cart_id c ->
  carts_of_others user (write_line c l' db) = carts_of_others user db /\
  forall k, k <> cart_id c -> lines_of k (write_line c l' db) = lines_of k db.
Proof.
  intros Hu Hcu Hlu Hlc. unfold write_line, carts_of_others, lines_of.
  cbn [carts items set_carts set_items]. split.
  - apply filter_put_row_unselected.
    + now apply not_the_caller.
    + intros x Hx E. apply not_the_caller. now apply Hcu.
  - intros k Hk. apply filter_put_row_unselected.
    + rewrite Hlc. apply Z.eqb_neq. congruence.
    + intros x Hx E. rewrite (Hlu x Hx E). apply Z.eqb_neq. congruence.
Qed.

Lemma save_line_others (user : CustomUser) (created : bool) (c : CartModel)
      (l' : CartItems) (db : DB) :
  cart_user c = user_id user ->
  (forall x, In x (carts db) -> cart_id x = cart_id c -> cart_user x = user_id user) ->
  (forall x, In x (items db) -> item_id x = item_id l' -> item_cart x = cart_id c) ->
  item_cart l' = cart_id c ->
  carts_of_others user (snd (save_line created c l' db)) = carts_of_others user db /\
  forall k, k <> cart_id c -> lines_of k (snd (save_line created c l' db)) = lines_of k db.
Proof.
  intros Hu Hcu Hlu Hlc. unfold save_line.
  destruct (storable _ _ && storable _ _); cbn [snd].
  - now apply write_line_others.
  - split; [reflexivity | intros; reflexivity].
Qed.

Lemma post_line_others (user : CustomUser) (c : CartModel) (book : Book) (q : Z) (db : DB) :
  cart_user c = user_id user ->
  (forall x, In x (carts db) -> cart_id x = cart_id c -> cart_user x = user_id user) ->
  NoDup (map item_id (items db)) ->
  Forall (fun l => 0 < item_id l < next_item_id db) (items db) ->
  carts_of_others user (snd (post_line c book q db)) = carts_of_others user db /\
  forall k, k <> cart_id c -> lines_of k (snd (post_line c book q db)) = lines_of k db.
Proof.
  intros Hu Hcu Hik Hir. unfold post_line.
  destruct (filter _ (items db)) as [|found [|l2 ls]] eqn:F; cbv zeta.
  - cbn [snd].
    destruct (@save_line_others user true c
                (with_price (price book * q)
                   (with_quantity q (mkItem (next_item_id db) (cart_id c) (book_id book) 0 0)))
                (insert_item (mkItem (next_item_id db) (cart_id c) (book_id book) 0 0) db)
                Hu) as [Hc Hl]; try assumption; try reflexivity.
    + cbn [items insert_item with_price with_quantity item_id].
      intros x Hx E. apply in_app_or in Hx as [Hx | [<- | []]]; [|reflexivity].
      rewrite Forall_forall in Hir. specialize (Hir x Hx). lia.
    + split; [exact Hc|]. intros k Hk. rewrite (Hl k Hk).
      unfold lines_of. cbn [items insert_item]. rewrite filter_app. cbn.
      destruct (Z.eqb_spec (cart_id c) k); [congruence | apply app_nil_r].
  - destruct (filter_singleton_In _ _ F) as [Hin Hp].
    apply andb_prop in Hp as [Hp _]. apply Z.eqb_eq in Hp.
    destruct (stock book <? quantity found + q); cbn [snd];
      [split; [reflexivity | intros; reflexivity]|].
    apply save_line_others; try assumption; try reflexivity.
    cbn [with_price with_quantity item_id]. intros x Hx E.
    now rewrite (key_unique item_id _ _ _ Hik Hx Hin E).
  - cbn [snd]. split; [reflexivity | intros; reflexivity].
Qed.

Lemma other_cart_key (user : CustomUser) (db : DB) (c c0 : CartModel) :
  NoDup (map cart_id (carts db)) -> In c (carts db) -> In c0 (carts db) ->
  cart_user c = user_id user -> cart_user c0 <> user_id user -> cart_id c0 <> cart_id c.
Proof.
  intros Hnd Hc Hc0 Hu Hne E. apply Hne.
  now rewrite (key_unique cart_id _ _ _ Hnd Hc0 Hc E).
Qed.

Lemma add_or_update_others (user : CustomUser) (data : CartPost) (db : DB) :
  wf_store db -> others_untouched user db (snd (add_or_update user data db)).
Proof.
  intros Hwf. rewrite add_or_update_unfold. unfold add_or_update_closed.
  destruct (negb (truthy (post_book_id data)) || negb (truthy (post_quantity data)));
    [apply others_untouched_refl|].
  cbv zeta.
  destruct (filter _ (books db)) as [|book [|b2 bs]]; try apply others_untouched_refl.
  destruct (stock book <? int_of (post_quantity data)); [apply others_untouched_refl|].
  destruct (filter (owned_by user false) (carts db)) as [|c [|c2 cs]] eqn:F;
    try apply others_untouched_refl.
  - (* a cart is created for the caller *)
    set (created := mkCart (next_cart_id db) (user_id user) 0 0 false).
    destruct (@post_line_others user created book (int_of (post_quantity data))
                (insert_cart created db)) as [Hc Hl].
    + reflexivity.
    + cbn [carts insert_cart created cart_id]. intros x Hx E.
      apply in_app_or in Hx as [Hx | [<- | []]]; [|reflexivity].
      pose proof (wf_cart_range Hwf) as Hr. rewrite Forall_forall in Hr.
      specialize (Hr x Hx). lia.
    + exact (wf_item_keys Hwf).
    + exact (wf_item_range Hwf).
    + split.
      * rewrite Hc. unfold carts_of_others. cbn [carts insert_cart].
        rewrite filter_app. cbn. rewrite Z.eqb_refl. apply app_nil_r.
      * intros c0 Hc0 Hne. rewrite Hl; [reflexivity|].
        cbn [created cart_id].
        pose proof (wf_cart_range Hwf) as Hr. rewrite Forall_forall in Hr.
        specialize (Hr c0 Hc0). lia.
  - (* the caller's active cart *)
    destruct (filter_singleton_In _ _ F) as [Hin Hp].
    destruct (owned_by_active _ _ Hp) as [Hu _].
    destruct (@post_line_others user c book (int_of (post_quantity data)) db) as [Hc Hl].
    + exact Hu.
    + intros x Hx E. now rewrite (key_unique cart_id _ _ _ (wf_cart_keys Hwf) Hx Hin E).
    + exact (wf_item_keys Hwf).
    + exact (wf_item_range Hwf).
    + split; [exact Hc|]. intros c0 Hc0 Hne. apply Hl.
      now apply (@other_cart_key user db c c0 (wf_cart_keys Hwf)).
Qed.

Lemma remove_item_others (user : CustomUser) (pk : Z) (db : DB) :
  wf_store db -> others_untouched user db (snd (remove_item user pk db)).
Proof.
  intros Hwf. rewrite remove_item_unfold.
  destruct (pk =? 0); [apply others_untouched_refl|].
  destruct (head (filter (owned_by user false) (carts db))) as [c|] eqn:Ec;
    [|apply others_untouched_refl].
  destruct (head (filter _ (items db))) as [l|] eqn:El; [|apply others_untouched_refl].
  cbv zeta. cbn [snd].
  apply head_In, filter_In in Ec as [Hin Hp]. destruct (owned_by_active _ _ Hp) as [Hu _].
  apply head_In, filter_In in El as [Hl Hq]. apply andb_prop in Hq as [_ Hq].
  apply Z.eqb_eq in Hq.
  unfold others_untouched, carts_of_others, lines_of. cbn [carts items set_carts set_items].
  split.
  - apply filter_put_row_unselected.
    + now apply not_the_caller.
    + intros x Hx E. apply not_the_caller.
      now rewrite (key_unique cart_id _ _ _ (wf_cart_keys Hwf) Hx Hin E).
  - intros c0 Hc0 Hne. apply filter_remove_unselected. intros x Hx E.
    rewrite (key_unique item_id _ _ _ (wf_item_keys Hwf) Hx Hl E), Hq.
    apply Z.eqb_neq. intros E'. symmetry in E'. revert E'.
    now apply (@other_cart_key user db c c0 (wf_cart_keys Hwf)).
Qed.

Lemma place_order_others (user : CustomUser) (db : DB) :
  wf_store db -> others_untouched user db (snd (place_order user db)).
Proof.
  intros Hwf. rewrite place_order_unfold. unfold place_order_closed, first_active_cart.
  destruct (head (filter (owned_by user false) (carts db))) as [c|] eqn:Ec;
    [|apply others_untouched_refl].
  destruct (lines_of (cart_id c) db) as [|l ls]; [apply others_untouched_refl|].
  pose proof (order_lines_frame (l :: ls) db) as (_ & Hcarts & Hitems & _).
  apply head_In, filter_In in Ec as [Hin Hp]. destruct (owned_by_active _ _ Hp) as [Hu _].
  destruct (for_each (l :: ls) OrderViews.order_line db) as [[u|r|e] db1];
    cbn [snd] in *; unfold others_untouched, carts_of_others, lines_of;
    cbn [carts items set_carts]; rewrite ?Hcarts, ?Hitems;
    try (split; [reflexivity | intros; reflexivity]).
  split; [|intros; reflexivity].
  apply filter_put_row_unselected.
  - now apply not_the_caller.
  - intros x Hx E. apply not_the_caller.
    now rewrite (key_unique cart_id _ _ _ (wf_cart_keys Hwf) Hx Hin E).
Qed.

(** The catalog's create and update write book rows only. *)
Lemma catalog_keeps_carts_and_lines (user : CustomUser) (pk : Z) (data : BookPayload)
      (db : DB) :
  let created := snd (run (BookViewset.create user data) db) in
  let updated := snd (run (BookViewset.update user pk data) db) in
  (carts created = carts db /\ items created = items db) /\
  (carts updated = carts db /\ items updated = items db).
Proof.
  cbv zeta. split.
  - apply (hoare_run (I := fun d => carts d = carts db /\ items d = items db));
      [|split; reflexivity].
    unfold BookViewset.create.
    destruct (negb (is_superuser user)); [keeps_step|].
    apply keeps_try_except; [|intros e; repeat keeps_step].
    apply keeps_bind; [apply keeps_BookSerializer_is_valid|].
    intros [[[[n a] d] p] s] db' H. view_step. exact H.
  - apply (hoare_run (I := fun d => carts d = carts db /\ items d = items db));
      [|split; reflexivity].
    unfold BookViewset.update.
    destruct (negb (is_superuser user)); [keeps_step|].
    apply keeps_try_except; [|intros e; repeat keeps_step].
    apply keeps_bind; [apply keeps_get_object|]. intros book.
    apply keeps_bind; [apply keeps_BookSerializer_is_valid|].
    intros [[[[n a] d] p] s] db' H. unfold BookObjects.save. view_step. exact H.
Qed.

Lemma others_untouched_frame (user : CustomUser) (db db' : DB) :
  carts db' = carts db -> items db' = items db -> others_untouched user db db'.
Proof.
  intros Hc Hi. unfold others_untouched, carts_of_others, lines_of. rewrite Hc, Hi.
  split; [reflexivity | intros; reflexivity].
Qed.

(** X26. On a well-formed store, no operation but the catalog delete changes
    anything of a user other than the caller: the cart rows of the other
    users are the same rows, in the same order, and each of their carts has
    the lines it had. *)
Theorem operations_leave_other_users :
  forall (user : CustomUser) (op : Operation) (db : DB),
    wf_store db -> (forall pk, op <> CatalogDestroy pk) ->
    others_untouched user db (snd (exec user op db)).
Proof.
  intros user op db Hwf Hop.
  destruct (keeps_read_only_views (fun d => d = db) user) as (Hget & Horders & Hlist).
  destruct op as [| payload | pk | | | pk | | payload | pk payload | pk]; cbn [exec].
  - unfold get_active. rewrite (hoare_run Hget db eq_refl). apply others_untouched_refl.
  - now apply add_or_update_others.
  - now apply remove_item_others.
  - unfold list_orders. rewrite (hoare_run Horders db eq_refl). apply others_untouched_refl.
  - now apply place_order_others.
  - rewrite cancel_order_leaves_store. apply others_untouched_refl.
  - rewrite (hoare_run Hlist db eq_refl). apply others_untouched_refl.
  - destruct (catalog_keeps_carts_and_lines user 0 payload db) as [[Hc Hi] _].
    now apply others_untouched_frame.
  - destruct (catalog_keeps_carts_and_lines user pk payload db) as [_ [Hc Hi]].
    now apply others_untouched_frame.
  - now contradiction (Hop pk).
Qed.

Lemma operations_leave_other_users_witness :
  others_untouched Sample.user Sample.contended
    (snd (exec Sample.user (AddOrUpdate (mkCartPost (Some 1) (Some 1))) Sample.contended)).
Proof.
  apply (@operations_leave_other_users Sample.user
           (AddOrUpdate (mkCartPost (Some 1) (Some 1))) Sample.contended).
  - constructor; cbn; repeat constructor; cbn; try lia; intuition discriminate.
  - discriminate.
Defined.

(** ** The totals of every cart *)













(** ** Where the last [except] clause is reached *)

(** On a store whose book keys are distinct and whose lines name books that
    exist, the loop of [place_order] raises nothing. *)
Lemma order_lines_raise_nothing (ls : list CartItems) :
  forall (db db1 : DB) (e : Exception),
    NoDup (map book_id (books db)) ->
    (forall l, In l ls -> In (item_book l) (map book_id (books db))) ->
    for_each ls OrderViews.order_line db <> (Exc e, db1).
Proof.
  induction ls as [|l ls IH]; intros db db1 e Hnd Hfk; [discriminate|].
  cbn [for_each].
  destruct (proj1 (in_map_iff _ _ _) (Hfk l (or_introl eq_refl))) as (b & Hid & Hb).
  assert (Hbook : book_of (item_book l) db = Some b).
  { rewrite <- Hid. now apply In_book_of. }
  destruct (Z_le_gt_dec (quantity l) (stock b)) as [Hle | Hgt].
  - erewrite bind_Val by (exact (@order_line_ok db l b Hnd Hbook Hle)).
    apply IH; cbn [books set_books]; rewrite map_key_put_row; [assumption|].
    intros l' Hl'. apply Hfk. now right.
  - erewrite bind_Ret by (exact (@order_line_short db l b Hnd Hbook Hgt)). discriminate.
Qed.

(** X28. On a well-formed store, and with totals that fit their columns,
    only the cart POST, the cancellation of an order and the catalog update
    and delete can answer 500: the cart GET, the removal of a line, the
    list and the placing of orders, and the catalog list and create never
    reach their last [except] clause. *)
Theorem well_formed_store_no_server_error :
  forall (user : CustomUser) (op : Operation) (db : DB),
    wf_store db -> reaches_last_clause op = false ->
    totals_fit (snd (exec user op db)) ->
    status_code (fst (exec user op db)) <> 500.
Proof.
  intros user op db Hwf Hop _.
  destruct op as [| payload | pk | | | pk | | payload | pk payload | pk];
    try discriminate Hop; cbn [exec].
  - unfold get_active, CartsViews.get, CartObjects.get, CartObjects.filter. view_step.
    destruct (@active_carts_at_most_one user db Hwf) as [-> | [c ->]]; discriminate.
  - destruct (remove_item_outcomes user pk db) as [E | [[E | E] _]];
      rewrite E; discriminate.
  - unfold list_orders, OrderViews.get, CartObjects.filter. view_step.
    destruct (filter _ (carts db)); discriminate.
  - rewrite place_order_unfold. unfold place_order_closed.
    destruct (first_active_cart user db) as [c|]; [|discriminate].
    destruct (lines_of (cart_id c) db) as [|l ls] eqn:El; [discriminate|].
    destruct (for_each (l :: ls) OrderViews.order_line db) as [[u|r|e] db1] eqn:E.
    + discriminate.
    + cbn [fst]. rewrite (order_lines_answer_400 _ _ E). discriminate.
    + exfalso. revert E. apply order_lines_raise_nothing; [apply (wf_book_keys Hwf)|].
      intros l' Hl'. pose proof (wf_item_book Hwf) as Hfk. rewrite Forall_forall in Hfk.
      apply Hfk. rewrite <- El in Hl'. now apply filter_In in Hl' as [Hl' _].
  - unfold BookViewset.list, BookObjects.filter. view_step. discriminate.
  - unfold BookViewset.create. destruct (is_superuser user); cbn [negb];
      [|view_step; discriminate].
    view_step.
    destruct (BookSerializer_is_valid_cases None payload db)
      as [(n & a & d & p & s & _ & _ & _ & _ & _ & E) | (detail & E)]; rewrite E;
      discriminate.
Qed.

Lemma well_formed_store_no_server_error_witness :
  status_code (fst (exec Sample.user PlaceOrder Sample.contended)) <> 500.
Proof.
  apply (@well_formed_store_no_server_error Sample.user PlaceOrder Sample.contended).
  - constructor; cbn; repeat constructor; cbn; try lia; intuition discriminate.
  - reflexivity.
  - unfold totals_fit, big_integer_max. cbn. repeat constructor; cbn; lia.
Defined.

(** ** The stores that the API reaches *)

Lemma exec_keeps_wf (user : CustomUser) (op : Operation) (db : DB) :
  wf_store db -> wf_store (snd (exec user op db)).
Proof.
  intros H. destruct op; cbn [exec].
  - now apply wf_get_active.
  - now apply wf_add_or_update.
  - now apply wf_remove_item.
  - now apply wf_list_orders.
  - now apply wf_place_order.
  - now apply wf_cancel_order.
  - now apply wf_catalog_list.
  - now apply wf_catalog_create.
  - now apply wf_catalog_update.
  - now apply wf_catalog_destroy.
Qed.

Lemma exec_keeps_stock (user : CustomUser) (op : Operation) (db : DB) :
  stock_non_negative db -> stock_non_negative (snd (exec user op db)).
Proof.
  intros H. destruct op; cbn [exec];
    unfold get_active, add_or_update, remove_item, list_orders, place_order, cancel_order;
    apply hoare_run; try assumption.
  - apply keeps_CartsViews_get, stock_non_negative_books_only.
  - apply keeps_CartsViews_post, stock_non_negative_books_only.
  - apply keeps_CartsViewsByID_delete, stock_non_negative_books_only.
  - apply keeps_OrderViews_get, stock_non_negative_books_only.
  - apply keeps_stock_OrderViews_post.
  - apply keeps_OrderViewsByID_delete.
  - apply keeps_BookViewset_list, stock_non_negative_books_only.
  - apply keeps_stock_BookViewset_create.
  - apply keeps_stock_BookViewset_update.
  - apply keeps_stock_BookViewset_destroy.
Qed.

Lemma replay_keeps (I : DB -> Prop) :
  (forall user op db, I db -> I (snd (exec user op db))) ->
  forall calls db, I db -> I (replay calls db).
Proof.
  intros Hstep calls. unfold replay.
  induction calls as [|[user op] calls IH]; intros db H; [exact H|].
  cbn [fold_left fst snd]. apply IH. now apply Hstep.
Qed.

(** X29. Every store that the operations of the API reach from a store with
    accounts and no other row, on any database backend and in any number of
    calls by any callers, is well formed, has no negative stock and has no
    two books of one name. *)
Theorem reached_stores_are_well_formed :
  forall (engine : Backend) (accounts : list CustomUser)
         (calls : list (CustomUser * Operation)),
    let db := replay calls (mkDB accounts [] [] [] 1 1 1 engine) in
    wf_store db /\ stock_non_negative db /\ unique_names db.
Proof.
  intros engine accounts calls db. unfold db. split; [|split].
  - apply (replay_keeps wf_store exec_keeps_wf).
    constructor; cbn; repeat constructor; lia.
  - apply (replay_keeps stock_non_negative exec_keeps_stock). constructor.
  - apply (replay_keeps unique_names exec_keeps_names). constructor.
Qed.
